(** * mock-gcs: an in-memory double of the Google Cloud Storage client

    A shallow embedding of [MockStorage.ts], [MockBucket.ts] and
    [MockFile.ts], and the properties of the entity model and of the
    queued-error protocol that the specification states about them.

    The three classes are objects with identity and mutable fields, so the
    embedding keeps one store per class and passes references around;
    [async] methods are run to completion one after the other, a rejected
    promise being a thrown completion.  The records [files] and [buckets]
    are object literals used as maps: reading a property of one finds what
    was stored under that name or, failing that, what the object inherits
    from its prototype, and assigning to [__proto__] replaces the
    prototype.  The embedding follows both. *)

From Stdlib Require Import String Ascii ZArith NArith List Bool Lia.
From Stdlib.Strings Require Import Byte.
From Stdlib Require Import DecimalString.
From stdpp Require Import base option list.

Import ListNotations.
Local Open Scope string_scope.
Local Open Scope list_scope.

Set Default Proof Using "Type".
Set Warnings "-register-all".

(** ** JavaScript objects used as maps *)

(** The own string-keyed properties of an ordinary object, in the order
    in which [Object.entries], [Object.keys] and the spread syntax visit
    them: keys that are array indices first, in ascending numeric order,
    then every other key in the order in which it was first added. *)
Module Obj.

Definition is_digit (c : ascii) : bool :=
  let n := N_of_ascii c in ((48 <=? n) && (n <=? 57))%N.

Fixpoint digits_value (acc : N) (s : string) : option N :=
  match s with
  | EmptyString => Some acc
  | String c s' =>
      if is_digit c
      then digits_value (acc * 10 + (N_of_ascii c - 48))%N s'
      else None
  end.

(** A key is an array index when it is the canonical decimal spelling
    of an integer between 0 and 2^32 - 2. *)
Definition array_index (k : string) : option N :=
  match k with
  | EmptyString => None
  | String c rest =>
      if (Ascii.eqb c "0"%char && negb (String.eqb rest ""))%bool then None
      else match digits_value 0 k with
           | Some n => if (n <=? 4294967294)%N then Some n else None
           | None => None
           end
  end.

Section Props.
Context {V : Type}.

Definition t : Type := list (string * V).

Definition empty : t := [].

(** The own property [k] of [o], if it has one. *)
Fixpoint get (k : string) (o : t) : option V :=
  match o with
  | [] => None
  | (k', v) :: o' => if String.eqb k k' then Some v else get k o'
  end.

Definition has (k : string) (o : t) : bool :=
  match get k o with Some _ => true | None => false end.

(** Assignment to a property the object already has: the value
    changes, the position does not. *)
Fixpoint update (k : string) (v : V) (o : t) : t :=
  match o with
  | [] => []
  | (k', v') :: o' =>
      if String.eqb k k' then (k', v) :: o' else (k', v') :: update k v o'
  end.

(** A new array-index key goes after the smaller indices and before
    everything else. *)
Fixpoint insert_index (i : N) (k : string) (v : V) (o : t) : t :=
  match o with
  | [] => [(k, v)]
  | (k', v') :: o' =>
      match array_index k' with
      | Some j =>
          if (j <? i)%N then (k', v') :: insert_index i k v o'
          else (k, v) :: o
      | None => (k, v) :: o
      end
  end.

Definition add (k : string) (v : V) (o : t) : t :=
  match array_index k with
  | Some i => insert_index i k v o
  | None => o ++ [(k, v)]
  end.

(** [o[k] = v] *)
Definition set (k : string) (v : V) (o : t) : t :=
  if has k o then update k v o else add k v o.

(** [delete o[k]] *)
Definition remove (k : string) (o : t) : t :=
  List.filter (fun e => negb (String.eqb k (fst e))) o.

(** [Object.entries(o)], [Object.keys(o)], [Object.values(o)] *)
Definition entries (o : t) : list (string * V) := o.
Definition keys (o : t) : list string := List.map fst o.
Definition values (o : t) : list V := List.map snd o.

(** [{ ...a, ...b }] once the properties of [a] are in place: each
    property of [b] is assigned in turn. *)
Definition assign (a b : t) : t :=
  List.fold_left (fun acc e => set (fst e) (snd e) acc) b a.

End Props.

Arguments t : clear implicits.
Arguments array_index : simpl never.

End Obj.

(** ** Values *)

(** [Metadata] is [any]; the values a caller passes are plain data:
    [undefined], [null], booleans, (integer) numbers, strings and object
    literals. *)
Inductive JsVal : Type :=
| JUndefined
| JNull
| JBool (b : bool)
| JNum (n : Z)
| JStr (s : string)
| JObj (props : Obj.t JsVal).

(** [!!v] *)
Definition truthy (v : JsVal) : bool :=
  match v with
  | JUndefined | JNull => false
  | JBool b => b
  | JNum n => negb (n =? 0)%Z
  | JStr s => negb (String.eqb s "")
  | JObj _ => true
  end.

Definition index_key (i : nat) : string :=
  DecimalString.NilEmpty.string_of_uint (Nat.to_uint i).

(** The characters of a string, one property per index.  A [string]
    stands for a JavaScript string of ASCII characters, for which the
    UTF-16 units that the spread syntax visits and the UTF-8 bytes that
    [Buffer.from] produces are the characters themselves. *)
Fixpoint string_props (i : nat) (s : string) : list (string * JsVal) :=
  match s with
  | EmptyString => []
  | String c s' => (index_key i, JStr (String c "")) :: string_props (S i) s'
  end.

(** The own enumerable properties that [...v] copies: those of an
    object, the characters of a string, none for the other values. *)
Definition own_props (v : JsVal) : list (string * JsVal) :=
  match v with
  | JObj props => Obj.entries props
  | JStr s => string_props 0 s
  | _ => []
  end.

(** [{ ...a, ...b }] *)
Definition spread2 (a b : JsVal) : Obj.t JsVal :=
  Obj.assign (Obj.assign Obj.empty (own_props a)) (own_props b).

(** [{ ...a, ...b, metadata: c }] *)
Definition spread2_metadata (a b c : JsVal) : Obj.t JsVal :=
  Obj.set "metadata" c (spread2 a b).

(** A thrown value.  [MkError] is [new Error(message)]; [TypeError] is
    what the runtime throws when a property is read from [undefined] or
    [null], when something that is no function is called, and when a
    built-in is handed an argument of the wrong type. *)
Inductive Error : Type :=
| MkError (message : string)
| TypeError (message : string).

(** [v.metadata]: reading the property throws on [undefined] and
    [null], and yields [undefined] when [v] has no such property. *)
Definition prop_metadata (v : JsVal) : Error + JsVal :=
  match v with
  | JUndefined =>
      inl (TypeError "Cannot read properties of undefined (reading 'metadata')")
  | JNull =>
      inl (TypeError "Cannot read properties of null (reading 'metadata')")
  | JObj props => inr (default JUndefined (Obj.get "metadata" props))
  | _ => inr JUndefined
  end.

Definition Buffer : Type := list byte.

(** [string | Buffer] *)
Inductive Data : Type :=
| DString (s : string)
| DBuffer (b : Buffer).

(** [Buffer.isBuffer(data) ? data : Buffer.from(data)] *)
Definition to_buffer (data : Data) : Buffer :=
  match data with
  | DBuffer b => b
  | DString s => list_byte_of_string s
  end.

(** What the field [contents] of a file holds: a Buffer, or [false],
    which is what [writable.getContents()] hands to the [finish] handler
    of a write stream that nothing was written to. *)
Inductive Contents : Type :=
| CBuffer (b : Buffer)
| CFalse.

(** [Buffer.isBuffer(data) ? data : Buffer.from(data)] for the contents
    of a file, which [copy] hands to [save]: [Buffer.from(false)]
    throws. *)
Definition contents_to_buffer (c : Contents) : Error + Buffer :=
  match c with
  | CBuffer b => inr b
  | CFalse =>
      inl (TypeError "The first argument must be of type string or an instance of Buffer, ArrayBuffer, or Array or an Array-like Object. Received type boolean (false)")
  end.

(** [!!contents] for [contents : string | Buffer]: a buffer is an
    object, the empty string is falsy. *)
Definition data_truthy (data : Data) : bool :=
  match data with
  | DBuffer _ => true
  | DString s => negb (String.eqb s "")
  end.

(** ** The fault-injection table *)

(** [keyof IMockableFile] *)
Inductive Method : Type :=
| m_delete
| m_exists
| m_download
| m_getSignedUrl
| m_save
| m_setMetadata
| m_getMetadata.

Definition Method_eqb (a b : Method) : bool :=
  match a, b with
  | m_delete, m_delete | m_exists, m_exists | m_download, m_download
  | m_getSignedUrl, m_getSignedUrl | m_save, m_save
  | m_setMetadata, m_setMetadata | m_getMetadata, m_getMetadata => true
  | _, _ => false
  end.

(** [{ type: 'error'; error: Error }] *)
Inductive MockableFileMockError : Type :=
| MockError (error : Error).

Module Queues.

Record t : Type := mk {
  exists_ : list MockableFileMockError;
  delete : list MockableFileMockError;
  download : list MockableFileMockError;
  getSignedUrl : list MockableFileMockError;
  save : list MockableFileMockError;
  setMetadata : list MockableFileMockError;
  getMetadata : list MockableFileMockError
}.

(** The object literal of the constructor and of [mockReset()]. *)
Definition empty : t := mk [] [] [] [] [] [] [].

(** [queues[method]] *)
Definition get (m : Method) (q : t) : list MockableFileMockError :=
  match m with
  | m_delete => delete q
  | m_exists => exists_ q
  | m_download => download q
  | m_getSignedUrl => getSignedUrl q
  | m_save => save q
  | m_setMetadata => setMetadata q
  | m_getMetadata => getMetadata q
  end.

(** [queues[method] = l] *)
Definition set (m : Method) (l : list MockableFileMockError) (q : t) : t :=
  match m with
  | m_delete =>
      mk (exists_ q) l (download q) (getSignedUrl q) (save q)
         (setMetadata q) (getMetadata q)
  | m_exists =>
      mk l (delete q) (download q) (getSignedUrl q) (save q)
         (setMetadata q) (getMetadata q)
  | m_download =>
      mk (exists_ q) (delete q) l (getSignedUrl q) (save q)
         (setMetadata q) (getMetadata q)
  | m_getSignedUrl =>
      mk (exists_ q) (delete q) (download q) l (save q)
         (setMetadata q) (getMetadata q)
  | m_save =>
      mk (exists_ q) (delete q) (download q) (getSignedUrl q) l
         (setMetadata q) (getMetadata q)
  | m_setMetadata =>
      mk (exists_ q) (delete q) (download q) (getSignedUrl q) (save q)
         l (getMetadata q)
  | m_getMetadata =>
      mk (exists_ q) (delete q) (download q) (getSignedUrl q) (save q)
         (setMetadata q) l
  end.

End Queues.

(** ** The three classes and the store *)

(** References to a [MockStorage], a [MockBucket], a [MockFile]. *)
Abbreviation sref := nat (only parsing).
Abbreviation bref := nat (only parsing).
Abbreviation fref := nat (only parsing).

(** The fields of a [MockFile]. *)
Module File.

Record t : Type := mk {
  name : string;
  bucket : bref;
  parent : bref;
  storage : sref;
  metadata : JsVal;
  contents : Contents;
  mockQueues : Queues.t
}.

Definition set_metadata (v : JsVal) (o : t) : t :=
  mk (name o) (bucket o) (parent o) (storage o) v (contents o) (mockQueues o).

Definition set_contents (b : Contents) (o : t) : t :=
  mk (name o) (bucket o) (parent o) (storage o) (metadata o) b (mockQueues o).

Definition set_mockQueues (q : Queues.t) (o : t) : t :=
  mk (name o) (bucket o) (parent o) (storage o) (metadata o) (contents o) q.

End File.

(** What a property read of the record [files] can yield, and so what
    [file] can return and [files] can come to hold: a file, or one of the
    values that the record inherits: a function of [Object.prototype] or
    that prototype itself and, once a file has become the prototype of
    the record, a field of that file (its name, its bucket, its storage,
    its metadata, its contents, its table of queues) or a method of
    [MockFile.prototype]. *)
Inductive Value : Type :=
| VFile (f : fref)
| VBucket (b : bref)
| VStorage (s : sref)
| VJs (v : JsVal)
| VContents (c : Contents)
| VQueues (f : fref)
| VMethod (name : string)
| VBuiltin (name : string)
| VObjectPrototype.

(** [!!v] *)
Definition value_truthy (v : Value) : bool :=
  match v with
  | VJs j => truthy j
  | VContents CFalse => false
  | _ => true
  end.

(** [!!v] for the result of a property read, [None] being [undefined]. *)
Definition defined_truthy (v : option Value) : bool :=
  match v with
  | Some x => value_truthy x
  | None => false
  end.

(** The fields of a [MockBucket].  [files] holds the own properties of
    the record and [files_proto] its prototype: [None] for
    [Object.prototype], which [{}] gives it, or the file that an
    assignment to [files.__proto__] has put in its place. *)
Module Bucket.

Record t : Type := mk {
  name : string;
  storage : sref;
  files : Obj.t Value;
  files_proto : option fref
}.

Definition set_files (fs : Obj.t Value) (o : t) : t :=
  mk (name o) (storage o) fs (files_proto o).

Definition set_files_proto (p : option fref) (o : t) : t :=
  mk (name o) (storage o) (files o) p.

End Bucket.

(** The field of a [MockStorage]. *)
Module Storage.

Record t : Type := mk {
  buckets : Obj.t bref
}.

End Storage.

(** The objects allocated so far, a reference being the position of its
    object in the store of its class, and the local file system as far
    as [download({ destination })] and [upload] use it: [disk] holds the
    files that can be read, a path standing for the file it names, and
    [refused] the paths that the file system does not let be written (a
    directory, a missing folder, a read-only file), each with the error
    that [fs.writeFileSync] throws for it. *)
Module Heap.

Record t : Type := mk {
  storages : list Storage.t;
  buckets : list Bucket.t;
  files : list File.t;
  disk : Obj.t Buffer;
  refused : Obj.t Error
}.

Definition empty : t := mk [] [] [] [] [].

Definition set_storages (l : list Storage.t) (h : t) : t :=
  mk l (buckets h) (files h) (disk h) (refused h).

Definition set_buckets (l : list Bucket.t) (h : t) : t :=
  mk (storages h) l (files h) (disk h) (refused h).

Definition set_files (l : list File.t) (h : t) : t :=
  mk (storages h) (buckets h) l (disk h) (refused h).

Definition set_disk (l : Obj.t Buffer) (h : t) : t :=
  mk (storages h) (buckets h) (files h) l (refused h).

End Heap.

(** ** Running a method *)

(** How a call ends: with a value, with a thrown value, or [Dangling]
    when it was handed a reference to nothing, which no caller of the
    classes can produce. *)
Inductive Completion (A : Type) : Type :=
| Return (a : A)
| Throw (e : Error)
| Dangling.

Arguments Return {A} a.
Arguments Throw {A} e.
Arguments Dangling {A}.

Definition M (A : Type) : Type := Heap.t -> Completion A * Heap.t.

Definition ret {A} (a : A) : M A := fun h => (Return a, h).

Definition throw {A} (e : Error) : M A := fun h => (Throw e, h).

Definition bind {A B} (m : M A) (k : A -> M B) : M B :=
  fun h =>
    match m h with
    | (Return a, h') => k a h'
    | (Throw e, h') => (Throw e, h')
    | (Dangling, h') => (Dangling, h')
    end.

Notation "'let!' x ':=' m 'in' k" := (bind m (fun x => k))
  (at level 10, x name, m at level 100, k at level 200).

Notation "'do!' m 'in' k" := (bind m (fun _ => k))
  (at level 10, m at level 100, k at level 200).

Definition when (b : bool) (m : M unit) : M unit :=
  if b then m else ret tt.

Definition getStorage (s : sref) : M Storage.t :=
  fun h =>
    match Heap.storages h !! s with
    | Some o => (Return o, h)
    | None => (Dangling, h)
    end.

Definition getBucket (b : bref) : M Bucket.t :=
  fun h =>
    match Heap.buckets h !! b with
    | Some o => (Return o, h)
    | None => (Dangling, h)
    end.

Definition getFile (f : fref) : M File.t :=
  fun h =>
    match Heap.files h !! f with
    | Some o => (Return o, h)
    | None => (Dangling, h)
    end.

Definition modifyStorage (s : sref) (g : Storage.t -> Storage.t) : M unit :=
  fun h =>
    match Heap.storages h !! s with
    | Some o => (Return tt, Heap.set_storages (<[s := g o]> (Heap.storages h)) h)
    | None => (Dangling, h)
    end.

Definition modifyBucket (b : bref) (g : Bucket.t -> Bucket.t) : M unit :=
  fun h =>
    match Heap.buckets h !! b with
    | Some o => (Return tt, Heap.set_buckets (<[b := g o]> (Heap.buckets h)) h)
    | None => (Dangling, h)
    end.

Definition modifyFile (f : fref) (g : File.t -> File.t) : M unit :=
  fun h =>
    match Heap.files h !! f with
    | Some o => (Return tt, Heap.set_files (<[f := g o]> (Heap.files h)) h)
    | None => (Dangling, h)
    end.

Definition allocStorage (o : Storage.t) : M sref :=
  fun h =>
    (Return (length (Heap.storages h)),
     Heap.set_storages (Heap.storages h ++ [o]) h).

Definition allocBucket (o : Bucket.t) : M bref :=
  fun h =>
    (Return (length (Heap.buckets h)),
     Heap.set_buckets (Heap.buckets h ++ [o]) h).

Definition allocFile (o : File.t) : M fref :=
  fun h =>
    (Return (length (Heap.files h)), Heap.set_files (Heap.files h ++ [o]) h).

(** [fs.writeFileSync(path, data)]: the argument is checked first, and
    [false] is not data that can be written; then the file system
    refuses the path or takes the bytes. *)
Definition writeFileSync (path : string) (data : Contents) : M unit :=
  fun h =>
    match data with
    | CFalse =>
        (Throw (TypeError "The data argument must be of type string or an instance of Buffer, TypedArray, or DataView. Received type boolean (false)"), h)
    | CBuffer bytes =>
        match Obj.get path (Heap.refused h) with
        | Some e => (Throw e, h)
        | None =>
            (Return tt, Heap.set_disk (Obj.set path bytes (Heap.disk h)) h)
        end
    end.

(** ** Reading and assigning a property of the records *)

(** The names of the properties of [Object.prototype], [__proto__]
    apart, and of the methods of [MockFile.prototype]. *)
Definition object_prototype_names : list string :=
  ["constructor"; "__defineGetter__"; "__defineSetter__"; "hasOwnProperty";
   "__lookupGetter__"; "__lookupSetter__"; "isPrototypeOf";
   "propertyIsEnumerable"; "toString"; "valueOf"; "toLocaleString"].

Definition MockFile_prototype_names : list string :=
  ["constructor"; "mustBeExists"; "markAsExists"; "mockReset"; "mockErrorOnce";
   "delete"; "exists"; "setMetadata"; "getMetadata"; "getSignedUrl";
   "createReadStream"; "createWriteStream"; "download"; "save"; "copy"].

Definition in_names (k : string) (names : list string) : bool :=
  existsb (String.eqb k) names.

(** What a read of [k] finds on [Object.prototype], at the end of the
    chain of an object whose prototype is [proto]: the getter of
    [__proto__] yields that prototype, the other names are functions. *)
Definition object_prototype_get (proto : Value) (k : string) : option Value :=
  if String.eqb k "__proto__" then Some proto
  else if in_names k object_prototype_names then Some (VBuiltin k)
  else None.

(** What a read of [k] finds on the file [this] and on
    [MockFile.prototype]. *)
Definition file_get (this : fref) (o : File.t) (k : string) : option Value :=
  if String.eqb k "name" then Some (VJs (JStr (File.name o)))
  else if String.eqb k "bucket" then Some (VBucket (File.bucket o))
  else if String.eqb k "parent" then Some (VBucket (File.parent o))
  else if String.eqb k "storage" then Some (VStorage (File.storage o))
  else if String.eqb k "contents" then Some (VContents (File.contents o))
  else if String.eqb k "metadata" then Some (VJs (File.metadata o))
  else if String.eqb k "mockQueues" then Some (VQueues this)
  else if in_names k MockFile_prototype_names then Some (VMethod k)
  else None.

(** What the record [files] of a bucket inherits under [k]. *)
Definition inherited (h : Heap.t) (b : Bucket.t) (k : string) : option Value :=
  match Bucket.files_proto b with
  | None => object_prototype_get VObjectPrototype k
  | Some p =>
      match Heap.files h !! p with
      | Some o =>
          match file_get p o k with
          | Some v => Some v
          | None => object_prototype_get (VFile p) k
          end
      | None => object_prototype_get (VFile p) k
      end
  end.

(** [b.files[k]] *)
Definition files_get (h : Heap.t) (b : Bucket.t) (k : string) : option Value :=
  match Obj.get k (Bucket.files b) with
  | Some v => Some v
  | None => inherited h b k
  end.

Definition read_files (b : Bucket.t) (k : string) : M (option Value) :=
  fun h => (Return (files_get h b k), h).

(** [b.files[k] = v]: an own property is updated; otherwise the setter
    of [__proto__] replaces the prototype (the values it is handed by
    the classes are a file and the prototype in place), and any other
    name becomes a new own property. *)
Definition assign_files (k : string) (v : Value) (b : Bucket.t) : Bucket.t :=
  if (String.eqb k "__proto__" && negb (Obj.has k (Bucket.files b)))%bool
  then match v with
       | VFile f => Bucket.set_files_proto (Some f) b
       | VObjectPrototype => Bucket.set_files_proto None b
       | _ => b
       end
  else Bucket.set_files (Obj.set k v (Bucket.files b)) b.

(** [s.buckets[k]]: the prototype of this record is never replaced. *)
Definition buckets_get (s : Storage.t) (k : string) : option Value :=
  match Obj.get k (Storage.buckets s) with
  | Some b => Some (VBucket b)
  | None => object_prototype_get VObjectPrototype k
  end.

(** The receiver of a method of [MockFile]: a call of such a method on
    anything else is a call of something that is not a function. *)
Definition as_file (v : Value) : M fref :=
  match v with
  | VFile f => ret f
  | VJs JUndefined | VJs JNull =>
      throw (TypeError "Cannot read properties of undefined")
  | _ => throw (TypeError "is not a function")
  end.

(** ** MockFile *)

(** [DownloadOptions], [SaveOptions], [CopyOptions] and [GetFilesOptions]
    as far as the methods read them; a field that is left out is
    [undefined]. *)
Record DownloadOptions : Type := { dl_destination : option string }.
Record SaveOptions : Type := { save_metadata : JsVal }.
Record CopyOptions : Type := { copy_metadata : JsVal }.
Record GetFilesOptions : Type := { prefix : option string }.

(** The fields the constructor of [MockFile] sets. *)
Definition fresh_file (bucket : bref) (storage : sref) (name : string) : File.t :=
  File.mk name bucket bucket storage
    (JObj (Obj.set "metadata" (JObj Obj.empty) Obj.empty))
    (CBuffer [])
    Queues.empty.

(** [new MockFile(bucket, name)] *)
Definition new_MockFile (bucket : bref) (name : string) : M fref :=
  let! b := getBucket bucket in
  allocFile (fresh_file bucket (Bucket.storage b) name).

Definition no_such_file (bucket_name name : string) : Error :=
  MkError ("No such file: " ++ bucket_name ++ "/" ++ name)%string.

Definition mustBeExists (this : fref) : M unit :=
  let! me := getFile this in
  let! b := getBucket (File.bucket me) in
  let! found := read_files b (File.name me) in
  let exists_ := defined_truthy found in
  if negb exists_ then throw (no_such_file (Bucket.name b) (File.name me))
  else ret tt.

Definition markAsExists (this : fref) : M unit :=
  let! me := getFile this in
  let! b := getBucket (File.bucket me) in
  let! found := read_files b (File.name me) in
  let exists_ := defined_truthy found in
  when (negb exists_)
    (modifyBucket (File.bucket me) (assign_files (File.name me) (VFile this))).

(** [mockReset(method?)] *)
Definition mockReset (this : fref) (method : option Method) : M fref :=
  do! match method with
      | Some m =>
          modifyFile this
            (fun o => File.set_mockQueues (Queues.set m [] (File.mockQueues o)) o)
      | None => modifyFile this (File.set_mockQueues Queues.empty)
      end in
  ret this.

(** [mockErrorOnce(method, error)]; [method] is one of the seven keys,
    so [this.mockQueues[method]] is never missing. *)
Definition mockErrorOnce (this : fref) (method : Method) (error : Error)
  : M fref :=
  do! modifyFile this
        (fun o =>
           File.set_mockQueues
             (Queues.set method
                (Queues.get method (File.mockQueues o) ++ [MockError error])
                (File.mockQueues o)) o) in
  ret this.

(** [this.mockQueues[method].shift()] *)
Definition shift (this : fref) (method : Method)
  : M (option MockableFileMockError) :=
  let! me := getFile this in
  match Queues.get method (File.mockQueues me) with
  | [] => ret None
  | x :: rest =>
      do! modifyFile this
            (fun o =>
               File.set_mockQueues (Queues.set method rest (File.mockQueues o)) o) in
      ret (Some x)
  end.

(** The two lines every mockable method starts with:
    [const mockValue = this.mockQueues.m.shift();
     if (mockValue && mockValue.type === 'error') throw mockValue.error;] *)
Definition mockValue_check (this : fref) (method : Method) : M unit :=
  let! mockValue := shift this method in
  match mockValue with
  | Some (MockError error) => throw error
  | None => ret tt
  end.

(** The methods after those two lines. *)
Definition delete_body (this : fref) : M JsVal :=
  do! mustBeExists this in
  let! me := getFile this in
  do! modifyBucket (File.bucket me)
        (fun o => Bucket.set_files (Obj.remove (File.name me) (Bucket.files o)) o) in
  ret (JObj Obj.empty).

Definition exists_body (this : fref) : M bool :=
  let! me := getFile this in
  let! b := getBucket (File.bucket me) in
  let! found := read_files b (File.name me) in
  ret (defined_truthy found).

Definition setMetadata_body (this : fref) (metadata : JsVal) : M JsVal :=
  do! mustBeExists this in
  let! me := getFile this in
  match prop_metadata (File.metadata me), prop_metadata metadata with
  | inl e, _ => throw e
  | _, inl e => throw e
  | inr old_custom, inr new_custom =>
      let customMetadata := JObj (spread2 old_custom new_custom) in
      do! modifyFile this
            (File.set_metadata
               (JObj (spread2_metadata (File.metadata me) metadata customMetadata))) in
      let! me' := getFile this in
      ret (File.metadata me')
  end.

Definition getMetadata_body (this : fref) : M (JsVal * JsVal) :=
  do! mustBeExists this in
  let! me := getFile this in
  ret (File.metadata me, JObj Obj.empty).

Definition getSignedUrl_body (this : fref) : M string :=
  do! mustBeExists this in
  let! me := getFile this in
  let! b := getBucket (File.bucket me) in
  ret ("https://storage.googleapis.com/" ++ Bucket.name b ++ "/" ++ File.name me
       ++ "?X-Goog-Algorithm=MOCKED")%string.

Definition download_body (this : fref) (options : option DownloadOptions)
  : M Contents :=
  do! mustBeExists this in
  let! me := getFile this in
  do! match options with
      | Some {| dl_destination := Some path |} =>
          when (negb (String.eqb path "")) (writeFileSync path (File.contents me))
      | _ => ret tt
      end in
  ret (File.contents me).

(** The body of [save], [buffer] being what
    [Buffer.isBuffer(data) ? data : Buffer.from(data)] evaluates to for
    the data handed over: a Buffer, or the error that [Buffer.from]
    throws. *)
Definition save_body_with (this : fref) (buffer : Error + Buffer)
  (options : option SaveOptions) : M unit :=
  do! markAsExists this in
  do! match options with
      | Some o =>
          when (truthy (save_metadata o))
            (modifyFile this (File.set_metadata (save_metadata o)))
      | None => ret tt
      end in
  match buffer with
  | inr b => modifyFile this (File.set_contents (CBuffer b))
  | inl e => throw e
  end.

(** [save] of the [string | Buffer] of its type. *)
Definition save_body (this : fref) (data : Data) (options : option SaveOptions)
  : M unit :=
  save_body_with this (inr (to_buffer data)) options.

Definition MockFile_delete (this : fref) : M JsVal :=
  do! mockValue_check this m_delete in delete_body this.

Definition MockFile_exists (this : fref) : M bool :=
  do! mockValue_check this m_exists in exists_body this.

Definition MockFile_setMetadata (this : fref) (metadata : JsVal) : M JsVal :=
  do! mockValue_check this m_setMetadata in setMetadata_body this metadata.

Definition MockFile_getMetadata (this : fref) : M (JsVal * JsVal) :=
  do! mockValue_check this m_getMetadata in getMetadata_body this.

Definition MockFile_getSignedUrl (this : fref) : M string :=
  do! mockValue_check this m_getSignedUrl in getSignedUrl_body this.

Definition MockFile_download (this : fref) (options : option DownloadOptions)
  : M Contents :=
  do! mockValue_check this m_download in download_body this options.

Definition MockFile_save (this : fref) (data : Data)
  (options : option SaveOptions) : M unit :=
  do! mockValue_check this m_save in save_body this data options.

(** [save] as [copy] calls it, with the contents of its source. *)
Definition MockFile_save_contents (this : fref) (contents : Contents)
  (options : option SaveOptions) : M unit :=
  do! mockValue_check this m_save in
  save_body_with this (contents_to_buffer contents) options.

(** [createReadStream()]: what the returned stream is fed
    ([readable.put]) before it is stopped. *)
Definition MockFile_createReadStream (this : fref) : M Contents :=
  do! mustBeExists this in
  let! me := getFile this in
  ret (File.contents me).

(** [createWriteStream()], and the ['finish'] handler it installs, run
    with what [writable.getContents()] holds when the stream is closed. *)
Definition MockFile_createWriteStream (this : fref) : M unit :=
  markAsExists this.

Definition MockFile_on_finish (this : fref) (written : Contents) : M unit :=
  modifyFile this (File.set_contents written).

(** ** MockBucket *)

(** [new MockBucket(storage, name)] *)
Definition new_MockBucket (storage : sref) (name : string) : M bref :=
  allocBucket (Bucket.mk name storage Obj.empty None).

(** [this.files[name]], [undefined] being a value like another. *)
Definition files_at (this : bref) (name : string) : M Value :=
  let! b := getBucket this in
  let! found := read_files b name in
  ret (default (VJs JUndefined) found).

(** [this.files[name] = file] *)
Definition files_assign (this : bref) (name : string) (file : Value) : M unit :=
  modifyBucket this (assign_files name file).

Definition MockBucket_file (this : bref) (name : string) (forceExists : bool)
  : M Value :=
  let! b := getBucket this in
  let! found := read_files b name in
  let! file := match found with
               | Some v =>
                   if value_truthy v then ret v
                   else let! f := new_MockFile this name in ret (VFile f)
               | None => let! f := new_MockFile this name in ret (VFile f)
               end in
  do! when forceExists (files_assign this name file) in
  ret file.

(** [query?.prefix || ''] *)
Definition query_prefix (query : option GetFilesOptions) : string :=
  match query with
  | Some {| prefix := Some p |} => p
  | _ => ""
  end.

Definition MockBucket_getFiles (this : bref) (query : option GetFilesOptions)
  : M (list Value * JsVal * JsVal) :=
  let! b := getBucket this in
  let prefix := query_prefix query in
  let filtered :=
    List.map snd
      (List.filter (fun e => String.prefix prefix (fst e))
         (Obj.entries (Bucket.files b))) in
  ret (filtered, JObj Obj.empty, JObj Obj.empty).

(** Modelled from the spec: [MockBucket.deleteFiles], which the tests of
    the bucket call and whose code is not part of the sources at hand.
    The spec: it removes every member object whose name starts with the
    prefix filter (an empty filter meaning all members) from the
    membership mapping, and does not fail when no object matches. *)
Definition MockBucket_deleteFiles (this : bref) (query : option GetFilesOptions)
  : M unit :=
  let prefix := query_prefix query in
  modifyBucket this
    (fun o =>
       Bucket.set_files
         (List.filter (fun e => negb (String.prefix prefix (fst e)))
            (Bucket.files o)) o).

Definition MockBucket_put (this : bref) (name : string)
  (contents : option Data) (metadata : option JsVal) : M Value :=
  let! fresh := new_MockFile this name in
  do! files_assign this name (VFile fresh) in
  do! match contents with
      | Some c =>
          when (data_truthy c)
            (let! v := files_at this name in
             let! f := as_file v in MockFile_save f c None)
      | None => ret tt
      end in
  do! match metadata with
      | Some md =>
          when (truthy md)
            (let! v := files_at this name in
             let! f := as_file v in
             do! MockFile_setMetadata f md in ret tt)
      | None => ret tt
      end in
  files_at this name.

(** ** MockStorage *)

(** [new MockStorage()] *)
Definition new_MockStorage : M sref :=
  allocStorage (Storage.mk Obj.empty).

(** [this.buckets[name]] is read again for the result; it is what was
    found, or the bucket just stored: the assignment is reached only for
    a name under which nothing is found, so it adds an own property. *)
Definition MockStorage_bucket (this : sref) (name : string) : M Value :=
  let! s := getStorage this in
  match buckets_get s name with
  | None =>
      let! b := new_MockBucket this name in
      do! modifyStorage this
            (fun o => Storage.mk (Obj.set name b (Storage.buckets o))) in
      ret (VBucket b)
  | Some v => ret v
  end.

(** ** MockFile.copy *)

(** What [copy] can be handed as its destination: a string, a bucket
    (it has [name] and [file]), a file (it has [name] and no [file]), a
    value that is not an object ([null], [undefined], a number, a
    boolean), an object that has a [name] and neither [file] nor
    [bucket], or an object without a [name]. *)
Inductive Destination : Type :=
| DestString (name : string)
| DestBucket (b : bref)
| DestFile (f : fref)
| DestPrimitive
| DestNamed
| DestOther.

(** The target bucket is [undefined] for an object that has no
    [bucket]; the name is not looked at in that case. *)
Definition MockFile_copy (this : fref) (destination : Destination)
  (options : option CopyOptions) : M (fref * JsVal) :=
  let! me := getFile this in
  let! target :=
    match destination with
    | DestString s => ret (Some (File.bucket me), s)
    | DestBucket b => ret (Some b, File.name me)
    | DestFile g =>
        let! dst := getFile g in ret (Some (File.bucket dst), File.name dst)
    | DestPrimitive =>
        throw (TypeError "Cannot use 'in' operator to search for 'name'")
    | DestNamed => ret (None, "")
    | DestOther => throw (MkError "Invalid destination type")
    end in
  let! contents := MockFile_download this None in
  let! md := MockFile_getMetadata this in
  let newMetadata :=
    JObj (spread2 (fst md)
            (match options with Some o => copy_metadata o | None => JUndefined end)) in
  match fst target with
  | None => throw (TypeError "Cannot read properties of undefined (reading 'file')")
  | Some targetBucket =>
      let! found := MockBucket_file targetBucket (snd target) false in
      let! newFile := as_file found in
      do! MockFile_save_contents newFile contents
            (Some {| save_metadata := newMetadata |}) in
      ret (newFile, newMetadata)
  end.

(** ** A call of one of the seven mockable methods *)

Inductive Call : Type :=
| call_delete
| call_exists
| call_download (options : option DownloadOptions)
| call_getSignedUrl
| call_save (data : Data) (options : option SaveOptions)
| call_setMetadata (metadata : JsVal)
| call_getMetadata.

Definition method_of (c : Call) : Method :=
  match c with
  | call_delete => m_delete
  | call_exists => m_exists
  | call_download _ => m_download
  | call_getSignedUrl => m_getSignedUrl
  | call_save _ _ => m_save
  | call_setMetadata _ => m_setMetadata
  | call_getMetadata => m_getMetadata
  end.

(** What a call resolves with. *)
Inductive Response : Type :=
| r_delete (r : JsVal)
| r_exists (r : bool)
| r_download (r : Contents)
| r_getSignedUrl (r : string)
| r_save
| r_setMetadata (r : JsVal)
| r_getMetadata (r : JsVal * JsVal).

Definition body (this : fref) (c : Call) : M Response :=
  match c with
  | call_delete => let! r := delete_body this in ret (r_delete r)
  | call_exists => let! r := exists_body this in ret (r_exists r)
  | call_download o => let! r := download_body this o in ret (r_download r)
  | call_getSignedUrl => let! r := getSignedUrl_body this in ret (r_getSignedUrl r)
  | call_save d o => do! save_body this d o in ret r_save
  | call_setMetadata md =>
      let! r := setMetadata_body this md in ret (r_setMetadata r)
  | call_getMetadata => let! r := getMetadata_body this in ret (r_getMetadata r)
  end.

Definition run (this : fref) (c : Call) : M Response :=
  match c with
  | call_delete => let! r := MockFile_delete this in ret (r_delete r)
  | call_exists => let! r := MockFile_exists this in ret (r_exists r)
  | call_download o => let! r := MockFile_download this o in ret (r_download r)
  | call_getSignedUrl =>
      let! r := MockFile_getSignedUrl this in ret (r_getSignedUrl r)
  | call_save d o => do! MockFile_save this d o in ret r_save
  | call_setMetadata md =>
      let! r := MockFile_setMetadata this md in ret (r_setMetadata r)
  | call_getMetadata =>
      let! r := MockFile_getMetadata this in ret (r_getMetadata r)
  end.

(** * What the statements are about *)

(** Observations of the store, the stores that the methods leave, the
    programs of the examples, and the invariants of the records. *)

(** [same_but_queue f m h h']: the two stores hold the same storages,
    buckets (hence the same members) and disk, and the same files field
    by field, except that the queue of method [m] of file [f] has lost
    its head. *)
Definition same_but_queue (f : fref) (m : Method) (h h' : Heap.t) : Prop :=
  Heap.storages h' = Heap.storages h /\
  Heap.buckets h' = Heap.buckets h /\
  Heap.disk h' = Heap.disk h /\
  length (Heap.files h') = length (Heap.files h) /\
  forall g o, Heap.files h !! g = Some o ->
    exists o', Heap.files h' !! g = Some o' /\
      File.name o' = File.name o /\
      File.bucket o' = File.bucket o /\
      File.parent o' = File.parent o /\
      File.storage o' = File.storage o /\
      File.contents o' = File.contents o /\
      File.metadata o' = File.metadata o /\
      forall m', Queues.get m' (File.mockQueues o') =
                 if (Nat.eqb g f && Method_eqb m m')%bool
                 then tail (Queues.get m' (File.mockQueues o))
                 else Queues.get m' (File.mockQueues o).

(** A file object with one more error at the end of the queue of [op]. *)
Definition enq_file (op : Method) (e : Error) (o : File.t) : File.t :=
  File.set_mockQueues
    (Queues.set op (Queues.get op (File.mockQueues o) ++ [MockError e])
       (File.mockQueues o)) o.

(** The store after [mockErrorOnce(op, e)] on [f]. *)
Definition enq (f : fref) (op : Method) (e : Error) (h : Heap.t) : Heap.t :=
  snd (mockErrorOnce f op e h).

(** [sim f op e m1 m2]: running [m2] after the enqueue is running [m1]
    before it. *)
Definition sim (f : fref) (op : Method) (e : Error) {A} (m1 m2 : M A) : Prop :=
  forall h, m2 (enq f op e h) = (fst (m1 h), enq f op e (snd (m1 h))).

(** [mockErrorOnce] for each error of a list in turn, and [n] calls in a
    row with the way each one ended. *)
Fixpoint enqueue_all (f : fref) (op : Method) (es : list Error) (h : Heap.t)
  : Heap.t :=
  match es with
  | [] => h
  | e :: es' => enqueue_all f op es' (snd (mockErrorOnce f op e h))
  end.

Fixpoint calls (f : fref) (c : Call) (n : nat) (h : Heap.t)
  : list (Completion Response) * Heap.t :=
  match n with
  | 0 => ([], h)
  | S n' =>
      let (r, h1) := run f c h in
      let (rs, h2) := calls f c n' h1 in
      (r :: rs, h2)
  end.

(** The store in which the queue of [op] of file [f], an object [o], is
    [q]. *)
Definition with_queue (f : fref) (op : Method) (o : File.t)
  (q : list MockableFileMockError) (h : Heap.t) : Heap.t :=
  Heap.set_files
    (<[f := File.set_mockQueues (Queues.set op q (File.mockQueues o)) o]>
       (Heap.files h)) h.

(** The errors of a queue, head first. *)
Definition errors_of (q : list MockableFileMockError) : list Error :=
  map (fun x => match x with MockError e => e end) q.

(** Examples to run the methods on. *)
Definition demo_bucket : Heap.t :=
  Eval vm_compute in
    snd ((let! s := new_MockStorage in MockStorage_bucket s "test-bucket")
           Heap.empty).

Definition demo_file : Heap.t :=
  Eval vm_compute in snd (MockBucket_file 0 "test-file.txt" true demo_bucket).

Definition demo_absent : Heap.t :=
  Eval vm_compute in
    snd (MockBucket_file 0 "non-existent-file.txt" false demo_file).

(** [is_member h f]: the test of [mustBeExists], [markAsExists] and
    [exists] on [f], [!!this.bucket.files[this.name]]. *)
Definition is_member (h : Heap.t) (f : fref) : bool :=
  match Heap.files h !! f with
  | Some o =>
      match Heap.buckets h !! File.bucket o with
      | Some b => defined_truthy (files_get h b (File.name o))
      | None => false
      end
  | None => false
  end.

(** [child h b n]: the entry of the record [files] of bucket [b] under
    the key [n], an own property, which is what [getFiles] lists. *)
Definition child (h : Heap.t) (b : bref) (n : string) : option Value :=
  match Heap.buckets h !! b with
  | Some o => Obj.get n (Bucket.files o)
  | None => None
  end.

(** [resolved h b n]: what [files[n]] of bucket [b] reads, an own
    property or an inherited one. *)
Definition resolved (h : Heap.t) (b : bref) (n : string) : option Value :=
  match Heap.buckets h !! b with
  | Some o => files_get h o n
  | None => None
  end.

(** [inherits h b n]: the record [files] of [b] inherits something
    truthy under [n], so that the tests of membership succeed for [n]
    whether or not it is a key. *)
Definition inherits (h : Heap.t) (b : Bucket.t) (n : string) : bool :=
  defined_truthy (inherited h b n).

(** A name that a record with the prototype that [{}] gives it does not
    inherit: not [__proto__] and not a name of [Object.prototype]. *)
Definition plain_name (n : string) : bool :=
  negb (String.eqb n "__proto__" || in_names n object_prototype_names).

(** No error is queued on method [m] of file [f]. *)
Definition no_pending (h : Heap.t) (f : fref) (m : Method) : Prop :=
  forall o, Heap.files h !! f = Some o -> Queues.get m (File.mockQueues o) = [].

(** The store after [markAsExists] on [f], an object [o] of bucket [b]. *)
Definition marked (h : Heap.t) (f : fref) (o : File.t) (b : Bucket.t) : Heap.t :=
  if is_member h f then h
  else Heap.set_buckets
         (<[File.bucket o := assign_files (File.name o) (VFile f) b]>
            (Heap.buckets h)) h.

(** The store after the body of [save] has stored the bytes. *)
Definition saved (h : Heap.t) (f : fref) (o : File.t) (b : Bucket.t)
  (bytes : Buffer) (options : option SaveOptions) : Heap.t :=
  let md :=
    match options with
    | Some so => if truthy (save_metadata so) then save_metadata so
                 else File.metadata o
    | None => File.metadata o
    end in
  Heap.set_files
    (<[f := File.set_contents (CBuffer bytes) (File.set_metadata md o)]>
       (Heap.files h)) (marked h f o b).

(** The store after the body of [save] has failed on its data: the
    file has been marked and holds the metadata of the options. *)
Definition save_failed (h : Heap.t) (f : fref) (o : File.t) (b : Bucket.t)
  (options : option SaveOptions) : Heap.t :=
  match options with
  | Some so =>
      if truthy (save_metadata so)
      then Heap.set_files
             (<[f := File.set_metadata (save_metadata so) o]> (Heap.files h))
             (marked h f o b)
      else marked h f o b
  | None => marked h f o b
  end.

(** An update of a file object that leaves its name and back references
    as they are and makes no truthy field falsy. *)
Definition keeps_truthy (o o' : File.t) : Prop :=
  File.name o' = File.name o /\
  File.bucket o' = File.bucket o /\
  File.parent o' = File.parent o /\
  File.storage o' = File.storage o /\
  (truthy (File.metadata o) = true -> truthy (File.metadata o') = true) /\
  (File.contents o' = CFalse -> File.contents o = CFalse).

(** The store after the body of [delete] on a member. *)
Definition deleted (h : Heap.t) (o : File.t) (b : Bucket.t) : Heap.t :=
  Heap.set_buckets
    (<[File.bucket o :=
         Bucket.set_files (Obj.remove (File.name o) (Bucket.files b)) b]>
       (Heap.buckets h)) h.

(** The store once a file object for [n] has been constructed. *)
Definition constructed (h : Heap.t) (bk : bref) (bo : Bucket.t) (n : string)
  : Heap.t :=
  Heap.set_files (Heap.files h ++ [fresh_file bk (Bucket.storage bo) n]) h.

(** The store in which the metadata of file [f], an object [o], is [m]. *)
Definition with_metadata (h : Heap.t) (f : fref) (o : File.t) (m : JsVal)
  : Heap.t :=
  Heap.set_files (<[f := File.set_metadata m o]> (Heap.files h)) h.

(** [f.metadata] and [f.contents] *)
Definition metadata_of (h : Heap.t) (f : fref) : option JsVal :=
  File.metadata <$> Heap.files h !! f.

Definition contents_of (h : Heap.t) (f : fref) : option Contents :=
  File.contents <$> Heap.files h !! f.

(** The destination as the spec classifies it: a name is a file of the
    same bucket, a bucket takes the file under its own name, a file
    stands for its own bucket and name, and nothing else is accepted. *)
Definition copy_target (h : Heap.t) (o : File.t) (destination : Destination)
  : option (bref * string) :=
  match destination with
  | DestString s => Some (File.bucket o, s)
  | DestBucket bk => Some (bk, File.name o)
  | DestFile g =>
      match Heap.files h !! g with
      | Some og => Some (File.bucket og, File.name og)
      | None => None
      end
  | DestPrimitive | DestNamed | DestOther => None
  end.

Definition options_metadata (options : option CopyOptions) : JsVal :=
  match options with Some op => copy_metadata op | None => JUndefined end.

(** The store with the head of a queue gone. *)
Definition popped (h : Heap.t) (f : fref) (m : Method) : Heap.t :=
  snd (shift f m h).

Definition demo_copy_source : Heap.t :=
  Eval vm_compute in
    snd ((do! MockFile_save 0 (DString "test file contents") None in
          MockFile_setMetadata 0 (JObj [("foo", JStr "bar")])) demo_file).

Definition default_metadata : JsVal := JObj [("metadata", JObj [])].

(** [undefined] and [null] stand for an argument that is not given. *)
Definition nullish (v : JsVal) : bool :=
  match v with
  | JUndefined | JNull => true
  | _ => false
  end.

(** What the spec says of [put]: a fresh file replaces whatever the name
    held, then [save] if contents are given, then [setMetadata] if
    metadata is given. *)
Definition put_by_spec (this : bref) (name : string) (contents : option Data)
  (metadata : option JsVal) : M Value :=
  let! fresh := new_MockFile this name in
  do! files_assign this name (VFile fresh) in
  do! match contents with
      | Some c => MockFile_save fresh c None
      | None => ret tt
      end in
  do! match metadata with
      | Some md =>
          if nullish md then ret tt
          else do! MockFile_setMetadata fresh md in ret tt
      | None => ret tt
      end in
  ret (VFile fresh).

(** The store once a new file named [n], with the given contents and
    metadata and with empty queues, has been assigned to [files[n]] of
    bucket [bk]. *)
Definition put_state (h : Heap.t) (bk : bref) (bo : Bucket.t) (n : string)
  (c : Buffer) (md : JsVal) : Heap.t :=
  Heap.set_buckets
    (<[bk := assign_files n (VFile (length (Heap.files h))) bo]>
       (Heap.buckets h))
    (Heap.set_files
       (Heap.files h ++
          [File.mk n bk bk (Bucket.storage bo) md (CBuffer c) Queues.empty]) h).

Definition put_contents (contents : option Data) : Buffer :=
  match contents with Some c => to_buffer c | None => [] end.

Definition put_metadata (metadata : option JsVal) : JsVal :=
  match metadata with
  | Some md =>
      match prop_metadata md with
      | inr custom =>
          JObj (spread2_metadata default_metadata md
                  (JObj (spread2 (JObj Obj.empty) custom)))
      | inl _ => default_metadata
      end
  | None => default_metadata
  end.

Definition demo_pending : Heap.t :=
  Eval vm_compute in
    snd (mockErrorOnce 0 m_save (MkError "Failed to save") demo_file).

(** [put] and [file] as a test calls them, to call a method of the
    result. *)
Definition put_file (this : bref) (name : string) (contents : option Data)
  (metadata : option JsVal) : M fref :=
  let! v := MockBucket_put this name contents metadata in as_file v.

Definition get_file (this : bref) (name : string) (forceExists : bool)
  : M fref :=
  let! v := MockBucket_file this name forceExists in as_file v.

(** The test of [deleteFiles]: three files are put, those whose name
    starts with the prefix are deleted, and [exists] is asked of each
    handle. *)
Definition deleteFiles_example : M (bool * bool * bool) :=
  let! file1 := put_file 0 "test-1.txt" None None in
  let! file2 := put_file 0 "test-2.txt" None None in
  let! file3 := put_file 0 "nn-test-3.txt" None None in
  do! MockBucket_deleteFiles 0 (Some {| prefix := Some "test-" |}) in
  let! found1 := MockFile_exists file1 in
  let! found2 := MockFile_exists file2 in
  let! found3 := MockFile_exists file3 in
  ret (found1, found2, found3).

(** A file is put under a name that every object literal inherits from
    [Object.prototype] and is deleted: what [exists] answers before and
    after, how a second [delete] ends, and what the bucket lists then. *)
Definition inherited_name_example
  : Completion bool * Completion JsVal * Completion bool * Completion JsVal *
    Completion (list Value * JsVal * JsVal) :=
  let h0 := demo_bucket in
  let h1 := snd (MockBucket_put 0 "toString" None None h0) in
  let (r1, h2) := MockFile_exists 0 h1 in
  let (r2, h3) := MockFile_delete 0 h2 in
  let (r3, h4) := MockFile_exists 0 h3 in
  let (r4, h5) := MockFile_delete 0 h4 in
  let (r5, _) := MockBucket_getFiles 0 None h5 in
  (r1, r2, r3, r4, r5).

(** A file is put under the name [__proto__]: what [put] returns, what
    the bucket lists then, the keys of its record [files], and what
    [file('name')] returns. *)
Definition proto_name_example
  : Completion Value * Completion (list Value * JsVal * JsVal) *
    option (list string) * Completion Value :=
  let h0 := demo_bucket in
  let (r1, h1) :=
    MockBucket_put 0 "__proto__" (Some (DString "Hello, world!")) None h0 in
  let (r2, h2) := MockBucket_getFiles 0 None h1 in
  let (r3, h3) := MockBucket_file 0 "name" false h2 in
  (r1, r2, (fun b => Obj.keys (Bucket.files b)) <$> Heap.buckets h3 !! 0, r3).

(** Two files are put under the name [__proto__], one after the other,
    and the first is deleted: what [exists] and [delete] of the first
    answer, what [file('__proto__')] returns afterwards, and what
    [exists] of the second answers. *)
Definition stale_proto_example
  : Completion Value * Completion Value * Completion bool *
    Completion JsVal * Completion Value * Completion bool :=
  let h0 := demo_bucket in
  let (r1, h1) := MockBucket_put 0 "__proto__" (Some (DString "old")) None h0 in
  let (r2, h2) := MockBucket_put 0 "__proto__" (Some (DString "new")) None h1 in
  let (r3, h3) := MockFile_exists 0 h2 in
  let (r4, h4) := MockFile_delete 0 h3 in
  let (r5, h5) := MockBucket_file 0 "__proto__" false h4 in
  let (r6, _) := MockFile_exists 1 h5 in
  (r1, r2, r3, r4, r5, r6).

(** A write stream is opened on a new file and closed with nothing
    written, and the file is copied to a new name: what the bucket lists
    before, how [copy] ends, what the bucket lists after, and the
    metadata of the file that [copy] made. *)
Definition empty_stream_copy_example
  : Completion (list Value * JsVal * JsVal) * Completion (fref * JsVal) *
    Completion (list Value * JsVal * JsVal) * option JsVal :=
  let h0 := demo_bucket in
  let h1 := snd (MockBucket_file 0 "empty.txt" false h0) in
  let h2 := snd ((do! MockFile_createWriteStream 0 in
                  MockFile_on_finish 0 CFalse) h1) in
  let (r1, h3) := MockBucket_getFiles 0 None h2 in
  let (r2, h4) := MockFile_copy 0 (DestString "copy.txt")
                    (Some {| copy_metadata := JObj [("a", JNum 1)] |}) h3 in
  let (r3, h5) := MockBucket_getFiles 0 None h4 in
  (r1, r2, r3, metadata_of h5 1).

(** [own_order ks]: the array indices come first, in ascending order,
    and the other keys after them. *)
Fixpoint own_order (ks : list string) : Prop :=
  match ks with
  | [] => True
  | k :: ks' =>
      own_order ks' /\
      forall k', k' ∈ ks' ->
        match Obj.array_index k, Obj.array_index k' with
        | Some i, Some j => (i <= j)%N
        | Some _, None => True
        | None, Some _ => False
        | None, None => True
        end
  end.

(** What every object built from [{}] by assignments and deletions
    satisfies: no key twice, and the keys in their enumeration order. *)
Definition well_formed {V} (o : Obj.t V) : Prop :=
  NoDup (Obj.keys o) /\ own_order (Obj.keys o).

(** Two files are put, named "2" and then "1", and the bucket is
    listed. *)
Definition listing_example : M (Value * Value * list Value) :=
  let! two := MockBucket_put 0 "2" None None in
  let! one := MockBucket_put 0 "1" None None in
  let! listing := MockBucket_getFiles 0 None in
  ret (two, one, fst (fst listing)).

(** [file(name)] is called twice for a name that is not a member, an
    error is queued on [exists] of the first handle, and [exists] is
    called on the second. *)
Definition lookup_twice_example : M (fref * fref * bool) :=
  let! file1 := get_file 0 "my-file.txt" false in
  let! file2 := get_file 0 "my-file.txt" false in
  do! mockErrorOnce file1 m_exists (MkError "Exists error") in
  let! found := MockFile_exists file2 in
  ret (file1, file2, found).

Definition demo_old : Heap.t :=
  Eval vm_compute in
    snd (MockFile_save 0 (DString "Old contents") None demo_file).

(** The example of the README: an error is queued on [save] of a new
    handle; the completions of [save], [exists], [save], [exists]. *)
Definition readme_example
  : Completion unit * Completion bool * Completion unit * Completion bool :=
  let h0 := demo_bucket in
  let h1 := snd (MockBucket_file 0 "my-file.txt" false h0) in
  let h2 := snd (mockErrorOnce 0 m_save (MkError "Failed to save") h1) in
  let (r1, h3) := MockFile_save 0 (DString "Will not be saved!") None h2 in
  let (r2, h4) := MockFile_exists 0 h3 in
  let (r3, h5) := MockFile_save 0 (DString "Will definitely be saved!") None h4 in
  let (r4, _) := MockFile_exists 0 h5 in
  (r1, r2, r3, r4).

(** The test of [getFiles] with a prefix. *)
Definition getFiles_example : M (Value * Value * list Value) :=
  let! file1 := MockBucket_put 0 "test-1.txt" None None in
  let! file2 := MockBucket_put 0 "test-2.txt" None None in
  let! file3 := MockBucket_put 0 "nn-test-3.txt" None None in
  let! listing := MockBucket_getFiles 0 (Some {| prefix := Some "test-" |}) in
  ret (file1, file2, fst (fst listing)).

(** The test of [copy]: the contents and the metadata of the copy. *)
Definition copy_example : M (Contents * JsVal) :=
  let! file := get_file 0 "test-file.txt" true in
  do! MockFile_on_finish file (CBuffer (list_byte_of_string "test file contents")) in
  do! MockFile_setMetadata file (JObj [("foo", JStr "bar")]) in
  do! MockFile_copy file (DestString "copied-file.txt") None in
  let! copiedFile := get_file 0 "copied-file.txt" false in
  let! response := MockFile_download copiedFile None in
  let! result := MockFile_getMetadata copiedFile in
  ret (response, fst result).

(** * The rest of the classes *)

(** ** MockBucket.upload *)

(** [fs.readFileSync(path)], on the disk that [writeFileSync] writes: the
    bytes of the file, or the error of a path that does not exist. *)
Definition readFileSync (path : string) : M Buffer :=
  fun h =>
    match Obj.get path (Heap.disk h) with
    | Some data => (Return data, h)
    | None =>
        (Throw (MkError ("ENOENT: no such file or directory, open '" ++ path
                         ++ "'")%string), h)
    end.

(** [UploadOptions] as far as [upload] reads it: the destination is a
    string or a [File] of the real client, the metadata is [undefined]
    when left out. *)
Inductive UploadDestination : Type :=
| UpString (name : string)
| UpFile.

Record UploadOptions : Type := {
  up_destination : option UploadDestination;
  up_metadata : JsVal
}.

Definition upload_unsupported : Error :=
  MkError "Type File for `options.destination` params is not supported, use string instead".

(** [v.metadata] for the value that [put] returned. *)
Definition value_metadata (v : Value) : M JsVal :=
  match v with
  | VFile f => let! o := getFile f in ret (File.metadata o)
  | VJs j =>
      match prop_metadata j with
      | inr m => ret m
      | inl e => throw e
      end
  | _ => ret JUndefined
  end.

Section Upload.
(** [path.basename], of Node's library. *)
Variable basename : string -> string.

(** [options?.destination || path.basename(filePath)] *)
Definition upload_name (filePath : string) (options : option UploadOptions)
  : string :=
  match options with
  | Some {| up_destination := Some (UpString s) |} =>
      if String.eqb s "" then basename filePath else s
  | _ => basename filePath
  end.

Definition MockBucket_upload (this : bref) (filePath : string)
  (options : option UploadOptions) : M (Value * JsVal) :=
  do! match options with
      | Some {| up_destination := Some UpFile |} => throw upload_unsupported
      | _ => ret tt
      end in
  let name := upload_name filePath options in
  let! contents := readFileSync filePath in
  let metadata :=
    match options with Some o => up_metadata o | None => JUndefined end in
  let! file := MockBucket_put this name (Some (DBuffer contents)) (Some metadata) in
  let! md := value_metadata file in
  ret (file, md).

End Upload.

(** ** The invariant of the store *)

(** [ext h h']: every object of [h] is still there in [h'], a file with
    its name and bucket, a bucket with its name and storage. *)
Definition ext (h h' : Heap.t) : Prop :=
  (forall f o, Heap.files h !! f = Some o ->
     exists o', Heap.files h' !! f = Some o' /\
       File.name o' = File.name o /\ File.bucket o' = File.bucket o) /\
  (forall b bo, Heap.buckets h !! b = Some bo ->
     exists bo', Heap.buckets h' !! b = Some bo' /\
       Bucket.name bo' = Bucket.name bo /\
       Bucket.storage bo' = Bucket.storage bo) /\
  (forall s so, Heap.storages h !! s = Some so ->
     is_Some (Heap.storages h' !! s)).

(** [wf h]: the back references of a file are those of its bucket, which
    exists; the entries of a bucket are files of that bucket, each under
    its own name, and the prototype of its record, when it is a file, is
    a file of the store; the entries of a storage are buckets of that
    storage, each under its own name; and the records are in order. *)
Definition wf (h : Heap.t) : Prop :=
  (forall f o, Heap.files h !! f = Some o ->
     File.parent o = File.bucket o /\
     exists bo, Heap.buckets h !! File.bucket o = Some bo /\
                File.storage o = Bucket.storage bo) /\
  (forall b bo, Heap.buckets h !! b = Some bo ->
     is_Some (Heap.storages h !! Bucket.storage bo) /\
     well_formed (Bucket.files bo) /\
     (forall p, Bucket.files_proto bo = Some p -> is_Some (Heap.files h !! p)) /\
     forall n v, Obj.get n (Bucket.files bo) = Some v ->
       exists g og, v = VFile g /\ Heap.files h !! g = Some og /\
                    File.name og = n /\ File.bucket og = b) /\
  (forall s so, Heap.storages h !! s = Some so ->
     well_formed (Storage.buckets so) /\
     forall n b, Obj.get n (Storage.buckets so) = Some b ->
       exists bo, Heap.buckets h !! b = Some bo /\
                  Bucket.name bo = n /\ Bucket.storage bo = s).

(** The pre- and postcondition of a method on a store that satisfies the
    invariant: it does not meet a dangling reference, and whether it
    returns or throws it leaves a store that satisfies the invariant and
    extends the one it started from. *)
Definition keeps {A} (P : Heap.t -> Prop) (m : M A) (Q : A -> Heap.t -> Prop)
  : Prop :=
  forall h, wf h -> P h ->
    match m h with
    | (Return a, h') => wf h' /\ ext h h' /\ Q a h'
    | (Throw _, h') => wf h' /\ ext h h'
    | (Dangling, _) => False
    end.

(** A fact about the store that an extension does not undo. *)
Definition stable (P : Heap.t -> Prop) : Prop :=
  forall h h', ext h h' -> P h -> P h'.

(** [f] is a file of bucket [b] named [n]. *)
Definition file_at (f : fref) (b : bref) (n : string) (h : Heap.t) : Prop :=
  exists o, Heap.files h !! f = Some o /\ File.name o = n /\ File.bucket o = b.

Definition has_file (f : fref) (h : Heap.t) : Prop :=
  is_Some (Heap.files h !! f).

Definition has_bucket (b : bref) (h : Heap.t) : Prop :=
  is_Some (Heap.buckets h !! b).

Definition has_storage (s : sref) (h : Heap.t) : Prop :=
  is_Some (Heap.storages h !! s).

(** What a file, a bucket and a storage read from a store that satisfies
    the invariant tell about every later store. *)
Definition file_facts (f : fref) (o : File.t) (h : Heap.t) : Prop :=
  file_at f (File.bucket o) (File.name o) h /\ has_bucket (File.bucket o) h.

Definition bucket_facts (b : bref) (bo : Bucket.t) (h : Heap.t) : Prop :=
  has_bucket b h /\
  (forall p, Bucket.files_proto bo = Some p -> has_file p h) /\
  forall n v, Obj.get n (Bucket.files bo) = Some v ->
    exists g, v = VFile g /\ file_at g b n h.

Definition storage_facts (s : sref) (so : Storage.t) (h : Heap.t) : Prop :=
  has_storage s h /\
  forall n b, Obj.get n (Storage.buckets so) = Some b -> has_bucket b h.

(** The references a destination of [copy] holds. *)
Definition has_destination (d : Destination) (h : Heap.t) : Prop :=
  match d with
  | DestBucket b => has_bucket b h
  | DestFile g => has_file g h
  | _ => True
  end.

(** ** The calls a user of the three classes can make *)

Inductive Op : Type :=
| op_new_MockStorage
| op_bucket (s : sref) (name : string)
| op_file (b : bref) (name : string) (forceExists : bool)
| op_put (b : bref) (name : string) (contents : option Data)
    (metadata : option JsVal)
| op_upload (b : bref) (filePath : string) (options : option UploadOptions)
| op_getFiles (b : bref) (query : option GetFilesOptions)
| op_call (f : fref) (c : Call)
| op_copy (f : fref) (destination : Destination) (options : option CopyOptions)
| op_createReadStream (f : fref)
| op_createWriteStream (f : fref)
| op_finish (f : fref) (written : Contents)
| op_mockErrorOnce (f : fref) (method : Method) (error : Error)
| op_mockReset (f : fref) (method : option Method).

(** A call whose result is dropped. *)
Definition void {A} (m : M A) : M unit := let! _ := m in ret tt.

Definition exec (basename : string -> string) (op : Op) : M unit :=
  match op with
  | op_new_MockStorage => void new_MockStorage
  | op_bucket s name => void (MockStorage_bucket s name)
  | op_file b name force => void (MockBucket_file b name force)
  | op_put b name contents metadata =>
      void (MockBucket_put b name contents metadata)
  | op_upload b filePath options =>
      void (MockBucket_upload basename b filePath options)
  | op_getFiles b query => void (MockBucket_getFiles b query)
  | op_call f c => void (run f c)
  | op_copy f destination options => void (MockFile_copy f destination options)
  | op_createReadStream f => void (MockFile_createReadStream f)
  | op_createWriteStream f => MockFile_createWriteStream f
  | op_finish f written => MockFile_on_finish f written
  | op_mockErrorOnce f method error => void (mockErrorOnce f method error)
  | op_mockReset f method => void (mockReset f method)
  end.

(** The objects a call is made on, or handed, exist. *)
Definition valid_op (op : Op) (h : Heap.t) : Prop :=
  match op with
  | op_new_MockStorage => True
  | op_bucket s _ => has_storage s h
  | op_file b _ _ | op_put b _ _ _ | op_upload b _ _ | op_getFiles b _ =>
      has_bucket b h
  | op_copy f destination _ => has_file f h /\ has_destination destination h
  | op_call f _ | op_createReadStream f | op_createWriteStream f
  | op_finish f _ | op_mockErrorOnce f _ _ | op_mockReset f _ => has_file f h
  end.

(** The stores that calls lead to, from the empty one. *)
Inductive reachable (basename : string -> string) : Heap.t -> Prop :=
| reach_empty : reachable basename Heap.empty
| reach_step h op :
    reachable basename h -> valid_op op h ->
    reachable basename (snd (exec basename op h)).

(** [file(name, options, true)] stores what it returns: the call stores
    a file when what it finds under the name is a file or nothing. *)
Definition stores_a_file (op : Op) (h : Heap.t) : Prop :=
  match op with
  | op_file b name true =>
      forall bo, Heap.buckets h !! b = Some bo ->
        match files_get h bo name with
        | Some (VFile _) => True
        | found => defined_truthy found = false
        end
  | _ => True
  end.

(** The stores that calls lead to when [file] is not made to store
    what a record inherits. *)
Inductive reachable_with_files (basename : string -> string) : Heap.t -> Prop :=
| reach_files_empty : reachable_with_files basename Heap.empty
| reach_files_step h op :
    reachable_with_files basename h -> valid_op op h -> stores_a_file op h ->
    reachable_with_files basename (snd (exec basename op h)).

(** ** Calls that only read *)

(** [exists], [getSignedUrl], [getMetadata], and [download] when it is
    given no destination to write to. *)
Definition read_only (c : Call) : bool :=
  match c with
  | call_exists | call_getSignedUrl | call_getMetadata => true
  | call_download (Some {| dl_destination := Some path |}) => String.eqb path ""
  | call_download _ => true
  | _ => false
  end.

(** ** Calls that need a member *)

(** The methods that start with [mustBeExists]: all but [exists] and
    [save]. *)
Definition needs_member (c : Call) : bool :=
  match c with
  | call_exists | call_save _ _ => false
  | _ => true
  end.

(** ** The metadata of the files *)

(** No file holds [undefined] or [null] as its metadata. *)
Definition defined_metadata (h : Heap.t) : Prop :=
  forall f o, Heap.files h !! f = Some o -> nullish (File.metadata o) = false.

(** A method keeps a property of the store, however it ends. *)
Definition preserves {A} (I : Heap.t -> Prop) (m : M A) : Prop :=
  forall h, I h -> I (snd (m h)).

(** * Properties *)

(** ** Objects as maps *)

Section ObjFacts.
Context {V : Type}.
Implicit Types (o : Obj.t V) (k : string) (v : V).

Lemma eqb_refl_s k : String.eqb k k = true.
Proof. apply String.eqb_refl. Qed.

Lemma eqb_ne k k' : k <> k' -> String.eqb k k' = false.
Proof. intros H. apply String.eqb_neq. exact H. Qed.

Lemma get_update_eq o k v :
  Obj.has k o = true -> Obj.get k (Obj.update k v o) = Some v.
Proof.
  unfold Obj.has. induction o as [|[k' v'] o IH]; simpl; [discriminate|].
  destruct (String.eqb k k') eqn:E; simpl.
  - intros _. rewrite E. reflexivity.
  - rewrite E. exact IH.
Qed.

Lemma get_update_ne o k k' v :
  k <> k' -> Obj.get k' (Obj.update k v o) = Obj.get k' o.
Proof.
  intros Hne. induction o as [|[k0 v0] o IH]; simpl; [reflexivity|].
  destruct (String.eqb k k0) eqn:E; simpl.
  - apply String.eqb_eq in E. subst k0.
    rewrite (eqb_ne k' k) by congruence. reflexivity.
  - rewrite IH. reflexivity.
Qed.

Lemma get_app o o' k :
  Obj.get k (o ++ o') =
  match Obj.get k o with Some v => Some v | None => Obj.get k o' end.
Proof.
  induction o as [|[k0 v0] o IH]; simpl; [reflexivity|].
  destruct (String.eqb k k0); [reflexivity|exact IH].
Qed.

Lemma get_insert_index_eq o i k v :
  Obj.get k o = None -> Obj.get k (Obj.insert_index i k v o) = Some v.
Proof.
  induction o as [|[k0 v0] o IH]; simpl.
  - rewrite eqb_refl_s. reflexivity.
  - destruct (String.eqb k k0) eqn:E; [discriminate|]. intros Hn.
    destruct (Obj.array_index k0) as [j|]; [destruct (j <? i)%N|]; simpl;
      rewrite ?E, ?eqb_refl_s; auto.
Qed.

Lemma get_insert_index_ne o i k k' v :
  k <> k' -> Obj.get k' (Obj.insert_index i k v o) = Obj.get k' o.
Proof.
  intros Hne. assert (String.eqb k' k = false) as E'
    by (apply String.eqb_neq; congruence).
  induction o as [|[k0 v0] o IH]; simpl.
  - rewrite E'. reflexivity.
  - destruct (Obj.array_index k0) as [j|]; [destruct (j <? i)%N|]; simpl;
      rewrite ?E', ?IH; reflexivity.
Qed.

Lemma get_set_eq o k v : Obj.get k (Obj.set k v o) = Some v.
Proof.
  unfold Obj.set. destruct (Obj.has k o) eqn:H.
  - apply get_update_eq. exact H.
  - unfold Obj.has in H. destruct (Obj.get k o) eqn:G; [discriminate|].
    unfold Obj.add. destruct (Obj.array_index k).
    + apply get_insert_index_eq. exact G.
    + rewrite get_app, G. simpl. rewrite eqb_refl_s. reflexivity.
Qed.

Lemma get_set_ne o k k' v : k <> k' -> Obj.get k' (Obj.set k v o) = Obj.get k' o.
Proof.
  intros Hne. unfold Obj.set. destruct (Obj.has k o).
  - apply get_update_ne. exact Hne.
  - unfold Obj.add. destruct (Obj.array_index k).
    + apply get_insert_index_ne. exact Hne.
    + rewrite get_app. destruct (Obj.get k' o); [reflexivity|]. simpl.
      rewrite eqb_ne by congruence. reflexivity.
Qed.

Lemma get_set o k k' v :
  Obj.get k' (Obj.set k v o) = if String.eqb k' k then Some v else Obj.get k' o.
Proof.
  destruct (String.eqb k' k) eqn:E.
  - apply String.eqb_eq in E. subst. apply get_set_eq.
  - apply String.eqb_neq in E. apply get_set_ne. congruence.
Qed.

Lemma has_set_eq o k v : Obj.has k (Obj.set k v o) = true.
Proof. unfold Obj.has. rewrite get_set_eq. reflexivity. Qed.

Lemma get_remove o k k' :
  Obj.get k' (Obj.remove k o) = if String.eqb k' k then None else Obj.get k' o.
Proof.
  unfold Obj.remove. induction o as [|[k0 v0] o IH]; simpl.
  - destruct (String.eqb k' k); reflexivity.
  - destruct (String.eqb k k0) eqn:E; simpl.
    + apply String.eqb_eq in E. subst k0. rewrite IH.
      destruct (String.eqb k' k); reflexivity.
    + rewrite IH. destruct (String.eqb k' k0) eqn:E0; [|reflexivity].
      apply String.eqb_eq in E0. subst k0.
      rewrite String.eqb_sym, E. reflexivity.
Qed.

Lemma has_remove_eq o k : Obj.has k (Obj.remove k o) = false.
Proof. unfold Obj.has. rewrite get_remove, eqb_refl_s. reflexivity. Qed.

(** [{ ...a, ...b }]: a key of [b] wins, a key that only [a] has stays. *)
Lemma get_assign (a b : Obj.t V) k :
  Obj.get k (Obj.assign a b) =
  match Obj.get k (rev b) with Some v => Some v | None => Obj.get k a end.
Proof.
  unfold Obj.assign. revert a. induction b as [|[k0 v0] b IH]; intros a; simpl.
  - reflexivity.
  - rewrite IH, get_app. destruct (Obj.get k (rev b)); [reflexivity|].
    simpl. rewrite get_set. destruct (String.eqb k k0); reflexivity.
Qed.

End ObjFacts.

(** ** The queues, one per method *)

Lemma Method_eqb_eq a b : Method_eqb a b = true <-> a = b.
Proof. destruct a, b; simpl; split; intros H; congruence. Qed.

Lemma Queues_get_set_eq m l q : Queues.get m (Queues.set m l q) = l.
Proof. destruct m; reflexivity. Qed.

Lemma Queues_get_set_ne m m' l q :
  m <> m' -> Queues.get m' (Queues.set m l q) = Queues.get m' q.
Proof. destruct m, m'; intros H; try reflexivity; congruence. Qed.

Lemma Queues_get_set m m' l q :
  Queues.get m' (Queues.set m l q) =
  if Method_eqb m m' then l else Queues.get m' q.
Proof. destruct m, m'; reflexivity. Qed.

Lemma Queues_set_set m l l' q :
  Queues.set m l (Queues.set m l' q) = Queues.set m l q.
Proof. destruct m; reflexivity. Qed.

Lemma Queues_set_get m q : Queues.set m (Queues.get m q) q = q.
Proof. destruct m, q; reflexivity. Qed.

Lemma Queues_set_comm m m' a b q :
  m <> m' ->
  Queues.set m a (Queues.set m' b q) = Queues.set m' b (Queues.set m a q).
Proof. destruct m, m'; intros H; try reflexivity; congruence. Qed.

Lemma File_set_mockQueues_id o : File.set_mockQueues (File.mockQueues o) o = o.
Proof. destruct o; reflexivity. Qed.

Lemma Heap_set_files_id h : Heap.set_files (Heap.files h) h = h.
Proof. destruct h; reflexivity. Qed.

Lemma Heap_set_buckets_id h : Heap.set_buckets (Heap.buckets h) h = h.
Proof. destruct h; reflexivity. Qed.

(** ** What a failed call leaves behind *)

Lemma shift_nil h f o m :
  Heap.files h !! f = Some o ->
  Queues.get m (File.mockQueues o) = [] ->
  shift f m h = (Return None, h).
Proof.
  intros Hf Hq. unfold shift, bind, getFile. rewrite Hf, Hq. reflexivity.
Qed.

Lemma shift_cons h f o m x q :
  Heap.files h !! f = Some o ->
  Queues.get m (File.mockQueues o) = x :: q ->
  shift f m h =
  (Return (Some x),
   Heap.set_files
     (<[f := File.set_mockQueues (Queues.set m q (File.mockQueues o)) o]>
        (Heap.files h)) h).
Proof.
  intros Hf Hq. unfold shift, bind, getFile, modifyFile, ret.
  rewrite Hf, Hq. simpl. rewrite Hf. reflexivity.
Qed.

Lemma mockValue_check_nil h f o m :
  Heap.files h !! f = Some o ->
  Queues.get m (File.mockQueues o) = [] ->
  mockValue_check f m h = (Return tt, h).
Proof.
  intros Hf Hq. unfold mockValue_check, bind.
  rewrite (shift_nil h f o m Hf Hq). reflexivity.
Qed.

Lemma mockValue_check_cons h f o m e q :
  Heap.files h !! f = Some o ->
  Queues.get m (File.mockQueues o) = MockError e :: q ->
  mockValue_check f m h =
  (Throw e,
   Heap.set_files
     (<[f := File.set_mockQueues (Queues.set m q (File.mockQueues o)) o]>
        (Heap.files h)) h).
Proof.
  intros Hf Hq. unfold mockValue_check, bind.
  rewrite (shift_cons h f o m _ q Hf Hq). reflexivity.
Qed.

Lemma mockValue_check_dangling h f m :
  Heap.files h !! f = None -> mockValue_check f m h = (Dangling, h).
Proof.
  intros Hf. unfold mockValue_check, shift, bind, getFile. rewrite Hf.
  reflexivity.
Qed.

Lemma same_but_queue_refl_nil h f m :
  (forall o, Heap.files h !! f = Some o -> Queues.get m (File.mockQueues o) = []) ->
  same_but_queue f m h h.
Proof.
  intros Hq. repeat split; try reflexivity. intros g o Hg. exists o.
  repeat split; try assumption. intros m'.
  destruct (Nat.eqb g f && Method_eqb m m')%bool eqn:E; [|reflexivity].
  apply andb_true_iff in E as [Eg Em]. apply Nat.eqb_eq in Eg.
  apply Method_eqb_eq in Em. subst. rewrite (Hq o Hg). reflexivity.
Qed.

Lemma same_but_queue_pop h f o m x q :
  Heap.files h !! f = Some o ->
  Queues.get m (File.mockQueues o) = x :: q ->
  same_but_queue f m h
    (Heap.set_files
       (<[f := File.set_mockQueues (Queues.set m q (File.mockQueues o)) o]>
          (Heap.files h)) h).
Proof.
  intros Hf Hq. repeat split; try reflexivity.
  - simpl. apply length_insert.
  - intros g og Hg. change (Heap.files (Heap.set_files ?l h)) with l. destruct (decide (g = f)) as [Heq|Hne].
    + subst g. rewrite Hf in Hg. injection Hg as <-.
      eexists. split.
      { apply list_lookup_insert_eq. eapply lookup_lt_Some; eauto. }
      simpl. repeat split. intros m'. rewrite Nat.eqb_refl. simpl.
      rewrite Queues_get_set. destruct (Method_eqb m m') eqn:E; [|reflexivity].
      apply Method_eqb_eq in E. subst. rewrite Hq. reflexivity.
    + exists og. split.
      { rewrite list_lookup_insert_ne by congruence. exact Hg. }
      repeat split. intros m'.
      destruct (Nat.eqb g f) eqn:E; [apply Nat.eqb_eq in E; congruence|].
      reflexivity.
Qed.

Lemma run_unfold f c h :
  run f c h = (do! mockValue_check f (method_of c) in body f c) h.
Proof.
  destruct c; unfold run, body, MockFile_delete, MockFile_exists,
    MockFile_download, MockFile_getSignedUrl, MockFile_save,
    MockFile_setMetadata, MockFile_getMetadata, bind; simpl;
    destruct (mockValue_check f _ h) as [[[]| |] ?]; reflexivity.
Qed.

Ltac break_match :=
  match goal with
  | H : context [match ?x with _ => _ end] |- _ => destruct x eqn:?
  | |- context [match ?x with _ => _ end] => destruct x eqn:?
  end.

Ltac inv_pair :=
  match goal with
  | H : (_, _) = (_, _) |- _ => inversion H; subst; clear H
  end.

Lemma mustBeExists_inv f h r h' : mustBeExists f h = (r, h') -> h' = h.
Proof.
  unfold mustBeExists, bind, getFile, getBucket, read_files, ret, throw.
  intros H. repeat (break_match; simpl in *; try inv_pair; try congruence).
Qed.

Arguments files_get : simpl never.
Arguments inherited : simpl never.
Arguments assign_files : simpl never.
Arguments object_prototype_get : simpl never.
Arguments file_get : simpl never.

Ltac unfold_M :=
  unfold delete_body, exists_body, download_body, getSignedUrl_body,
    save_body, save_body_with, setMetadata_body, getMetadata_body,
    mustBeExists, markAsExists, read_files, writeFileSync, when, bind, ret,
    throw, getFile, getBucket, modifyFile, modifyBucket in *.

Ltac crush_M :=
  repeat (simpl in *; try inv_pair; try congruence; try break_match).

Lemma body_throw f c h e h' : body f c h = (Throw e, h') -> h' = h.
Proof.
  destruct c; simpl; unfold_M; intros H.
  all: crush_M.
Qed.

(** A call that fails changes nothing but the queue it popped. *)
Lemma run_throw f c h e h' :
  run f c h = (Throw e, h') -> same_but_queue f (method_of c) h h'.
Proof.
  rewrite run_unfold. unfold bind at 1.
  destruct (Heap.files h !! f) as [o|] eqn:Hf.
  - destruct (Queues.get (method_of c) (File.mockQueues o)) as [|[e0] q] eqn:Hq.
    + rewrite (mockValue_check_nil h f o _ Hf Hq). intros H.
      apply body_throw in H. subst h'. apply same_but_queue_refl_nil.
      intros o' Ho'. congruence.
    + rewrite (mockValue_check_cons h f o _ e0 q Hf Hq). intros H.
      inversion H; subst. eapply same_but_queue_pop; eauto.
  - rewrite (mockValue_check_dangling h f _ Hf). discriminate.
Qed.

(** ** Enqueuing an error and the other methods *)

Section Enqueue.
Variables (f : fref) (op : Method) (e : Error).

Lemma enq_Some h o :
  Heap.files h !! f = Some o ->
  enq f op e h = Heap.set_files (<[f := enq_file op e o]> (Heap.files h)) h.
Proof.
  intros Hf. unfold enq, mockErrorOnce, bind, modifyFile. rewrite Hf.
  reflexivity.
Qed.

Lemma enq_None h : Heap.files h !! f = None -> enq f op e h = h.
Proof.
  intros Hf. unfold enq, mockErrorOnce, bind, modifyFile. rewrite Hf.
  reflexivity.
Qed.

Lemma enq_buckets h : Heap.buckets (enq f op e h) = Heap.buckets h.
Proof.
  destruct (Heap.files h !! f) eqn:Hf;
    [rewrite (enq_Some _ _ Hf)|rewrite (enq_None _ Hf)]; reflexivity.
Qed.

Lemma enq_lookup h g :
  Heap.files (enq f op e h) !! g =
  match Heap.files h !! g with
  | Some o => Some (if Nat.eqb g f then enq_file op e o else o)
  | None => None
  end.
Proof.
  destruct (Heap.files h !! f) as [o|] eqn:Hf.
  - rewrite (enq_Some _ _ Hf). simpl.
    destruct (Nat.eqb g f) eqn:E.
    + apply Nat.eqb_eq in E. subst g. rewrite Hf.
      apply list_lookup_insert_eq. eapply lookup_lt_Some; eauto.
    + apply Nat.eqb_neq in E. rewrite list_lookup_insert_ne by congruence.
      destruct (Heap.files h !! g); reflexivity.
  - rewrite (enq_None _ Hf). destruct (Nat.eqb g f) eqn:E.
    + apply Nat.eqb_eq in E. subst g. rewrite Hf. reflexivity.
    + destruct (Heap.files h !! g); reflexivity.
Qed.

Lemma sim_ret {A} (a : A) : sim f op e (ret a) (ret a).
Proof. intros h. reflexivity. Qed.

Lemma sim_throw {A} (x : Error) : sim f op e (@throw A x) (throw x).
Proof. intros h. reflexivity. Qed.

Lemma sim_bind {A B} (m1 m2 : M A) (k1 k2 : A -> M B) :
  sim f op e m1 m2 -> (forall a, sim f op e (k1 a) (k2 a)) -> sim f op e (bind m1 k1) (bind m2 k2).
Proof.
  intros Hm Hk h. unfold bind. rewrite Hm.
  destruct (m1 h) as [[a|x|] h1]; simpl; [apply Hk|reflexivity|reflexivity].
Qed.

Lemma sim_getFile {B} g (k1 k2 : File.t -> M B) :
  (forall o, sim f op e (k1 o) (k2 (if Nat.eqb g f then enq_file op e o else o))) ->
  sim f op e (bind (getFile g) k1) (bind (getFile g) k2).
Proof.
  intros Hk h. unfold bind, getFile. rewrite enq_lookup.
  destruct (Heap.files h !! g) as [o|]; simpl; [apply Hk|reflexivity].
Qed.

Lemma sim_getBucket b : sim f op e (getBucket b) (getBucket b).
Proof.
  intros h. unfold getBucket. rewrite enq_buckets.
  destruct (Heap.buckets h !! b); reflexivity.
Qed.

Lemma sim_modifyBucket b G : sim f op e (modifyBucket b G) (modifyBucket b G).
Proof.
  intros h. unfold modifyBucket. rewrite enq_buckets.
  destruct (Heap.buckets h !! b) as [o|]; simpl; [|reflexivity].
  f_equal. destruct (Heap.files h !! f) as [o'|] eqn:Hf.
  - rewrite (enq_Some _ _ Hf). rewrite (enq_Some _ o') by exact Hf.
    reflexivity.
  - rewrite (enq_None _ Hf). rewrite enq_None by exact Hf. reflexivity.
Qed.

Lemma enq_disk h :
  Heap.disk (enq f op e h) = Heap.disk h /\
  Heap.refused (enq f op e h) = Heap.refused h.
Proof.
  destruct (Heap.files h !! f) eqn:Hf;
    [rewrite (enq_Some _ _ Hf)|rewrite (enq_None _ Hf)]; split; reflexivity.
Qed.

Lemma sim_writeFileSync p d : sim f op e (writeFileSync p d) (writeFileSync p d).
Proof.
  intros h. unfold writeFileSync. destruct d as [bytes|]; [|reflexivity].
  destruct (enq_disk h) as [Hd Hr]. rewrite Hr.
  destruct (Obj.get p (Heap.refused h)); [reflexivity|].
  cbn [fst snd]. f_equal. rewrite Hd.
  destruct (Heap.files h !! f) as [o'|] eqn:Hf.
  - rewrite (enq_Some _ _ Hf). rewrite (enq_Some _ o') by exact Hf.
    reflexivity.
  - rewrite (enq_None _ Hf). rewrite enq_None by exact Hf. reflexivity.
Qed.

Lemma file_get_enq_file g o k :
  file_get g (enq_file op e o) k = file_get g o k.
Proof. destruct o. reflexivity. Qed.

Lemma files_get_enq h b k : files_get (enq f op e h) b k = files_get h b k.
Proof.
  unfold files_get, inherited.
  destruct (Obj.get k (Bucket.files b)); [reflexivity|].
  destruct (Bucket.files_proto b) as [p|]; [|reflexivity].
  rewrite enq_lookup. destruct (Heap.files h !! p) as [o|]; [|reflexivity].
  destruct (Nat.eqb p f); [rewrite file_get_enq_file|]; reflexivity.
Qed.

Lemma sim_read_files b k : sim f op e (read_files b k) (read_files b k).
Proof. intros h. unfold read_files. rewrite files_get_enq. reflexivity. Qed.

Lemma sim_modifyFile g G :
  (forall o, G (enq_file op e o) = enq_file op e (G o)) ->
  sim f op e (modifyFile g G) (modifyFile g G).
Proof.
  intros HG h. unfold modifyFile. rewrite enq_lookup.
  destruct (Heap.files h !! g) as [o|] eqn:Hg; simpl; [|reflexivity].
  f_equal. destruct (Nat.eqb g f) eqn:E.
  - apply Nat.eqb_eq in E. subst g. rewrite (enq_Some _ _ Hg).
    assert (f < length (Heap.files h)) as Hlt by (eapply lookup_lt_Some; eauto).
    erewrite enq_Some by (simpl; apply list_lookup_insert_eq; exact Hlt).
    simpl. rewrite !list_insert_insert_eq, HG. reflexivity.
  - apply Nat.eqb_neq in E.
    destruct (Heap.files h !! f) as [o'|] eqn:Hf.
    + rewrite (enq_Some _ _ Hf).
      erewrite enq_Some
        by (simpl; rewrite list_lookup_insert_ne by congruence; exact Hf).
      simpl. rewrite list_insert_insert_ne by congruence. reflexivity.
    + rewrite (enq_None _ Hf). rewrite enq_None; [reflexivity|].
      simpl. rewrite list_lookup_insert_ne by congruence. exact Hf.
Qed.

End Enqueue.

Ltac sim_step :=
  first
    [ apply sim_ret
    | apply sim_throw
    | apply sim_getBucket
    | apply sim_modifyBucket
    | apply sim_writeFileSync
    | apply sim_read_files
    | apply sim_modifyFile; intros []; reflexivity
    | apply sim_getFile; intros ?; destruct (Nat.eqb _ _);
      unfold enq_file; cbn [File.name File.bucket File.metadata File.contents
                            File.set_mockQueues]
    | apply sim_bind; [|intros ?]
    | match goal with
      | |- sim _ _ _ (match ?x with _ => _ end) _ => destruct x
      end ].

Section EnqueueBodies.
Variables (f : fref) (op : Method) (e : Error).

Lemma sim_mustBeExists g : sim f op e (mustBeExists g) (mustBeExists g).
Proof. unfold mustBeExists. repeat sim_step. Qed.

Lemma sim_markAsExists g : sim f op e (markAsExists g) (markAsExists g).
Proof. unfold markAsExists, when. repeat sim_step. Qed.

Lemma sim_body g c : sim f op e (body g c) (body g c).
Proof.
  pose proof (sim_mustBeExists g). pose proof (sim_markAsExists g).
  destruct c; unfold body, delete_body, exists_body, download_body,
    getSignedUrl_body, save_body, save_body_with, setMetadata_body,
    getMetadata_body, when.
  all: repeat first [eassumption | sim_step].
Qed.

End EnqueueBodies.

Section EnqueueCalls.
Variables (f : fref) (op : Method) (e : Error).

Lemma enq_file_shift_comm m' rest o :
  op <> m' ->
  File.set_mockQueues (Queues.set m' rest (File.mockQueues (enq_file op e o)))
    (enq_file op e o) =
  enq_file op e
    (File.set_mockQueues (Queues.set m' rest (File.mockQueues o)) o).
Proof.
  intros Hne. destruct o as [n b p s md ct q].
  unfold enq_file, File.set_mockQueues. simpl.
  f_equal. rewrite (Queues_get_set_ne m' op) by congruence.
  apply Queues_set_comm. congruence.
Qed.

Lemma sim_mockValue_check g m' :
  op <> m' -> sim f op e (mockValue_check g m') (mockValue_check g m').
Proof.
  intros Hne. unfold mockValue_check, shift.
  apply sim_bind; [|intros [[x]|]; sim_step].
  apply sim_getFile. intros o. destruct (Nat.eqb g f).
  - unfold enq_file at 1. cbn [File.mockQueues File.set_mockQueues].
    rewrite Queues_get_set_ne by exact Hne.
    destruct (Queues.get m' (File.mockQueues o)); [sim_step|].
    apply sim_bind; [|intros ?; sim_step].
    apply sim_modifyFile. intros o'. apply enq_file_shift_comm. exact Hne.
  - destruct (Queues.get m' (File.mockQueues o)); [sim_step|].
    apply sim_bind; [|intros ?; sim_step].
    apply sim_modifyFile. intros o'. apply enq_file_shift_comm. exact Hne.
Qed.

(** Enqueuing on one method and calling another commute. *)
Lemma run_enq g c h :
  op <> method_of c ->
  run g c (enq f op e h) = (fst (run g c h), enq f op e (snd (run g c h))).
Proof.
  intros Hne. rewrite !run_unfold.
  apply (sim_bind f op e (mockValue_check g (method_of c))
           (mockValue_check g (method_of c)) (fun _ => body g c)
           (fun _ => body g c)).
  - apply sim_mockValue_check. exact Hne.
  - intros _. apply sim_body.
Qed.

End EnqueueCalls.

Lemma with_queue_lookup f op o q h :
  Heap.files h !! f = Some o ->
  Heap.files (with_queue f op o q h) !! f =
  Some (File.set_mockQueues (Queues.set op q (File.mockQueues o)) o).
Proof.
  intros Hf. simpl. apply list_lookup_insert_eq. eapply lookup_lt_Some; eauto.
Qed.

Lemma with_queue_over f op o q x h :
  Heap.set_files (<[f := x]> (Heap.files (with_queue f op o q h)))
    (with_queue f op o q h) =
  Heap.set_files (<[f := x]> (Heap.files h)) h.
Proof. unfold with_queue. simpl. rewrite list_insert_insert_eq. reflexivity. Qed.

Lemma File_set_mockQueues_twice q q' o :
  File.set_mockQueues q (File.set_mockQueues q' o) = File.set_mockQueues q o.
Proof. reflexivity. Qed.

Lemma with_queue_id f op o h :
  Heap.files h !! f = Some o ->
  with_queue f op o (Queues.get op (File.mockQueues o)) h = h.
Proof.
  intros Hf. unfold with_queue. rewrite Queues_set_get, File_set_mockQueues_id.
  rewrite list_insert_id by exact Hf. apply Heap_set_files_id.
Qed.

Lemma enqueue_all_queue f op es h o q :
  Heap.files h !! f = Some o ->
  enqueue_all f op es (with_queue f op o q h) =
  with_queue f op o (q ++ map MockError es) h.
Proof.
  intros Hf. revert q. induction es as [|e es IH]; intros q; simpl.
  - rewrite app_nil_r. reflexivity.
  - change (snd (mockErrorOnce f op e ?x)) with (enq f op e x).
    erewrite enq_Some by (apply with_queue_lookup; exact Hf).
    unfold enq_file. cbn [File.mockQueues File.set_mockQueues].
    rewrite Queues_get_set_eq, Queues_set_set, with_queue_over.
    rewrite File_set_mockQueues_twice.
    change (Heap.set_files _ h) with (with_queue f op o (q ++ [MockError e]) h).
    rewrite IH, <- app_assoc. reflexivity.
Qed.

Lemma calls_queue f c es h o :
  Heap.files h !! f = Some o ->
  calls f c (length es) (with_queue f (method_of c) o (map MockError es) h) =
  (map Throw es, with_queue f (method_of c) o [] h).
Proof.
  intros Hf. induction es as [|e es IH]; simpl; [reflexivity|].
  rewrite run_unfold. unfold bind at 1.
  erewrite mockValue_check_cons;
    [|apply with_queue_lookup; exact Hf
     |cbn [File.mockQueues File.set_mockQueues];
      rewrite Queues_get_set_eq; reflexivity].
  cbn [File.mockQueues File.set_mockQueues].
  rewrite Queues_set_set, with_queue_over, File_set_mockQueues_twice.
  change (Heap.set_files _ h)
    with (with_queue f (method_of c) o (map MockError es) h).
  rewrite IH. reflexivity.
Qed.

Lemma errors_of_inv q : map MockError (errors_of q) = q.
Proof.
  induction q as [|[e] q IH]; simpl; [reflexivity|]. rewrite IH. reflexivity.
Qed.

Lemma run_normal h f o c :
  Heap.files h !! f = Some o ->
  Queues.get (method_of c) (File.mockQueues o) = [] ->
  run f c h = body f c h.
Proof.
  intros Hf Hq. rewrite run_unfold. unfold bind at 1.
  rewrite (mockValue_check_nil h f o _ Hf Hq). reflexivity.
Qed.

(** C1: for each of the seven mockable methods and whatever the object
    holds, errors queued with mockErrorOnce on a method are thrown as they
    are, one per call and in the order queued (after those already
    pending); once they are consumed the next call runs the method
    itself; with nothing pending, one mockErrorOnce(op, e) makes exactly
    the next call fail with e and leaves the store as it was; the queues
    of the other methods and what their calls do are unchanged. *)
Theorem mockErrorOnce_protocol (h : Heap.t) (f : fref) (o : File.t) (c : Call) :
  Heap.files h !! f = Some o ->
  let op := method_of c in
  let pending := errors_of (Queues.get op (File.mockQueues o)) in
  let drained := with_queue f op o [] h in
  (forall es,
      calls f c (length (pending ++ es)) (enqueue_all f op es h) =
      (map Throw (pending ++ es), drained)) /\
  run f c drained = body f c drained /\
  (pending = [] ->
   drained = h /\
   forall e, run f c (snd (mockErrorOnce f op e h)) = (Throw e, h)) /\
  (forall e c', method_of c' <> op ->
     (forall o', Heap.files (snd (mockErrorOnce f op e h)) !! f = Some o' ->
        Queues.get (method_of c') (File.mockQueues o') =
        Queues.get (method_of c') (File.mockQueues o)) /\
     run f c' (snd (mockErrorOnce f op e h)) =
     (fst (run f c' h), snd (mockErrorOnce f op e (snd (run f c' h))))).
Proof.
  intros Hf op pending drained.
  assert (h = with_queue f op o (map MockError pending) h) as Hh.
  { unfold pending. rewrite errors_of_inv. symmetry. apply with_queue_id.
    exact Hf. }
  assert (forall es,
      calls f c (length (pending ++ es)) (enqueue_all f op es h) =
      (map Throw (pending ++ es), drained)) as Hfifo.
  { intros es. rewrite Hh at 1. rewrite (enqueue_all_queue f op es h o) by exact Hf.
    rewrite <- map_app. apply calls_queue. exact Hf. }
  split; [exact Hfifo|]. split; [|split].
  - eapply run_normal.
    + apply with_queue_lookup. exact Hf.
    + cbn [File.mockQueues File.set_mockQueues]. apply Queues_get_set_eq.
  - intros Hp.
    assert (drained = h) as Hd.
    { unfold drained. etransitivity; [|symmetry; exact Hh].
      rewrite Hp. reflexivity. }
    split; [exact Hd|]. intros e.
    specialize (Hfifo [e]). rewrite Hp, Hd in Hfifo. simpl in Hfifo.
    destruct (run f c (snd (mockErrorOnce f op e h))) as [r h1].
    inversion Hfifo. reflexivity.
  - intros e c' Hne. split.
    + intros o'. change (snd (mockErrorOnce f op e h)) with (enq f op e h).
      rewrite enq_lookup, Hf, Nat.eqb_refl. intros [= <-].
      unfold enq_file. cbn [File.mockQueues File.set_mockQueues].
      apply Queues_get_set_ne. congruence.
    + apply (run_enq f op e f c' h). congruence.
Qed.

Lemma mockErrorOnce_protocol_witness :
  run 0 (call_save (DString "x") None)
    (snd (mockErrorOnce 0 m_save (MkError "Failed to save") demo_file)) =
  (Throw (MkError "Failed to save"), demo_file).
Proof.
  refine (proj2 (proj1 (proj2 (proj2
    (mockErrorOnce_protocol demo_file 0 _ (call_save (DString "x") None) _))) _) _).
  - reflexivity.
  - reflexivity.
Defined.
(** ** Reading and assigning a property of [files] *)

Lemma file_get_proto g o : file_get g o "__proto__" = None.
Proof. reflexivity. Qed.

Lemma inherited_proto_truthy h b :
  defined_truthy (inherited h b "__proto__") = true.
Proof.
  unfold inherited. destruct (Bucket.files_proto b) as [p|]; [|reflexivity].
  destruct (Heap.files h !! p); reflexivity.
Qed.

Lemma inherited_proto h b :
  inherited h b "__proto__" =
  Some (match Bucket.files_proto b with
        | Some p => VFile p
        | None => VObjectPrototype
        end).
Proof.
  unfold inherited. destruct (Bucket.files_proto b) as [p|]; [|reflexivity].
  destruct (Heap.files h !! p); reflexivity.
Qed.

Lemma files_get_own h b k v :
  Obj.get k (Bucket.files b) = Some v -> files_get h b k = Some v.
Proof. intros H. unfold files_get. rewrite H. reflexivity. Qed.

Lemma files_get_not_own h b k :
  Obj.get k (Bucket.files b) = None -> files_get h b k = inherited h b k.
Proof. intros H. unfold files_get. rewrite H. reflexivity. Qed.

Lemma has_get_None {V} (o : Obj.t V) k : Obj.has k o = false <-> Obj.get k o = None.
Proof. unfold Obj.has. destruct (Obj.get k o); split; congruence. Qed.

Lemma has_get_Some {V} (o : Obj.t V) k v : Obj.get k o = Some v -> Obj.has k o = true.
Proof. unfold Obj.has. intros ->. reflexivity. Qed.

(** An assignment under a name that reads as falsy adds or updates an
    own property: the name is not [__proto__], which always reads as an
    object. *)
Lemma assign_files_falsy h b k v :
  defined_truthy (files_get h b k) = false ->
  assign_files k v b = Bucket.set_files (Obj.set k v (Bucket.files b)) b.
Proof.
  intros Hfalsy. unfold assign_files.
  destruct (String.eqb k "__proto__") eqn:E; [|reflexivity].
  destruct (Obj.has k (Bucket.files b)) eqn:Hown; [reflexivity|].
  exfalso. apply String.eqb_eq in E. subst k.
  apply has_get_None in Hown.
  rewrite (files_get_not_own h b _ Hown), inherited_proto_truthy in Hfalsy.
  discriminate.
Qed.

Lemma assign_files_plain b k v :
  String.eqb k "__proto__" = false ->
  assign_files k v b = Bucket.set_files (Obj.set k v (Bucket.files b)) b.
Proof. intros E. unfold assign_files. rewrite E. reflexivity. Qed.

Lemma assign_files_own b k v v0 :
  Obj.get k (Bucket.files b) = Some v0 ->
  assign_files k v b = Bucket.set_files (Obj.set k v (Bucket.files b)) b.
Proof.
  intros Hown. unfold assign_files. rewrite (has_get_Some _ _ _ Hown).
  rewrite andb_false_r. reflexivity.
Qed.

(** After [files[k] = file], [files[k]] reads that file, whatever [k]. *)
Lemma files_get_assign_file h b k f :
  files_get h (assign_files k (VFile f) b) k = Some (VFile f).
Proof.
  unfold assign_files.
  destruct (String.eqb k "__proto__" && negb (Obj.has k (Bucket.files b)))%bool
    eqn:E.
  - apply andb_true_iff in E as [E Hown]. apply String.eqb_eq in E. subst k.
    apply negb_true_iff, has_get_None in Hown.
    rewrite files_get_not_own by exact Hown. apply inherited_proto.
  - apply files_get_own. cbn [Bucket.files Bucket.set_files]. apply get_set_eq.
Qed.

Lemma assign_files_name b k v : Bucket.name (assign_files k v b) = Bucket.name b.
Proof.
  unfold assign_files. destruct (_ && _)%bool; [destruct v|]; reflexivity.
Qed.

Lemma assign_files_storage b k v :
  Bucket.storage (assign_files k v b) = Bucket.storage b.
Proof.
  unfold assign_files. destruct (_ && _)%bool; [destruct v|]; reflexivity.
Qed.

(** What a record inherits is read from the prototype and from the file
    objects only. *)
Lemma inherited_ext h h' b b' k :
  Heap.files h' = Heap.files h ->
  Bucket.files_proto b' = Bucket.files_proto b ->
  inherited h' b' k = inherited h b k.
Proof. intros Hf Hp. unfold inherited. rewrite Hf, Hp. reflexivity. Qed.

Lemma files_get_ext h h' b k :
  Heap.files h' = Heap.files h -> files_get h' b k = files_get h b k.
Proof.
  intros Hf. unfold files_get. rewrite (inherited_ext h h' b b k Hf eq_refl).
  reflexivity.
Qed.

Lemma file_get_truthy p o o' k :
  keeps_truthy o o' ->
  (file_get p o' k = None <-> file_get p o k = None) /\
  (defined_truthy (file_get p o k) = true ->
   defined_truthy (file_get p o' k) = true).
Proof.
  intros (Hn & Hb & Hp & Hs & Hm & Hc). unfold file_get.
  repeat (destruct (String.eqb k _); [split; [split; discriminate|]|]).
  - rewrite Hn. auto.
  - auto.
  - auto.
  - auto.
  - simpl. destruct (File.contents o') eqn:E'; [reflexivity|].
    rewrite (Hc eq_refl). auto.
  - simpl. exact Hm.
  - auto.
  - split; [reflexivity|auto].
Qed.

(** An update of a file object that makes no field falsy leaves truthy
    what the records read. *)
Lemma inherited_truthy_update h h' b k f o o' :
  Heap.files h !! f = Some o ->
  Heap.files h' = <[f := o']> (Heap.files h) ->
  keeps_truthy o o' ->
  defined_truthy (inherited h b k) = true ->
  defined_truthy (inherited h' b k) = true.
Proof.
  intros Hf Hfiles Hk. unfold inherited. rewrite Hfiles.
  destruct (Bucket.files_proto b) as [p|]; [|auto].
  destruct (decide (p = f)) as [->|Hne].
  - rewrite list_lookup_insert_eq by (eapply lookup_lt_Some; eauto).
    rewrite Hf. destruct (file_get_truthy f o o' k Hk) as [Hnone Htruthy].
    destruct (file_get f o' k) as [v'|] eqn:E'.
    + destruct (file_get f o k) as [v|] eqn:E; [exact Htruthy|].
      destruct Hnone as [_ H]. specialize (H eq_refl). discriminate.
    + destruct Hnone as [H _]. rewrite (H eq_refl). auto.
  - rewrite list_lookup_insert_ne by congruence. auto.
Qed.

Lemma files_get_truthy_update h h' b k f o o' :
  Heap.files h !! f = Some o ->
  Heap.files h' = <[f := o']> (Heap.files h) ->
  keeps_truthy o o' ->
  defined_truthy (files_get h b k) = true ->
  defined_truthy (files_get h' b k) = true.
Proof.
  intros Hf Hfiles Hk. unfold files_get.
  destruct (Obj.get k (Bucket.files b)); [auto|].
  eapply inherited_truthy_update; eauto.
Qed.

(** A new file object changes nothing of what the records read. *)
Lemma inherited_alloc h h' b k o :
  Heap.files h' = Heap.files h ++ [o] ->
  (forall p, Bucket.files_proto b = Some p -> is_Some (Heap.files h !! p)) ->
  inherited h' b k = inherited h b k.
Proof.
  intros Hfiles Hp. unfold inherited. rewrite Hfiles.
  destruct (Bucket.files_proto b) as [p|]; [|reflexivity].
  destruct (Hp p eq_refl) as [po Hpo].
  rewrite (lookup_app_l_Some _ _ _ _ Hpo), Hpo. reflexivity.
Qed.

Lemma is_member_true_buckets {h f o} :
  Heap.files h !! f = Some o ->
  is_member h f = true ->
  exists b, Heap.buckets h !! File.bucket o = Some b /\
            defined_truthy (files_get h b (File.name o)) = true.
Proof.
  intros Hf. unfold is_member. rewrite Hf.
  destruct (Heap.buckets h !! File.bucket o) as [b|]; [eauto|discriminate].
Qed.

(** ** The methods on a valid handle *)

Section ValidHandle.
Variables (h : Heap.t) (f : fref) (o : File.t) (b : Bucket.t).
Hypothesis Hf : Heap.files h !! f = Some o.
Hypothesis Hb : Heap.buckets h !! File.bucket o = Some b.

Lemma is_member_eq :
  is_member h f = defined_truthy (files_get h b (File.name o)).
Proof using Hf Hb. unfold is_member. rewrite Hf, Hb. reflexivity. Qed.

Lemma mustBeExists_spec :
  mustBeExists f h =
  if is_member h f then (Return tt, h)
  else (Throw (no_such_file (Bucket.name b) (File.name o)), h).
Proof using Hf Hb.
  rewrite is_member_eq. unfold mustBeExists, bind, getFile, getBucket, read_files.
  rewrite Hf, Hb. destruct (defined_truthy _); reflexivity.
Qed.

Lemma markAsExists_spec : markAsExists f h = (Return tt, (marked h f o b)).
Proof using Hf Hb.
  unfold marked. rewrite is_member_eq.
  unfold markAsExists, bind, getFile, getBucket, read_files, when, modifyBucket.
  rewrite Hf, Hb. destruct (defined_truthy _); simpl; [reflexivity|].
  rewrite Hb. reflexivity.
Qed.

Lemma marked_files : Heap.files (marked h f o b) = Heap.files h.
Proof. unfold marked. destruct (is_member h f); reflexivity. Qed.

Lemma marked_member : is_member (marked h f o b) f = true.
Proof using Hf Hb.
  unfold marked. destruct (is_member h f) eqn:E; [exact E|].
  unfold is_member. cbn [Heap.files Heap.buckets Heap.set_buckets]. rewrite Hf.
  rewrite list_lookup_insert_eq by (eapply lookup_lt_Some; eauto).
  rewrite files_get_assign_file. reflexivity.
Qed.

(** The entry that [markAsExists] adds. *)
Lemma marked_assign :
  is_member h f = false ->
  marked h f o b =
  Heap.set_buckets
    (<[File.bucket o :=
         Bucket.set_files (Obj.set (File.name o) (VFile f) (Bucket.files b)) b]>
       (Heap.buckets h)) h.
Proof using Hf Hb.
  intros E. unfold marked. rewrite E.
  rewrite is_member_eq in E. rewrite (assign_files_falsy h b _ _ E).
  reflexivity.
Qed.

Lemma marked_child : child (marked h f o b) (File.bucket o) (File.name o) =
  if is_member h f then child h (File.bucket o) (File.name o)
  else Some (VFile f).
Proof using Hf Hb.
  destruct (is_member h f) eqn:E.
  - unfold marked. rewrite E. reflexivity.
  - rewrite (marked_assign E). unfold child.
    cbn [Heap.buckets Heap.set_buckets].
    rewrite list_lookup_insert_eq by (eapply lookup_lt_Some; eauto).
    cbn [Bucket.files Bucket.set_files]. apply get_set_eq.
Qed.

Lemma exists_body_spec : exists_body f h = (Return (is_member h f), h).
Proof using Hf Hb.
  rewrite is_member_eq. unfold exists_body, bind, getFile, getBucket, read_files.
  rewrite Hf, Hb. reflexivity.
Qed.

Lemma MockFile_exists_spec :
  Queues.get m_exists (File.mockQueues o) = [] ->
  MockFile_exists f h = (Return (is_member h f), h).
Proof using Hf Hb.
  intros Hq. unfold MockFile_exists, bind.
  rewrite (mockValue_check_nil h f o _ Hf Hq). apply exists_body_spec.
Qed.

Lemma save_body_with_spec buffer options :
  save_body_with f buffer options h =
  match buffer with
  | inr bytes => (Return tt, saved h f o b bytes options)
  | inl e => (Throw e, save_failed h f o b options)
  end.
Proof using Hf Hb.
  unfold save_body_with, bind. rewrite markAsExists_spec.
  assert (Heap.files (marked h f o b) !! f = Some o) as Hf'
    by (rewrite marked_files; exact Hf).
  assert (f < length (Heap.files h)) as Hlt by (eapply lookup_lt_Some; eauto).
  unfold saved, save_failed, when, modifyFile, ret, throw.
  destruct options as [[md]|]; cbn [save_metadata]; [destruct (truthy md)|];
    destruct buffer as [e|bytes]; rewrite ?Hf';
    cbn [fst snd Heap.files Heap.set_files]; rewrite ?marked_files;
    rewrite ?list_lookup_insert_eq by exact Hlt;
    rewrite ?list_insert_insert_eq; try reflexivity; destruct o; reflexivity.
Qed.

Lemma save_body_spec data options :
  save_body f data options h =
  (Return tt, saved h f o b (to_buffer data) options).
Proof using Hf Hb. unfold save_body. apply save_body_with_spec. Qed.

Lemma saved_keeps_truthy bytes options :
  keeps_truthy o
    (File.set_contents (CBuffer bytes)
       (File.set_metadata
          (match options with
           | Some so => if truthy (save_metadata so) then save_metadata so
                        else File.metadata o
           | None => File.metadata o
           end) o)).
Proof.
  repeat split; try reflexivity; simpl.
  - destruct options as [[md]|]; simpl; [destruct (truthy md) eqn:E|]; auto.
  - discriminate.
Qed.

Lemma saved_member bytes options :
  is_member (saved h f o b bytes options) f = true.
Proof using Hf Hb.
  pose proof marked_member as Hm.
  assert (Heap.files (marked h f o b) !! f = Some o) as Hf'
    by (rewrite marked_files; exact Hf).
  destruct (is_member_true_buckets Hf' Hm) as (b' & Hb' & Ht).
  unfold is_member, saved. cbn [Heap.files Heap.buckets Heap.set_files].
  rewrite list_lookup_insert_eq by (eapply lookup_lt_Some; eauto).
  cbn [File.name File.bucket File.set_contents File.set_metadata].
  rewrite Hb'.
  eapply (files_get_truthy_update (marked h f o b) _ b' _ f o);
    [exact Hf'| |apply (saved_keeps_truthy bytes options)|exact Ht].
  cbn [Heap.files Heap.set_files]. rewrite marked_files. reflexivity.
Qed.

Lemma delete_body_spec :
  delete_body f h =
  if is_member h f then (Return (JObj Obj.empty), (deleted h o b))
  else (Throw (no_such_file (Bucket.name b) (File.name o)), h).
Proof using Hf Hb.
  unfold delete_body, bind. rewrite mustBeExists_spec.
  destruct (is_member h f); [|reflexivity].
  unfold getFile, modifyBucket, ret. rewrite Hf, Hb. reflexivity.
Qed.

(** After [delete], the test of membership is decided by what the record
    inherits. *)
Lemma deleted_member : is_member (deleted h o b) f = inherits h b (File.name o).
Proof using Hf Hb.
  unfold is_member, deleted. cbn [Heap.files Heap.buckets Heap.set_buckets].
  rewrite Hf.
  rewrite list_lookup_insert_eq by (eapply lookup_lt_Some; eauto).
  rewrite files_get_not_own
    by (cbn [Bucket.files Bucket.set_files]; rewrite get_remove, eqb_refl_s;
        reflexivity).
  reflexivity.
Qed.

Lemma deleted_child : child (deleted h o b) (File.bucket o) (File.name o) = None.
Proof using Hf Hb.
  unfold child, deleted. simpl.
  rewrite list_lookup_insert_eq by (eapply lookup_lt_Some; eauto).
  simpl. rewrite get_remove, eqb_refl_s. reflexivity.
Qed.

End ValidHandle.

Lemma bind_return_inv {A B} (m : M A) (k : A -> M B) h r h' :
  bind m k h = (Return r, h') ->
  exists a h1, m h = (Return a, h1) /\ k a h1 = (Return r, h').
Proof.
  unfold bind. destruct (m h) as [[a|x|] h1]; intros H; try discriminate.
  exists a, h1. split; [reflexivity|exact H].
Qed.

Lemma mockValue_check_return_inv f m h u h' :
  mockValue_check f m h = (Return u, h') ->
  h' = h /\ exists o, Heap.files h !! f = Some o /\
                      Queues.get m (File.mockQueues o) = [].
Proof.
  destruct (Heap.files h !! f) as [o|] eqn:Hf.
  - destruct (Queues.get m (File.mockQueues o)) as [|[e0] q] eqn:Hq.
    + rewrite (mockValue_check_nil h f o _ Hf Hq). intros [= <- <-].
      split; [reflexivity|]. exists o. split; [reflexivity|assumption].
    + rewrite (mockValue_check_cons h f o _ e0 q Hf Hq). discriminate.
  - rewrite (mockValue_check_dangling h f _ Hf). discriminate.
Qed.

Lemma markAsExists_return_inv f h u h' o :
  Heap.files h !! f = Some o ->
  markAsExists f h = (Return u, h') ->
  exists b, Heap.buckets h !! File.bucket o = Some b.
Proof.
  intros Hf. unfold markAsExists, bind, getFile, getBucket. rewrite Hf.
  destruct (Heap.buckets h !! File.bucket o) as [b|]; [eauto|discriminate].
Qed.

Lemma mustBeExists_return_inv f h u h' o :
  Heap.files h !! f = Some o ->
  mustBeExists f h = (Return u, h') ->
  exists b, Heap.buckets h !! File.bucket o = Some b.
Proof.
  intros Hf. unfold mustBeExists, bind, getFile, getBucket. rewrite Hf.
  destruct (Heap.buckets h !! File.bucket o) as [b|]; [eauto|discriminate].
Qed.

Lemma MockFile_save_return_inv f data options h u h' :
  MockFile_save f data options h = (Return u, h') ->
  exists o b,
    Heap.files h !! f = Some o /\
    Heap.buckets h !! File.bucket o = Some b /\
    Queues.get m_save (File.mockQueues o) = [] /\
    h' = saved h f o b (to_buffer data) options.
Proof.
  unfold MockFile_save. intros H.
  apply bind_return_inv in H as (a & h1 & Hc & Hs).
  apply mockValue_check_return_inv in Hc as (-> & o & Hf & Hq).
  assert (exists b, Heap.buckets h !! File.bucket o = Some b) as [b Hb].
  { unfold save_body, save_body_with in Hs.
    apply bind_return_inv in Hs as (a' & h2 & Hm & _).
    eapply markAsExists_return_inv; eauto. }
  exists o, b. repeat split; try assumption.
  rewrite (save_body_spec h f o b Hf Hb) in Hs. congruence.
Qed.

Lemma MockFile_delete_return_inv f h r h' :
  MockFile_delete f h = (Return r, h') ->
  exists o b,
    Heap.files h !! f = Some o /\
    Heap.buckets h !! File.bucket o = Some b /\
    Queues.get m_delete (File.mockQueues o) = [] /\
    is_member h f = true /\
    h' = deleted h o b.
Proof.
  unfold MockFile_delete. intros H.
  apply bind_return_inv in H as (a & h1 & Hc & Hs).
  apply mockValue_check_return_inv in Hc as (-> & o & Hf & Hq).
  assert (exists b, Heap.buckets h !! File.bucket o = Some b) as [b Hb].
  { unfold delete_body in Hs. apply bind_return_inv in Hs as (a' & h2 & Hm & _).
    eapply mustBeExists_return_inv; eauto. }
  exists o, b. rewrite (delete_body_spec h f o b Hf Hb) in Hs.
  destruct (is_member h f); [|discriminate].
  repeat split; try assumption. congruence.
Qed.

Section AfterCalls.
Variables (h : Heap.t) (f : fref) (o : File.t) (b : Bucket.t).
Hypothesis Hf : Heap.files h !! f = Some o.
Hypothesis Hb : Heap.buckets h !! File.bucket o = Some b.

Lemma marked_bucket :
  exists b', Heap.buckets (marked h f o b) !! File.bucket o = Some b'.
Proof using Hf Hb.
  unfold marked. destruct (is_member h f); [eauto|]. simpl.
  rewrite list_lookup_insert_eq by (eapply lookup_lt_Some; eauto). eauto.
Qed.

Lemma exists_after_save bytes options :
  Queues.get m_exists (File.mockQueues o) = [] ->
  MockFile_exists f (saved h f o b bytes options) =
  (Return true, saved h f o b bytes options).
Proof using Hf Hb.
  intros Hq. destruct marked_bucket as [b' Hb'].
  rewrite <- (saved_member h f o b Hf Hb bytes options) at 1.
  eapply MockFile_exists_spec.
  - unfold saved. simpl. apply list_lookup_insert_eq.
    eapply lookup_lt_Some; eauto.
  - simpl. exact Hb'.
  - simpl. exact Hq.
Qed.

End AfterCalls.

Lemma exists_after_delete_inherits h f o b :
  Heap.files h !! f = Some o ->
  Heap.buckets h !! File.bucket o = Some b ->
  Queues.get m_exists (File.mockQueues o) = [] ->
  MockFile_exists f (deleted h o b) =
  (Return (inherits h b (File.name o)), deleted h o b).
Proof.
  intros Hf Hb Hq. rewrite <- (deleted_member h f o b Hf Hb) at 1.
  eapply MockFile_exists_spec.
  - simpl. exact Hf.
  - simpl. apply list_lookup_insert_eq. eapply lookup_lt_Some; eauto.
  - exact Hq.
Qed.

(** ** [bucket.file(name)] *)

Lemma update_same {V} (o : Obj.t V) k v :
  Obj.get k o = Some v -> Obj.update k v o = o.
Proof.
  induction o as [|[k0 v0] o IH]; simpl; [reflexivity|].
  destruct (String.eqb k k0) eqn:E.
  - intros [= ->]. apply String.eqb_eq in E. subst. reflexivity.
  - intros H. rewrite IH by exact H. reflexivity.
Qed.

Lemma set_same {V} (o : Obj.t V) k v : Obj.get k o = Some v -> Obj.set k v o = o.
Proof.
  intros H. unfold Obj.set, Obj.has. rewrite H. apply update_same. exact H.
Qed.

Lemma Bucket_set_files_id b : Bucket.set_files (Bucket.files b) b = b.
Proof. destruct b; reflexivity. Qed.

Lemma Bucket_set_files_proto_id b :
  Bucket.set_files_proto (Bucket.files_proto b) b = b.
Proof. destruct b; reflexivity. Qed.

(** Assigning to [files[k]] the file that it reads changes nothing. *)
Lemma assign_files_same h b k f :
  files_get h b k = Some (VFile f) -> assign_files k (VFile f) b = b.
Proof.
  intros Hget. unfold assign_files.
  destruct (String.eqb k "__proto__" && negb (Obj.has k (Bucket.files b)))%bool
    eqn:E.
  - apply andb_true_iff in E as [E Hown]. apply String.eqb_eq in E. subst k.
    apply negb_true_iff, has_get_None in Hown.
    rewrite (files_get_not_own h b _ Hown), inherited_proto in Hget.
    destruct (Bucket.files_proto b) as [p|] eqn:Hp; [|discriminate].
    injection Hget as ->. rewrite <- Hp. apply Bucket_set_files_proto_id.
  - unfold files_get in Hget.
    destruct (Obj.get k (Bucket.files b)) as [v|] eqn:Hown.
    + injection Hget as ->. rewrite (set_same _ _ _ Hown).
      apply Bucket_set_files_id.
    + exfalso. apply has_get_None in Hown. rewrite Hown in E.
      rewrite andb_true_r in E.
      unfold inherited, object_prototype_get in Hget. rewrite E in Hget.
      destruct (Bucket.files_proto b) as [p|].
      * destruct (Heap.files h !! p) as [po|].
        -- unfold file_get in Hget.
           repeat (destruct (String.eqb k _); [discriminate|]).
           destruct (in_names k MockFile_prototype_names); [discriminate|].
           destruct (in_names k object_prototype_names); discriminate.
        -- destruct (in_names k object_prototype_names); discriminate.
      * destruct (in_names k object_prototype_names); discriminate.
Qed.

Section BucketFile.
Variables (h : Heap.t) (bk : bref) (bo : Bucket.t) (n : string).
Hypothesis Hbk : Heap.buckets h !! bk = Some bo.

Lemma new_MockFile_spec :
  new_MockFile bk n h = (Return (length (Heap.files h)), (constructed h bk bo n)).
Proof using Hbk.
  unfold new_MockFile, bind, getBucket, allocFile. rewrite Hbk. reflexivity.
Qed.

Lemma constructed_lookup :
  Heap.files (constructed h bk bo n) !! length (Heap.files h) =
  Some (fresh_file bk (Bucket.storage bo) n).
Proof.
  unfold constructed. simpl. rewrite lookup_app_r by lia.
  rewrite Nat.sub_diag. reflexivity.
Qed.

Lemma constructed_lookup_old g o :
  Heap.files h !! g = Some o -> Heap.files (constructed h bk bo n) !! g = Some o.
Proof.
  intros Hg. unfold constructed. simpl. apply lookup_app_l_Some. exact Hg.
Qed.

(** What [file] finds under the name, when it is truthy, is what it
    returns, and nothing changes. *)
Lemma MockBucket_file_found v :
  files_get h bo n = Some v ->
  value_truthy v = true ->
  MockBucket_file bk n false h = (Return v, h).
Proof using Hbk.
  intros Hget Hv. unfold MockBucket_file, bind, getBucket, read_files, when, ret.
  rewrite Hbk, Hget, Hv. reflexivity.
Qed.

Lemma MockBucket_file_member g force :
  files_get h bo n = Some (VFile g) ->
  MockBucket_file bk n force h = (Return (VFile g), h).
Proof using Hbk.
  intros Hg. unfold MockBucket_file, bind, getBucket, read_files, when,
    files_assign, modifyBucket, ret. rewrite Hbk, Hg. cbn [value_truthy].
  destruct force; [|reflexivity].
  rewrite Hbk. rewrite (assign_files_same h bo n g Hg).
  rewrite list_insert_id by exact Hbk. rewrite Heap_set_buckets_id. reflexivity.
Qed.

Lemma MockBucket_file_fresh :
  defined_truthy (files_get h bo n) = false ->
  MockBucket_file bk n false h =
  (Return (VFile (length (Heap.files h))), (constructed h bk bo n)).
Proof using Hbk.
  intros Hg. unfold MockBucket_file, bind, getBucket, read_files, when, ret.
  rewrite Hbk. unfold defined_truthy in Hg.
  destruct (files_get h bo n) as [v|]; [rewrite Hg|];
    rewrite new_MockFile_spec; reflexivity.
Qed.

Lemma MockBucket_file_forced :
  defined_truthy (files_get h bo n) = false ->
  MockBucket_file bk n true h =
  (Return (VFile (length (Heap.files h))),
   Heap.set_buckets
     (<[bk := Bucket.set_files
                (Obj.set n (VFile (length (Heap.files h))) (Bucket.files bo)) bo]>
        (Heap.buckets h)) (constructed h bk bo n)).
Proof using Hbk.
  intros Hg. unfold MockBucket_file, bind, getBucket, read_files, when, ret,
    files_assign, modifyBucket.
  rewrite Hbk. rewrite <- (assign_files_falsy h bo n _ Hg).
  unfold defined_truthy in Hg.
  destruct (files_get h bo n) as [v|]; [rewrite Hg|];
    rewrite new_MockFile_spec; simpl; rewrite Hbk; reflexivity.
Qed.

(** The handle that [file] makes for a name under which nothing is found
    is not a member, the prototype of the record being a file of the
    store or the one that [{}] gave it. *)
Lemma exists_after_file :
  (forall p, Bucket.files_proto bo = Some p -> is_Some (Heap.files h !! p)) ->
  defined_truthy (files_get h bo n) = false ->
  MockFile_exists (length (Heap.files h)) (constructed h bk bo n) =
  (Return false, (constructed h bk bo n)).
Proof using Hbk.
  intros Hp Hg.
  rewrite (MockFile_exists_spec (constructed h bk bo n) _ _ bo constructed_lookup);
    try reflexivity; try exact Hbk.
  unfold is_member. rewrite constructed_lookup. simpl. rewrite Hbk.
  f_equal. rewrite <- Hg. unfold files_get.
  destruct (Obj.get n (Bucket.files bo)); [reflexivity|].
  rewrite (inherited_alloc h (constructed h bk bo n) bo n _ eq_refl Hp).
  reflexivity.
Qed.

End BucketFile.

Lemma write_stream_spec h f o b written :
  Heap.files h !! f = Some o ->
  Heap.buckets h !! File.bucket o = Some b ->
  (do! MockFile_createWriteStream f in MockFile_on_finish f written) h =
  (Return tt,
   Heap.set_files (<[f := File.set_contents written o]> (Heap.files h))
     (marked h f o b)).
Proof.
  intros Hf Hb. unfold MockFile_createWriteStream, MockFile_on_finish, bind.
  rewrite (markAsExists_spec h f o b Hf Hb). unfold modifyFile.
  rewrite marked_files, Hf. reflexivity.
Qed.

Lemma MockFile_delete_absent h f o b :
  Heap.files h !! f = Some o ->
  Heap.buckets h !! File.bucket o = Some b ->
  is_member h f = false ->
  (forall r h1, MockFile_delete f h <> (Return r, h1)) /\
  (Queues.get m_delete (File.mockQueues o) = [] ->
   MockFile_delete f h =
   (Throw (no_such_file (Bucket.name b) (File.name o)), h)).
Proof.
  intros Hf Hb Hm. split.
  - intros r h1 H. apply MockFile_delete_return_inv in H
      as (o' & b' & _ & _ & _ & Hm' & _). congruence.
  - intros Hq. unfold MockFile_delete, bind.
    rewrite (mockValue_check_nil h f o _ Hf Hq).
    rewrite (delete_body_spec h f o b Hf Hb), Hm. reflexivity.
Qed.

Lemma MockFile_delete_present h f o b :
  Heap.files h !! f = Some o ->
  Heap.buckets h !! File.bucket o = Some b ->
  is_member h f = true ->
  Queues.get m_delete (File.mockQueues o) = [] ->
  MockFile_delete f h = (Return (JObj Obj.empty), deleted h o b).
Proof.
  intros Hf Hb Hm Hq. unfold MockFile_delete, bind.
  rewrite (mockValue_check_nil h f o _ Hf Hq).
  rewrite (delete_body_spec h f o b Hf Hb), Hm. reflexivity.
Qed.

(** C2: the claim fails for a name that the record [files] inherits.
    A file put under the name toString answers true to exists(); once
    deleted, its name is no key of the bucket any more and the bucket
    lists nothing, and yet exists() still answers true and a second
    delete() succeeds instead of failing with "No such file": the tests
    of membership read [files[name]], which finds the function that
    every object literal inherits from [Object.prototype]. *)
Theorem exists_true_after_delete_of_inherited_name :
  inherited_name_example =
  (Return true, Return (JObj Obj.empty), Return true, Return (JObj Obj.empty),
   Return ([], JObj Obj.empty, JObj Obj.empty)).
Proof. vm_compute. reflexivity. Qed.
(** ** Metadata *)

Section SetMetadata.
Variables (h : Heap.t) (f : fref) (o : File.t) (b : Bucket.t).
Hypothesis Hf : Heap.files h !! f = Some o.
Hypothesis Hb : Heap.buckets h !! File.bucket o = Some b.
Hypothesis Hm : is_member h f = true.

Lemma with_metadata_lookup m :
  Heap.files (with_metadata h f o m) !! f = Some (File.set_metadata m o).
Proof using Hf.
  simpl. apply list_lookup_insert_eq. eapply lookup_lt_Some; eauto.
Qed.

Lemma with_metadata_member m :
  truthy m = true -> is_member (with_metadata h f o m) f = true.
Proof using Hf Hb Hm.
  intros Ht. destruct (is_member_true_buckets Hf Hm) as (b' & Hb' & Hm').
  unfold is_member. rewrite with_metadata_lookup.
  cbn [File.name File.bucket File.set_metadata Heap.buckets with_metadata
       Heap.set_files].
  rewrite Hb'.
  eapply (files_get_truthy_update h _ b' _ f o); [exact Hf|reflexivity| |exact Hm'].
  repeat split; auto.
Qed.

Lemma setMetadata_body_spec md old_custom new_custom :
  prop_metadata (File.metadata o) = inr old_custom ->
  prop_metadata md = inr new_custom ->
  let merged :=
    JObj (spread2_metadata (File.metadata o) md
            (JObj (spread2 old_custom new_custom))) in
  setMetadata_body f md h = (Return merged, with_metadata h f o merged).
Proof using Hf Hb Hm.
  intros Ho Hn merged. unfold setMetadata_body, bind.
  rewrite (mustBeExists_spec h f o b Hf Hb), Hm.
  unfold getFile at 1. rewrite Hf, Ho, Hn.
  unfold modifyFile. rewrite Hf. fold merged.
  change (Heap.set_files _ h) with (with_metadata h f o merged).
  unfold getFile, ret. rewrite with_metadata_lookup. reflexivity.
Qed.

Lemma MockFile_setMetadata_spec md old_custom new_custom :
  Queues.get m_setMetadata (File.mockQueues o) = [] ->
  prop_metadata (File.metadata o) = inr old_custom ->
  prop_metadata md = inr new_custom ->
  let merged :=
    JObj (spread2_metadata (File.metadata o) md
            (JObj (spread2 old_custom new_custom))) in
  MockFile_setMetadata f md h = (Return merged, with_metadata h f o merged).
Proof using Hf Hb Hm.
  intros Hq Ho Hn merged. unfold MockFile_setMetadata, bind.
  rewrite (mockValue_check_nil h f o _ Hf Hq).
  apply setMetadata_body_spec; assumption.
Qed.

Lemma MockFile_setMetadata_result md old_custom new_custom expected :
  Queues.get m_setMetadata (File.mockQueues o) = [] ->
  prop_metadata (File.metadata o) = inr old_custom ->
  prop_metadata md = inr new_custom ->
  JObj (spread2_metadata (File.metadata o) md
          (JObj (spread2 old_custom new_custom))) = expected ->
  MockFile_setMetadata f md h = (Return expected, with_metadata h f o expected).
Proof using Hf Hb Hm.
  intros Hq Ho Hn <-. apply MockFile_setMetadata_spec; assumption.
Qed.

End SetMetadata.

Lemma get_rev_NoDup {V} (o : Obj.t V) k :
  NoDup (Obj.keys o) -> Obj.get k (rev o) = Obj.get k o.
Proof.
  unfold Obj.keys. induction o as [|[k0 v0] o IH]; simpl; [reflexivity|].
  intros Hnd. apply NoDup_cons in Hnd as [Hnotin Hnd].
  rewrite get_app, IH by exact Hnd. simpl.
  destruct (String.eqb k k0) eqn:E.
  - apply String.eqb_eq in E. subst k0.
    destruct (Obj.get k o) as [v|] eqn:G; [|reflexivity].
    exfalso. apply Hnotin. clear -G.
    induction o as [|[k1 v1] o IH]; simpl in *; [discriminate|].
    destruct (String.eqb k k1) eqn:E.
    + apply String.eqb_eq in E. subst. left.
    + right. apply IH. exact G.
  - destruct (Obj.get k o); reflexivity.
Qed.

(** [{ ...a, ...b }] key by key. *)
Lemma get_spread2 (a b : JsVal) k :
  NoDup (map fst (own_props a)) -> NoDup (map fst (own_props b)) ->
  Obj.get k (spread2 a b) =
  match Obj.get k (own_props b) with
  | Some v => Some v
  | None => Obj.get k (own_props a)
  end.
Proof.
  intros Ha Hb. unfold spread2.
  rewrite !get_assign, !get_rev_NoDup by assumption.
  destruct (Obj.get k (own_props b)); [reflexivity|].
  destruct (Obj.get k (own_props a)); reflexivity.
Qed.

Lemma MockFile_save_spec h f o b data options :
  Heap.files h !! f = Some o ->
  Heap.buckets h !! File.bucket o = Some b ->
  Queues.get m_save (File.mockQueues o) = [] ->
  MockFile_save f data options h =
  (Return tt, saved h f o b (to_buffer data) options).
Proof.
  intros Hf Hb Hq. unfold MockFile_save, bind.
  rewrite (mockValue_check_nil h f o _ Hf Hq).
  apply save_body_spec; assumption.
Qed.

Lemma saved_lookup h f o b bytes options :
  Heap.files h !! f = Some o ->
  Heap.files (saved h f o b bytes options) !! f =
  Some (File.set_contents (CBuffer bytes)
          (File.set_metadata
             (match options with
              | Some so => if truthy (save_metadata so) then save_metadata so
                           else File.metadata o
              | None => File.metadata o
              end) o)).
Proof.
  intros Hf. unfold saved. simpl. apply list_lookup_insert_eq.
  eapply lookup_lt_Some; eauto.
Qed.

(** C4: on a member, setMetadata stores and returns the old metadata
    overwritten key by key at the top level by the new one, except for
    the key "metadata", whose value is the old custom metadata
    overwritten key by key by the new custom metadata, so that a key only
    the old map has stays; setMetadata of custom metadata {a:1} and then
    {b:2} leaves custom metadata {a:1,b:2} (and, for top-level keys,
    {metadata:{}, a:1, b:2}); a save with metadata {metadata:{c:3}} then
    leaves exactly {metadata:{c:3}}: save replaces, it does not merge. *)
Theorem setMetadata_merges_save_replaces (h : Heap.t) (f : fref) (o : File.t)
  (b : Bucket.t) :
  Heap.files h !! f = Some o ->
  Heap.buckets h !! File.bucket o = Some b ->
  is_member h f = true ->
  Queues.get m_setMetadata (File.mockQueues o) = [] ->
  Queues.get m_save (File.mockQueues o) = [] ->
  (forall oldp newp,
      File.metadata o = JObj oldp ->
      NoDup (Obj.keys oldp) -> NoDup (Obj.keys newp) ->
      let old_custom := default JUndefined (Obj.get "metadata" oldp) in
      let new_custom := default JUndefined (Obj.get "metadata" newp) in
      exists merged h1,
        MockFile_setMetadata f (JObj newp) h = (Return (JObj merged), h1) /\
        metadata_of h1 f = Some (JObj merged) /\
        (forall k, k <> "metadata" ->
           Obj.get k merged =
           match Obj.get k newp with
           | Some v => Some v
           | None => Obj.get k oldp
           end) /\
        exists custom,
          Obj.get "metadata" merged = Some (JObj custom) /\
          (NoDup (map fst (own_props old_custom)) ->
           NoDup (map fst (own_props new_custom)) ->
           forall k,
             Obj.get k custom =
             match Obj.get k (own_props new_custom) with
             | Some v => Some v
             | None => Obj.get k (own_props old_custom)
             end)) /\
  (forall data m,
      truthy m = true ->
      exists h1,
        MockFile_save f data (Some {| save_metadata := m |}) h = (Return tt, h1) /\
        metadata_of h1 f = Some m /\
        contents_of h1 f = Some (CBuffer (to_buffer data))) /\
  (File.metadata o = JObj [("metadata", JObj [])] ->
   let a1 := JObj [("a", JNum 1)] in
   let b2 := JObj [("b", JNum 2)] in
   let ab := JObj [("a", JNum 1); ("b", JNum 2)] in
   let c3 := JObj [("metadata", JObj [("c", JNum 3)])] in
   (exists r1 h1 h2,
       MockFile_setMetadata f (JObj [("metadata", a1)]) h = (Return r1, h1) /\
       MockFile_setMetadata f (JObj [("metadata", b2)]) h1 =
       (Return (JObj [("metadata", ab)]), h2) /\
       metadata_of h2 f = Some (JObj [("metadata", ab)]) /\
       forall data, exists h3,
         MockFile_save f data (Some {| save_metadata := c3 |}) h2 =
         (Return tt, h3) /\
         metadata_of h3 f = Some c3) /\
   (exists r1 h1 h2,
       MockFile_setMetadata f a1 h = (Return r1, h1) /\
       MockFile_setMetadata f b2 h1 =
       (Return (JObj [("metadata", JObj []); ("a", JNum 1); ("b", JNum 2)]), h2) /\
       metadata_of h2 f =
       Some (JObj [("metadata", JObj []); ("a", JNum 1); ("b", JNum 2)]) /\
       forall data, exists h3,
         MockFile_save f data (Some {| save_metadata := c3 |}) h2 =
         (Return tt, h3) /\
         metadata_of h3 f = Some c3)).
Proof.
  intros Hf Hb Hm Hqm Hqs. split; [|split].
  - intros oldp newp Hold Hndo Hndn old_custom new_custom.
    eexists _, _. split; [|split; [|split]].
    + apply (MockFile_setMetadata_spec h f o b Hf Hb Hm (JObj newp)
               old_custom new_custom Hqm).
      * rewrite Hold. reflexivity.
      * reflexivity.
    + unfold metadata_of. rewrite with_metadata_lookup by exact Hf. reflexivity.
    + intros k Hk. unfold spread2_metadata. rewrite get_set_ne by congruence.
      rewrite Hold. apply get_spread2; assumption.
    + eexists. split.
      * unfold spread2_metadata. apply get_set_eq.
      * intros H1 H2 k. apply get_spread2; assumption.
  - intros data m Hm'. eexists. split; [|split].
    + apply (MockFile_save_spec h f o b data _ Hf Hb Hqs).
    + unfold metadata_of. rewrite saved_lookup by exact Hf. simpl.
      rewrite Hm'. reflexivity.
    + unfold contents_of. rewrite saved_lookup by exact Hf. reflexivity.
  - intros Hmd a1 b2 ab c3.
    pose proof (with_metadata_lookup h f o Hf) as Hf1.
    pose proof (fun p => with_metadata_member h f o b Hf Hb Hm (JObj p) eq_refl)
      as Hm1.
    split.
    + set (m1 := JObj [("metadata", a1)]).
      set (m2 := JObj [("metadata", ab)]).
      exists m1, (with_metadata h f o m1),
        (with_metadata (with_metadata h f o m1) f (File.set_metadata m1 o) m2).
      split; [|split; [|split]].
      * apply (MockFile_setMetadata_result h f o b Hf Hb Hm _ (JObj []) a1 _ Hqm);
          [rewrite Hmd|..]; try reflexivity. rewrite Hmd. reflexivity.
      * apply (MockFile_setMetadata_result _ f _ b (Hf1 m1) Hb (Hm1 _)
                 _ a1 b2 _ Hqm); reflexivity.
      * unfold metadata_of. rewrite with_metadata_lookup by apply Hf1.
        reflexivity.
      * intros data. eexists. split.
        -- apply (MockFile_save_spec _ f _ b data _
                    (with_metadata_lookup _ f _ (Hf1 m1) m2) Hb Hqs).
        -- unfold metadata_of. rewrite saved_lookup
             by (apply with_metadata_lookup, Hf1). reflexivity.
    + set (m1 := JObj [("metadata", JObj []); ("a", JNum 1)]).
      set (m2 := JObj [("metadata", JObj []); ("a", JNum 1); ("b", JNum 2)]).
      exists m1, (with_metadata h f o m1),
        (with_metadata (with_metadata h f o m1) f (File.set_metadata m1 o) m2).
      split; [|split; [|split]].
      * apply (MockFile_setMetadata_result h f o b Hf Hb Hm _ (JObj [])
                 JUndefined _ Hqm);
          [rewrite Hmd|..]; try reflexivity. rewrite Hmd. reflexivity.
      * apply (MockFile_setMetadata_result _ f _ b (Hf1 m1) Hb (Hm1 _)
                 _ (JObj []) JUndefined _ Hqm); reflexivity.
      * unfold metadata_of. rewrite with_metadata_lookup by apply Hf1.
        reflexivity.
      * intros data. eexists. split.
        -- apply (MockFile_save_spec _ f _ b data _
                    (with_metadata_lookup _ f _ (Hf1 m1) m2) Hb Hqs).
        -- unfold metadata_of. rewrite saved_lookup
             by (apply with_metadata_lookup, Hf1). reflexivity.
Qed.

Lemma setMetadata_merges_save_replaces_witness :
  exists r1 h1 h2,
    MockFile_setMetadata 0 (JObj [("metadata", JObj [("a", JNum 1)])]) demo_file =
    (Return r1, h1) /\
    MockFile_setMetadata 0 (JObj [("metadata", JObj [("b", JNum 2)])]) h1 =
    (Return (JObj [("metadata", JObj [("a", JNum 1); ("b", JNum 2)])]), h2).
Proof.
  destruct (setMetadata_merges_save_replaces demo_file 0 _ _
              eq_refl eq_refl eq_refl eq_refl eq_refl) as (_ & _ & H).
  destruct (H eq_refl) as ((r1 & h1 & h2 & H1 & H2 & _) & _).
  exists r1, h1, h2. split; assumption.
Defined.

(** ** copy *)

Section Copy.
Variables (h : Heap.t) (f : fref) (o : File.t) (b : Bucket.t).
Hypothesis Hf : Heap.files h !! f = Some o.
Hypothesis Hb : Heap.buckets h !! File.bucket o = Some b.

Lemma mockValue_check_spec m :
  mockValue_check f m h =
  match Queues.get m (File.mockQueues o) with
  | [] => (Return tt, h)
  | MockError e :: _ => (Throw e, popped h f m)
  end.
Proof using Hf.
  destruct (Queues.get m (File.mockQueues o)) as [|[e] q] eqn:Hq.
  - apply (mockValue_check_nil h f o m Hf Hq).
  - rewrite (mockValue_check_cons h f o m e q Hf Hq). unfold popped.
    rewrite (shift_cons h f o m _ q Hf Hq). reflexivity.
Qed.

Lemma MockFile_download_spec :
  MockFile_download f None h =
  match Queues.get m_download (File.mockQueues o) with
  | [] =>
      if is_member h f then (Return (File.contents o), h)
      else (Throw (no_such_file (Bucket.name b) (File.name o)), h)
  | MockError e :: _ => (Throw e, popped h f m_download)
  end.
Proof using Hf Hb.
  unfold MockFile_download, bind. rewrite mockValue_check_spec.
  destruct (Queues.get m_download (File.mockQueues o)) as [|[e] q]; [|reflexivity].
  unfold download_body, bind. rewrite (mustBeExists_spec h f o b Hf Hb).
  destruct (is_member h f); [|reflexivity].
  unfold getFile, ret. rewrite Hf. reflexivity.
Qed.

Lemma MockFile_getMetadata_spec :
  MockFile_getMetadata f h =
  match Queues.get m_getMetadata (File.mockQueues o) with
  | [] =>
      if is_member h f then (Return (File.metadata o, JObj Obj.empty), h)
      else (Throw (no_such_file (Bucket.name b) (File.name o)), h)
  | MockError e :: _ => (Throw e, popped h f m_getMetadata)
  end.
Proof using Hf Hb.
  unfold MockFile_getMetadata, bind. rewrite mockValue_check_spec.
  destruct (Queues.get m_getMetadata (File.mockQueues o)) as [|[e] q];
    [|reflexivity].
  unfold getMetadata_body, bind. rewrite (mustBeExists_spec h f o b Hf Hb).
  destruct (is_member h f); [|reflexivity].
  unfold getFile, ret. rewrite Hf. reflexivity.
Qed.

(** [save] as [copy] calls it. *)
Lemma MockFile_save_contents_spec contents options :
  MockFile_save_contents f contents options h =
  match Queues.get m_save (File.mockQueues o) with
  | [] =>
      match contents_to_buffer contents with
      | inr bytes => (Return tt, saved h f o b bytes options)
      | inl e => (Throw e, save_failed h f o b options)
      end
  | MockError e :: _ => (Throw e, popped h f m_save)
  end.
Proof using Hf Hb.
  unfold MockFile_save_contents, bind. rewrite mockValue_check_spec.
  destruct (Queues.get m_save (File.mockQueues o)) as [|[e] q]; [|reflexivity].
  apply save_body_with_spec; assumption.
Qed.

Lemma MockFile_copy_invalid options :
  MockFile_copy f DestOther options h =
  (Throw (MkError "Invalid destination type"), h).
Proof using Hf.
  unfold MockFile_copy, bind, getFile, throw. rewrite Hf. reflexivity.
Qed.

(** A destination that is no object fails the test ['name' in
    destination]. *)
Lemma MockFile_copy_primitive options :
  MockFile_copy f DestPrimitive options h =
  (Throw (TypeError "Cannot use 'in' operator to search for 'name'"), h).
Proof using Hf.
  unfold MockFile_copy, bind, getFile, throw. rewrite Hf. reflexivity.
Qed.

(** [copy] once the destination is resolved. *)
Lemma MockFile_copy_resolved destination options tb tn :
  copy_target h o destination = Some (tb, tn) ->
  MockFile_copy f destination options h =
  (let! contents := MockFile_download f None in
   let! md := MockFile_getMetadata f in
   let! found := MockBucket_file tb tn false in
   let! newFile := as_file found in
   do! MockFile_save_contents newFile contents
         (Some {| save_metadata :=
                    JObj (spread2 (fst md) (options_metadata options)) |}) in
   ret (newFile, JObj (spread2 (fst md) (options_metadata options)))) h.
Proof using Hf.
  intros Ht. unfold MockFile_copy. unfold bind at 1. unfold getFile at 1.
  rewrite Hf. unfold bind at 1.
  destruct destination as [s|bk|g| | |]; simpl in Ht; try discriminate.
  - injection Ht as <- <-. reflexivity.
  - injection Ht as <- <-. reflexivity.
  - unfold bind at 1, getFile at 1.
    destruct (Heap.files h !! g) as [og|]; [|discriminate].
    injection Ht as <- <-. reflexivity.
Qed.

(** [copy] to an object that has a name and no bucket: the source is
    downloaded and its metadata read before [copy] fails. *)
Lemma MockFile_copy_named options :
  MockFile_copy f DestNamed options h =
  (let! contents := MockFile_download f None in
   let! md := MockFile_getMetadata f in
   throw (TypeError "Cannot read properties of undefined (reading 'file')")) h.
Proof using Hf.
  unfold MockFile_copy. unfold bind at 1. unfold getFile at 1.
  rewrite Hf. reflexivity.
Qed.

End Copy.

Lemma popped_same_but_queue h f m : same_but_queue f m h (popped h f m).
Proof.
  unfold popped. destruct (Heap.files h !! f) as [o|] eqn:Hf.
  - destruct (Queues.get m (File.mockQueues o)) as [|x q] eqn:Hq.
    + rewrite (shift_nil h f o m Hf Hq). simpl. apply same_but_queue_refl_nil.
      intros o' Ho'. congruence.
    + rewrite (shift_cons h f o m x q Hf Hq). eapply same_but_queue_pop; eauto.
  - unfold shift, bind, getFile. rewrite Hf. simpl.
    apply same_but_queue_refl_nil. intros o' Ho'. congruence.
Qed.

Lemma saved_child h f o b bytes options :
  Heap.files h !! f = Some o ->
  Heap.buckets h !! File.bucket o = Some b ->
  child (saved h f o b bytes options) (File.bucket o) (File.name o) =
  if is_member h f then child h (File.bucket o) (File.name o)
  else Some (VFile f).
Proof.
  intros Hf Hb. rewrite <- (marked_child h f o b Hf Hb). reflexivity.
Qed.

(** A file that [files[k]] finds is the entry of the key [k], or the
    prototype of the record, found under [__proto__]. *)
Lemma files_get_VFile_inv h b k g :
  files_get h b k = Some (VFile g) ->
  Obj.get k (Bucket.files b) = Some (VFile g) \/
  (Obj.get k (Bucket.files b) = None /\ k = "__proto__" /\
   Bucket.files_proto b = Some g).
Proof.
  assert (forall q oq, file_get q oq k <> Some (VFile g)) as Hno.
  { intros q oq. unfold file_get.
    repeat (destruct (String.eqb k _); [discriminate|]).
    destruct (in_names k _); discriminate. }
  unfold files_get. destruct (Obj.get k (Bucket.files b)) as [v|]; [auto|].
  intros H. right. split; [reflexivity|].
  unfold inherited, object_prototype_get in H.
  destruct (Bucket.files_proto b) as [p|].
  - destruct (Heap.files h !! p) as [op|].
    + destruct (file_get p op k) as [v|] eqn:E.
      * exfalso. apply (Hno p op). congruence.
      * destruct (String.eqb_spec k "__proto__") as [->|];
          [split; congruence|].
        destruct (in_names k _); discriminate.
    + destruct (String.eqb_spec k "__proto__") as [->|];
        [split; congruence|].
      destruct (in_names k _); discriminate.
  - destruct (String.eqb k "__proto__"); [discriminate|].
    destruct (in_names k _); discriminate.
Qed.

(** Such a file stays what [files[k]] finds whatever becomes of the
    file objects. *)
Lemma files_get_VFile_files h h' b k g :
  files_get h b k = Some (VFile g) ->
  files_get h' b k = Some (VFile g).
Proof.
  intros H. destruct (files_get_VFile_inv h b k g H) as [Hown|(Hn & -> & Hp)].
  - apply files_get_own. exact Hown.
  - rewrite files_get_not_own by exact Hn. rewrite (inherited_proto h' b).
    rewrite Hp. reflexivity.
Qed.

(** The handle that [file] makes for a name under which nothing is found
    is no member of its bucket. *)
Lemma constructed_not_member h bk bo n :
  Heap.buckets h !! bk = Some bo ->
  (forall p, Bucket.files_proto bo = Some p -> is_Some (Heap.files h !! p)) ->
  defined_truthy (files_get h bo n) = false ->
  is_member (constructed h bk bo n) (length (Heap.files h)) = false.
Proof.
  intros Hbk Hp Hg. unfold is_member. rewrite constructed_lookup. simpl.
  rewrite Hbk. rewrite <- Hg. unfold files_get.
  destruct (Obj.get n (Bucket.files bo)); [reflexivity|].
  rewrite (inherited_alloc h (constructed h bk bo n) bo n _ eq_refl Hp).
  reflexivity.
Qed.

Section CopySuccess.
Variables (h : Heap.t) (f : fref) (o : File.t) (b : Bucket.t).
Variables (destination : Destination) (options : option CopyOptions).
Variables (tb : bref) (tn : string) (tbo : Bucket.t).
Hypothesis Hf : Heap.files h !! f = Some o.
Hypothesis Hb : Heap.buckets h !! File.bucket o = Some b.
Hypothesis Ht : copy_target h o destination = Some (tb, tn).
Hypothesis Hm : is_member h f = true.
Hypothesis Hqd : Queues.get m_download (File.mockQueues o) = [].
Hypothesis Hqg : Queues.get m_getMetadata (File.mockQueues o) = [].
Hypothesis Htb : Heap.buckets h !! tb = Some tbo.

Let merged : JsVal := JObj (spread2 (File.metadata o) (options_metadata options)).

Lemma copy_to_save :
  MockFile_copy f destination options h =
  (let! found := MockBucket_file tb tn false in
   let! newFile := as_file found in
   do! MockFile_save_contents newFile (File.contents o)
         (Some {| save_metadata := merged |}) in
   ret (newFile, merged)) h.
Proof using Hf Hb Ht Hm Hqd Hqg.
  rewrite (MockFile_copy_resolved h f o Hf destination options tb tn Ht).
  unfold bind at 1. rewrite (MockFile_download_spec h f o b Hf Hb), Hqd, Hm.
  unfold bind at 1. rewrite (MockFile_getMetadata_spec h f o b Hf Hb), Hqg, Hm.
  reflexivity.
Qed.

(** Nothing is found under the name: a new file is made, and saved
    unless the source holds [false]. *)
Lemma copy_to_new_name_run :
  (forall p, Bucket.files_proto tbo = Some p -> is_Some (Heap.files h !! p)) ->
  defined_truthy (files_get h tbo tn) = false ->
  let new := length (Heap.files h) in
  let made := constructed h tb tbo tn in
  let fresh := fresh_file tb (Bucket.storage tbo) tn in
  MockFile_copy f destination options h =
  match contents_to_buffer (File.contents o) with
  | inr bytes =>
      (Return (new, merged),
       saved made new fresh tbo bytes (Some {| save_metadata := merged |}))
  | inl e =>
      (Throw e, save_failed made new fresh tbo (Some {| save_metadata := merged |}))
  end.
Proof using Hf Hb Ht Hm Hqd Hqg Htb.
  intros Hp Hn new made fresh. rewrite copy_to_save.
  pose proof (constructed_lookup h tb tbo tn) as Hnew.
  assert (Heap.buckets (constructed h tb tbo tn) !!
            File.bucket (fresh_file tb (Bucket.storage tbo) tn) = Some tbo)
    as Hnb by exact Htb.
  unfold bind. rewrite (MockBucket_file_fresh h tb tbo tn Htb Hn).
  cbn [as_file ret].
  rewrite (MockFile_save_contents_spec _ _ _ _ Hnew Hnb).
  cbn [fresh_file File.mockQueues Queues.get Queues.empty].
  destruct (contents_to_buffer (File.contents o)); reflexivity.
Qed.

Lemma copy_to_new_name bytes :
  File.contents o = CBuffer bytes ->
  (forall p, Bucket.files_proto tbo = Some p -> is_Some (Heap.files h !! p)) ->
  defined_truthy (files_get h tbo tn) = false ->
  let new := length (Heap.files h) in
  exists h',
    MockFile_copy f destination options h = (Return (new, merged), h') /\
    child h' tb tn = Some (VFile new) /\
    metadata_of h' new = Some merged /\
    contents_of h' new = Some (CBuffer bytes).
Proof using Hf Hb Ht Hm Hqd Hqg Htb.
  intros Hc Hp Hn new.
  pose proof (constructed_lookup h tb tbo tn) as Hnew.
  assert (Heap.buckets (constructed h tb tbo tn) !!
            File.bucket (fresh_file tb (Bucket.storage tbo) tn) = Some tbo)
    as Hnb by exact Htb.
  eexists. split; [|split; [|split]].
  - rewrite (copy_to_new_name_run Hp Hn), Hc. reflexivity.
  - pose proof (saved_child _ _ _ _ bytes
                  (Some {| save_metadata := merged |}) Hnew Hnb) as Hch.
    simpl in Hch. rewrite Hch.
    rewrite (constructed_not_member h tb tbo tn Htb Hp Hn). reflexivity.
  - unfold metadata_of. rewrite (saved_lookup _ _ _ _ _ _ Hnew). reflexivity.
  - unfold contents_of. rewrite (saved_lookup _ _ _ _ _ _ Hnew). reflexivity.
Qed.

(** A file is found under the name: it is saved, unless an error is
    queued on its [save] or the source holds [false]. *)
Lemma copy_onto_file_run g og bg :
  files_get h tbo tn = Some (VFile g) ->
  Heap.files h !! g = Some og ->
  Heap.buckets h !! File.bucket og = Some bg ->
  MockFile_copy f destination options h =
  match Queues.get m_save (File.mockQueues og) with
  | MockError e :: _ => (Throw e, popped h g m_save)
  | [] =>
      match contents_to_buffer (File.contents o) with
      | inr bytes =>
          (Return (g, merged),
           saved h g og bg bytes (Some {| save_metadata := merged |}))
      | inl e =>
          (Throw e, save_failed h g og bg (Some {| save_metadata := merged |}))
      end
  end.
Proof using Hf Hb Ht Hm Hqd Hqg Htb.
  intros Hn Hg Hgb. rewrite copy_to_save. unfold bind.
  rewrite (MockBucket_file_member h tb tbo tn Htb g false Hn).
  cbn [as_file ret].
  rewrite (MockFile_save_contents_spec _ _ _ _ Hg Hgb).
  destruct (Queues.get m_save (File.mockQueues og)) as [|[e] q]; [|reflexivity].
  destruct (contents_to_buffer (File.contents o)); reflexivity.
Qed.

Lemma copy_onto_member bytes g og :
  File.contents o = CBuffer bytes ->
  files_get h tbo tn = Some (VFile g) ->
  Heap.files h !! g = Some og ->
  File.bucket og = tb ->
  File.name og = tn ->
  match Queues.get m_save (File.mockQueues og) with
  | MockError e :: _ =>
      MockFile_copy f destination options h = (Throw e, popped h g m_save)
  | [] =>
      exists h',
        MockFile_copy f destination options h = (Return (g, merged), h') /\
        resolved h' tb tn = Some (VFile g) /\
        child h' tb tn = child h tb tn /\
        metadata_of h' g = Some merged /\
        contents_of h' g = Some (CBuffer bytes)
  end.
Proof using Hf Hb Ht Hm Hqd Hqg Htb.
  intros Hc Hn Hg Hgb Hgn.
  assert (Heap.buckets h !! File.bucket og = Some tbo) as Hgb'
    by (rewrite Hgb; exact Htb).
  rewrite (copy_onto_file_run g og tbo Hn Hg Hgb'), Hc.
  destruct (Queues.get m_save (File.mockQueues og)) as [|[e] q] eqn:Hq;
    [|reflexivity].
  cbn [contents_to_buffer].
  assert (is_member h g = true) as Hmg.
  { rewrite (is_member_eq h g og tbo Hg Hgb'), Hgn, Hn. reflexivity. }
  assert (marked h g og tbo = h) as Hmk by (unfold marked; rewrite Hmg; reflexivity).
  eexists. split; [reflexivity|]. split; [|split; [|split]].
  - unfold resolved, saved. rewrite Hmk.
    cbn [Heap.buckets Heap.set_files]. rewrite Htb.
    apply (files_get_VFile_files h). exact Hn.
  - unfold child, saved. rewrite Hmk. reflexivity.
  - unfold metadata_of. rewrite (saved_lookup _ _ _ _ _ _ Hg). reflexivity.
  - unfold contents_of. rewrite (saved_lookup _ _ _ _ _ _ Hg). reflexivity.
Qed.

(** What is found under the name is no file: [copy] fails on
    [newFile.save], and nothing has changed. *)
Lemma copy_onto_other v :
  files_get h tbo tn = Some v ->
  value_truthy v = true ->
  (forall g, v <> VFile g) ->
  exists msg,
    MockFile_copy f destination options h = (Throw (TypeError msg), h).
Proof using Hf Hb Ht Hm Hqd Hqg Htb.
  intros Hn Hv Hno. rewrite copy_to_save. unfold bind.
  rewrite (MockBucket_file_found h tb tbo tn Htb v Hn Hv).
  destruct v as [g| | |[]| | | | |]; try (eexists; reflexivity).
  exfalso. apply (Hno g). reflexivity.
Qed.

End CopySuccess.

(** C5: copy takes a string for a name in the bucket of the source, a
    bucket for that bucket and the name of the source, and a file for
    the bucket and name of that file. Of what is none of the three, an
    object without a name is rejected with "Invalid destination type",
    nothing being changed; a value that is no object (null, undefined, a
    number, a boolean) fails with a TypeError at once; and an object
    with a name that is neither a bucket nor a file fails with a
    TypeError once download() and getMetadata() have run on the source.
    copy runs download() and getMetadata() on the source, so that an
    error queued on either is thrown, at the cost of that queue entry
    only, and a source that is not a member fails with "No such file",
    nothing being changed. When both succeed, the source holds a Buffer
    and the name finds a file or nothing in the destination bucket, the
    metadata stored and returned is { ...metadata, ...options.metadata },
    a merge of top-level keys, and it is saved with the contents in the
    file of that name, a new member when nothing was found; the save is
    the mockable save of that file, whose queued error copy throws. *)
Theorem copy_contract (h : Heap.t) (f : fref) (o : File.t) (b : Bucket.t)
  (destination : Destination) (options : option CopyOptions) :
  Heap.files h !! f = Some o ->
  Heap.buckets h !! File.bucket o = Some b ->
  let merged := JObj (spread2 (File.metadata o) (options_metadata options)) in
  let not_found := no_such_file (Bucket.name b) (File.name o) in
  let copy := MockFile_copy f destination options h in
  (destination = DestOther ->
   copy = (Throw (MkError "Invalid destination type"), h)) /\
  (destination = DestPrimitive ->
   exists msg, copy = (Throw (TypeError msg), h)) /\
  (destination = DestNamed ->
   Queues.get m_download (File.mockQueues o) = [] ->
   is_member h f = true ->
   Queues.get m_getMetadata (File.mockQueues o) = [] ->
   exists msg, copy = (Throw (TypeError msg), h)) /\
  (is_Some (copy_target h o destination) \/ destination = DestNamed ->
      (forall e q,
          Queues.get m_download (File.mockQueues o) = MockError e :: q ->
          copy = (Throw e, popped h f m_download)) /\
      (Queues.get m_download (File.mockQueues o) = [] ->
       is_member h f = false ->
       copy = (Throw not_found, h)) /\
      (forall e q,
          Queues.get m_download (File.mockQueues o) = [] ->
          is_member h f = true ->
          Queues.get m_getMetadata (File.mockQueues o) = MockError e :: q ->
          copy = (Throw e, popped h f m_getMetadata))) /\
  (forall tb tn,
      copy_target h o destination = Some (tb, tn) ->
      Queues.get m_download (File.mockQueues o) = [] ->
      is_member h f = true ->
      Queues.get m_getMetadata (File.mockQueues o) = [] ->
      forall tbo bytes,
        Heap.buckets h !! tb = Some tbo ->
        File.contents o = CBuffer bytes ->
        ((forall p, Bucket.files_proto tbo = Some p ->
                    is_Some (Heap.files h !! p)) ->
         defined_truthy (files_get h tbo tn) = false ->
         let new := length (Heap.files h) in
         exists h',
           copy = (Return (new, merged), h') /\
           child h' tb tn = Some (VFile new) /\
           metadata_of h' new = Some merged /\
           contents_of h' new = Some (CBuffer bytes)) /\
        (forall g og,
            files_get h tbo tn = Some (VFile g) ->
            Heap.files h !! g = Some og ->
            File.bucket og = tb ->
            File.name og = tn ->
            match Queues.get m_save (File.mockQueues og) with
            | MockError e :: _ => copy = (Throw e, popped h g m_save)
            | [] =>
                exists h',
                  copy = (Return (g, merged), h') /\
                  resolved h' tb tn = Some (VFile g) /\
                  child h' tb tn = child h tb tn /\
                  metadata_of h' g = Some merged /\
                  contents_of h' g = Some (CBuffer bytes)
            end)) /\
  (NoDup (map fst (own_props (File.metadata o))) ->
   NoDup (map fst (own_props (options_metadata options))) ->
   forall k,
     Obj.get k (spread2 (File.metadata o) (options_metadata options)) =
     match Obj.get k (own_props (options_metadata options)) with
     | Some v => Some v
     | None => Obj.get k (own_props (File.metadata o))
     end) /\
  (forall g m, same_but_queue g m h (popped h g m)).
Proof.
  intros Hf Hb merged not_found copy.
  assert (forall A (k : Contents -> M A),
            (forall e q,
                Queues.get m_download (File.mockQueues o) = MockError e :: q ->
                (let! c := MockFile_download f None in k c) h =
                (Throw e, popped h f m_download)) /\
            (Queues.get m_download (File.mockQueues o) = [] ->
             is_member h f = false ->
             (let! c := MockFile_download f None in k c) h =
             (Throw not_found, h)) /\
            (forall e q B (k' : Contents -> JsVal * JsVal -> M B),
                Queues.get m_download (File.mockQueues o) = [] ->
                is_member h f = true ->
                Queues.get m_getMetadata (File.mockQueues o) = MockError e :: q ->
                (let! c := MockFile_download f None in
                 let! md := MockFile_getMetadata f in k' c md) h =
                (Throw e, popped h f m_getMetadata))) as Hsrc.
  { intros A k. split; [|split].
    - intros e q Hq. unfold bind at 1.
      rewrite (MockFile_download_spec h f o b Hf Hb), Hq. reflexivity.
    - intros Hq Hm. unfold bind at 1.
      rewrite (MockFile_download_spec h f o b Hf Hb), Hq, Hm. reflexivity.
    - intros e q B k' Hqd Hm Hqg. unfold bind at 1.
      rewrite (MockFile_download_spec h f o b Hf Hb), Hqd, Hm.
      unfold bind at 1.
      rewrite (MockFile_getMetadata_spec h f o b Hf Hb), Hqg. reflexivity. }
  split; [|split; [|split; [|split; [|split; [|split]]]]].
  - intros ->. apply (MockFile_copy_invalid h f o Hf).
  - intros ->. eexists. apply (MockFile_copy_primitive h f o Hf).
  - intros -> Hqd Hm Hqg. eexists. unfold copy.
    rewrite (MockFile_copy_named h f o Hf). unfold bind at 1.
    rewrite (MockFile_download_spec h f o b Hf Hb), Hqd, Hm.
    unfold bind at 1.
    rewrite (MockFile_getMetadata_spec h f o b Hf Hb), Hqg, Hm. reflexivity.
  - intros [[[tb tn] Ht]| ->]; unfold copy.
    + rewrite (MockFile_copy_resolved h f o Hf destination options tb tn Ht).
      destruct (Hsrc _ (fun contents =>
         let! md := MockFile_getMetadata f in
         let! found := MockBucket_file tb tn false in
         let! newFile := as_file found in
         do! MockFile_save_contents newFile contents
               (Some {| save_metadata :=
                          JObj (spread2 (fst md) (options_metadata options)) |}) in
         ret (newFile, JObj (spread2 (fst md) (options_metadata options)))))
        as (H1 & H2 & H3).
      split; [exact H1|]. split; [exact H2|].
      intros e q Hqd Hm Hqg.
      apply (H3 e q _ (fun contents md =>
         let! found := MockBucket_file tb tn false in
         let! newFile := as_file found in
         do! MockFile_save_contents newFile contents
               (Some {| save_metadata :=
                          JObj (spread2 (fst md) (options_metadata options)) |}) in
         ret (newFile, JObj (spread2 (fst md) (options_metadata options))))
         Hqd Hm Hqg).
    + rewrite (MockFile_copy_named h f o Hf).
      destruct (Hsrc (fref * JsVal)%type (fun contents =>
         let! md := MockFile_getMetadata f in
         throw (TypeError "Cannot read properties of undefined (reading 'file')")))
        as (H1 & H2 & H3).
      split; [exact H1|]. split; [exact H2|].
      intros e q Hqd Hm Hqg.
      apply (H3 e q (fref * JsVal)%type (fun contents md =>
         throw (TypeError "Cannot read properties of undefined (reading 'file')"))
         Hqd Hm Hqg).
  - intros tb tn Ht Hqd Hm Hqg tbo bytes Htb Hc. split.
    + eapply copy_to_new_name; eassumption.
    + intros g og. eapply copy_onto_member; eassumption.
  - intros H1 H2 k. apply get_spread2; assumption.
  - intros g m. apply popped_same_but_queue.
Qed.

Lemma copy_contract_witness :
  exists h',
    MockFile_copy 0 (DestString "copied-file.txt") None demo_copy_source =
    (Return (1, JObj [("metadata", JObj []); ("foo", JStr "bar")]), h') /\
    child h' 0 "copied-file.txt" = Some (VFile 1) /\
    metadata_of h' 1 = Some (JObj [("metadata", JObj []); ("foo", JStr "bar")]) /\
    contents_of h' 1 = Some (CBuffer (list_byte_of_string "test file contents")).
Proof.
  destruct (copy_contract demo_copy_source 0 _ _ (DestString "copied-file.txt")
              None eq_refl eq_refl) as (_ & _ & _ & _ & H & _).
  destruct (H 0 "copied-file.txt" eq_refl eq_refl eq_refl eq_refl _ _
              eq_refl eq_refl) as (Hnew & _).
  apply Hnew; [intros p Hp; discriminate Hp|reflexivity].
Defined.

(** A destination that is not a string, a bucket or a file is not always
    rejected with "Invalid destination type": copy(null) fails with a
    TypeError, raised by the test ['name' in destination]. *)
Lemma copy_of_null_counterexample :
  exists msg,
    MockFile_copy 0 DestPrimitive None demo_copy_source =
    (Throw (TypeError msg), demo_copy_source) /\
    TypeError msg <> MkError "Invalid destination type".
Proof. eexists. split; [vm_compute; reflexivity|discriminate]. Qed.

(** ** put *)

Lemma insert_last {A} (l : list A) (x y : A) :
  <[length l := x]> (l ++ [y]) = l ++ [x].
Proof.
  rewrite insert_app_r_alt by lia. rewrite Nat.sub_diag. reflexivity.
Qed.

Section Put.
Variables (h : Heap.t) (bk : bref) (bo : Bucket.t) (n : string).
Hypothesis Hbk : Heap.buckets h !! bk = Some bo.

Let new : fref := length (Heap.files h).
Let bo' : Bucket.t := assign_files n (VFile new) bo.

Lemma put_state_file c md :
  Heap.files (put_state h bk bo n c md) !! new =
  Some (File.mk n bk bk (Bucket.storage bo) md (CBuffer c) Queues.empty).
Proof.
  unfold put_state, new. simpl. rewrite lookup_app_r by lia.
  rewrite Nat.sub_diag. reflexivity.
Qed.

Lemma put_state_bucket c md :
  Heap.buckets (put_state h bk bo n c md) !! bk = Some bo'.
Proof using Hbk.
  unfold put_state. simpl. apply list_lookup_insert_eq.
  eapply lookup_lt_Some; eauto.
Qed.

Lemma put_state_resolved c md :
  resolved (put_state h bk bo n c md) bk n = Some (VFile new).
Proof using Hbk.
  unfold resolved. rewrite put_state_bucket. apply files_get_assign_file.
Qed.

Lemma put_state_member c md : is_member (put_state h bk bo n c md) new = true.
Proof using Hbk.
  unfold is_member. rewrite put_state_file. cbn [File.bucket File.name].
  rewrite put_state_bucket. unfold bo'. rewrite files_get_assign_file.
  reflexivity.
Qed.

(** The new file is the entry of the key, [__proto__] apart, which is
    a key only when it is one already. *)
Lemma put_state_child c md :
  (n = "__proto__" -> Obj.has n (Bucket.files bo) = true) ->
  child (put_state h bk bo n c md) bk n = Some (VFile new).
Proof using Hbk.
  intros Hn. unfold child. rewrite put_state_bucket. unfold bo', assign_files.
  destruct (String.eqb_spec n "__proto__") as [E|E].
  - rewrite (Hn E). cbn [negb andb Bucket.files Bucket.set_files].
    apply get_set_eq.
  - cbn [andb Bucket.files Bucket.set_files]. apply get_set_eq.
Qed.

(** No other key is touched. *)
Lemma put_state_child_ne c md n' :
  n' <> n -> child (put_state h bk bo n c md) bk n' = child h bk n'.
Proof using Hbk.
  intros Hne. unfold child. rewrite put_state_bucket, Hbk.
  unfold bo', assign_files.
  destruct (_ && _)%bool; cbn [Bucket.files Bucket.set_files Bucket.set_files_proto].
  - reflexivity.
  - apply get_set_ne. congruence.
Qed.

Lemma put_files_at c md :
  files_at bk n (put_state h bk bo n c md) =
  (Return (VFile new), put_state h bk bo n c md).
Proof using Hbk.
  unfold files_at, bind, getBucket, read_files. rewrite put_state_bucket.
  cbn [fst snd]. unfold bo'. rewrite files_get_assign_file. reflexivity.
Qed.

Lemma put_save c md data :
  MockFile_save new data None (put_state h bk bo n c md) =
  (Return tt, put_state h bk bo n (to_buffer data) md).
Proof using Hbk.
  rewrite (MockFile_save_spec _ _ _ _ data None (put_state_file c md)
             (put_state_bucket c md) eq_refl).
  f_equal. unfold saved, marked. rewrite put_state_member.
  unfold put_state at 1 2. simpl. unfold new. rewrite insert_last.
  reflexivity.
Qed.

Lemma put_setMetadata c md m old_custom new_custom :
  prop_metadata md = inr old_custom ->
  prop_metadata m = inr new_custom ->
  let merged :=
    JObj (spread2_metadata md m (JObj (spread2 old_custom new_custom))) in
  MockFile_setMetadata new m (put_state h bk bo n c md) =
  (Return merged, put_state h bk bo n c merged).
Proof using Hbk.
  intros Ho Hn merged.
  rewrite (MockFile_setMetadata_spec _ _ _ _ (put_state_file c md)
             (put_state_bucket c md) (put_state_member c md) m
             old_custom new_custom eq_refl Ho Hn).
  f_equal. unfold with_metadata. unfold put_state at 1 2. simpl.
  unfold new. rewrite insert_last. reflexivity.
Qed.

End Put.

Lemma put_metadata_falsy m :
  truthy m = false -> put_metadata (Some m) = default_metadata.
Proof.
  destruct m as [| |[]|z|s|p]; simpl; try discriminate; try reflexivity.
  destruct s; [reflexivity|discriminate].
Qed.

Lemma put_contents_falsy c : data_truthy c = false -> to_buffer c = [].
Proof.
  destruct c as [s|buf]; simpl; [|discriminate].
  destruct s; [reflexivity|discriminate].
Qed.

Lemma truthy_prop_metadata m :
  nullish m = false -> exists c, prop_metadata m = inr c.
Proof. destruct m; simpl; try discriminate; eauto. Qed.

Lemma truthy_not_nullish m : truthy m = true -> nullish m = false.
Proof. destruct m; simpl; try discriminate; reflexivity. Qed.

Section PutContract.
Variables (h : Heap.t) (bk : bref) (bo : Bucket.t) (n : string).
Hypothesis Hbk : Heap.buckets h !! bk = Some bo.

Lemma put_assign :
  files_assign bk n (VFile (length (Heap.files h))) (constructed h bk bo n) =
  (Return tt, put_state h bk bo n [] default_metadata).
Proof using Hbk.
  unfold files_assign, modifyBucket, constructed. simpl. rewrite Hbk.
  reflexivity.
Qed.

Lemma put_setMetadata_default c m :
  nullish m = false ->
  MockFile_setMetadata (length (Heap.files h)) m
    (put_state h bk bo n c default_metadata) =
  (Return (put_metadata (Some m)),
   put_state h bk bo n c (put_metadata (Some m))).
Proof using Hbk.
  intros Hn. destruct (truthy_prop_metadata m Hn) as [custom Hc].
  unfold put_metadata. rewrite Hc.
  apply (put_setMetadata h bk bo n Hbk c default_metadata m (JObj Obj.empty)
           custom eq_refl Hc).
Qed.

Lemma MockBucket_put_spec contents metadata :
  MockBucket_put bk n contents metadata h =
  (Return (VFile (length (Heap.files h))),
   put_state h bk bo n (put_contents contents) (put_metadata metadata)).
Proof using Hbk.
  unfold MockBucket_put.
  unfold bind at 1. rewrite (new_MockFile_spec h bk bo n Hbk).
  unfold bind at 1. rewrite put_assign.
  assert (forall c,
    (do! match metadata with
         | Some md =>
             when (truthy md)
               (let! v := files_at bk n in
                let! f := as_file v in
                do! MockFile_setMetadata f md in ret tt)
         | None => ret tt
         end in files_at bk n) (put_state h bk bo n c default_metadata) =
    (Return (VFile (length (Heap.files h))),
     put_state h bk bo n c (put_metadata metadata))) as Hmd.
  { intros c. destruct metadata as [m|]; cbv beta iota.
    - destruct (truthy m) eqn:Htr; unfold when.
      + unfold bind. rewrite (put_files_at h bk bo n Hbk).
        cbn [as_file ret].
        rewrite (put_setMetadata_default c m (truthy_not_nullish m Htr)).
        cbv beta iota. apply (put_files_at h bk bo n Hbk).
      + rewrite (put_metadata_falsy m Htr). unfold bind, ret.
        apply (put_files_at h bk bo n Hbk).
    - unfold bind, ret. apply (put_files_at h bk bo n Hbk). }
  destruct contents as [c|]; unfold put_contents; cbv beta iota.
  - destruct (data_truthy c) eqn:Htr; unfold when.
    + unfold bind at 1. unfold bind at 1.
      rewrite (put_files_at h bk bo n Hbk).
      unfold bind at 1. cbn [as_file ret].
      rewrite (put_save h bk bo n Hbk). apply Hmd.
    + rewrite (put_contents_falsy c Htr). unfold bind at 1, ret at 1.
      apply Hmd.
  - unfold bind at 1, ret at 1. apply Hmd.
Qed.

Lemma put_by_spec_spec contents metadata :
  put_by_spec bk n contents metadata h =
  (Return (VFile (length (Heap.files h))),
   put_state h bk bo n (put_contents contents) (put_metadata metadata)).
Proof using Hbk.
  unfold put_by_spec.
  unfold bind at 1. rewrite (new_MockFile_spec h bk bo n Hbk).
  unfold bind at 1. rewrite put_assign.
  assert (forall c,
    (do! match metadata with
         | Some md =>
             if nullish md then ret tt
             else do! MockFile_setMetadata (length (Heap.files h)) md in ret tt
         | None => ret tt
         end in ret (VFile (length (Heap.files h))))
      (put_state h bk bo n c default_metadata) =
    (Return (VFile (length (Heap.files h))),
     put_state h bk bo n c (put_metadata metadata))) as Hmd.
  { intros c. destruct metadata as [m|]; cbv beta iota; [|reflexivity].
    destruct (nullish m) eqn:Hn.
    - destruct m; try discriminate; reflexivity.
    - unfold bind. rewrite (put_setMetadata_default c m Hn). reflexivity. }
  destruct contents as [c|]; unfold put_contents; cbv beta iota.
  - unfold bind at 1. rewrite (put_save h bk bo n Hbk). apply Hmd.
  - unfold bind at 1, ret at 1. apply Hmd.
Qed.

End PutContract.

(** C6: the claim fails for the name __proto__. put('__proto__',
    'Hello, world!') returns a new file, and yet the bucket has no
    member then: its record [files] has no key and getFiles() lists
    nothing. The assignment [files['__proto__'] = file] has made the
    file the prototype of the record, so that the names of the fields
    of a file are found in the bucket: file('name') returns the string
    "__proto__", not a file. *)
Theorem put_of_proto_name_adds_no_member :
  proto_name_example =
  (Return (VFile 0), Return ([], JObj Obj.empty, JObj Obj.empty), Some [],
   Return (VJs (JStr "__proto__"))).
Proof. vm_compute. reflexivity. Qed.

(** X25: for every name, contents and metadata and whatever the bucket
    holds, put returns, without failing, a new file object, which is
    what [files[name]] reads afterwards: its queues are empty, its
    contents are those given (empty otherwise) and its metadata is the
    default {metadata:{}} with the given metadata merged in as
    setMetadata does; the outcome is that of replacing the entry by a
    fresh file, then save if contents are given, then setMetadata if
    metadata is. The file is the entry of the key [name] unless the name
    is __proto__ and no key; no other key is touched, and the file
    objects there were are as before. *)
Theorem put_contract (h : Heap.t) (bk : bref) (bo : Bucket.t) (n : string)
  (contents : option Data) (metadata : option JsVal) :
  Heap.buckets h !! bk = Some bo ->
  let new := length (Heap.files h) in
  let h' := put_state h bk bo n (put_contents contents) (put_metadata metadata) in
  MockBucket_put bk n contents metadata h = (Return (VFile new), h') /\
  MockBucket_put bk n contents metadata h = put_by_spec bk n contents metadata h /\
  Heap.files h' !! new =
  Some (File.mk n bk bk (Bucket.storage bo) (put_metadata metadata)
          (CBuffer (put_contents contents)) Queues.empty) /\
  resolved h' bk n = Some (VFile new) /\
  ((n = "__proto__" -> Obj.has n (Bucket.files bo) = true) ->
   child h' bk n = Some (VFile new)) /\
  is_member h' new = true /\
  (forall g o, Heap.files h !! g = Some o -> Heap.files h' !! g = Some o) /\
  (forall n', n' <> n -> child h' bk n' = child h bk n').
Proof.
  intros Hbk new h'. repeat apply conj.
  - apply (MockBucket_put_spec h bk bo n Hbk).
  - rewrite (MockBucket_put_spec h bk bo n Hbk).
    rewrite (put_by_spec_spec h bk bo n Hbk). reflexivity.
  - apply put_state_file.
  - apply (put_state_resolved h bk bo n Hbk).
  - apply (put_state_child h bk bo n Hbk).
  - apply (put_state_member h bk bo n Hbk).
  - intros g o Hg. unfold h', put_state. simpl. apply lookup_app_l_Some.
    exact Hg.
  - intros n'. apply (put_state_child_ne h bk bo n Hbk).
Qed.

Lemma put_contract_witness :
  MockBucket_put 0 "test-file.txt" (Some (DString "Hello, world!"))
    (Some (JObj [("contentType", JStr "text/plain")])) demo_pending =
  (Return (VFile 1),
   put_state demo_pending 0
     (Bucket.mk "test-bucket" 0 [("test-file.txt", VFile 0)] None)
     "test-file.txt"
     (list_byte_of_string "Hello, world!")
     (JObj [("metadata", JObj []); ("contentType", JStr "text/plain")])).
Proof.
  apply (proj1 (put_contract demo_pending 0 _ "test-file.txt"
                  (Some (DString "Hello, world!"))
                  (Some (JObj [("contentType", JStr "text/plain")])) eq_refl)).
Defined.

(** ** Listing and bulk delete *)

Lemma get_filter_prefix {V} (o : Obj.t V) p k :
  Obj.get k (List.filter (fun e => negb (String.prefix p (fst e))) o) =
  if String.prefix p k then None else Obj.get k o.
Proof.
  induction o as [|[k0 v0] o IH]; simpl.
  - destruct (String.prefix p k); reflexivity.
  - destruct (String.prefix p k0) eqn:E0; simpl.
    + rewrite IH. destruct (String.eqb k k0) eqn:E; [|reflexivity].
      apply String.eqb_eq in E. subst k0. rewrite E0. reflexivity.
    + destruct (String.eqb k k0) eqn:E; [|exact IH].
      apply String.eqb_eq in E. subst k0. rewrite E0. reflexivity.
Qed.

Lemma prefix_empty s : String.prefix "" s = true.
Proof. destruct s; reflexivity. Qed.

(** C7: deleteFiles, as the spec describes it, never fails on a bucket,
    matching objects or not; afterwards a name is a key of the mapping
    exactly when it was one and does not start with the prefix (no name
    at all for the empty prefix); the file objects and the other buckets
    are untouched, so exists() on a handle of the bucket answers as
    before for a name that does not match, and for a matching name it
    answers what the mapping inherits under the name: false for a name
    under which it inherits nothing; on members test-1, test-2 and
    nn-test-3 and prefix "test-" the answers are false, false, true. *)
Theorem deleteFiles_contract (h : Heap.t) (bk : bref) (bo : Bucket.t)
  (query : option GetFilesOptions) :
  Heap.buckets h !! bk = Some bo ->
  let p := query_prefix query in
  exists h',
    MockBucket_deleteFiles bk query h = (Return tt, h') /\
    Heap.files h' = Heap.files h /\
    (forall n, child h' bk n = if String.prefix p n then None else child h bk n) /\
    (p = "" -> forall n, child h' bk n = None) /\
    (forall bk', bk' <> bk -> Heap.buckets h' !! bk' = Heap.buckets h !! bk') /\
    (forall f o,
        Heap.files h !! f = Some o ->
        File.bucket o = bk ->
        Queues.get m_exists (File.mockQueues o) = [] ->
        MockFile_exists f h' =
        (Return (if String.prefix p (File.name o)
                 then inherits h bo (File.name o)
                 else is_member h f), h') /\
        (String.prefix p (File.name o) = true ->
         inherits h bo (File.name o) = false ->
         MockFile_exists f h' = (Return false, h'))) /\
    fst (deleteFiles_example demo_bucket) = Return (false, false, true).
Proof.
  intros Hbk p.
  assert (forall h1 n,
    Heap.buckets h1 !! bk =
      Some (Bucket.set_files
              (List.filter (fun e => negb (String.prefix p (fst e)))
                 (Bucket.files bo)) bo) ->
    child h1 bk n = if String.prefix p n then None else child h bk n) as Hchild.
  { intros h1 n H1. unfold child. rewrite H1, Hbk. simpl.
    apply get_filter_prefix. }
  set (h' := Heap.set_buckets
               (<[bk := Bucket.set_files
                          (List.filter (fun e => negb (String.prefix p (fst e)))
                             (Bucket.files bo)) bo]> (Heap.buckets h)) h).
  assert (Heap.buckets h' !! bk =
          Some (Bucket.set_files
                  (List.filter (fun e => negb (String.prefix p (fst e)))
                     (Bucket.files bo)) bo)) as Hbk'.
  { simpl. apply list_lookup_insert_eq. eapply lookup_lt_Some; eauto. }
  exists h'. split; [|split; [|split; [|split; [|split; [|split]]]]].
  - unfold MockBucket_deleteFiles, modifyBucket. rewrite Hbk. reflexivity.
  - reflexivity.
  - intros n. apply Hchild. exact Hbk'.
  - intros Hp n. rewrite (Hchild _ n Hbk'). rewrite Hp, prefix_empty.
    reflexivity.
  - intros bk' Hne. simpl. apply list_lookup_insert_ne. congruence.
  - intros f o Hf Hfb Hq.
    assert (Heap.files h' !! f = Some o) as Hf' by exact Hf.
    assert (MockFile_exists f h' =
            (Return (if String.prefix p (File.name o)
                     then inherits h bo (File.name o)
                     else is_member h f), h')) as Hex.
    { rewrite <- Hfb in Hbk'.
      rewrite (MockFile_exists_spec h' f o _ Hf' Hbk' Hq).
      rewrite (is_member_eq h' f o _ Hf' Hbk').
      unfold is_member. rewrite Hf, Hfb, Hbk.
      unfold inherits, files_get. cbn [Bucket.files Bucket.set_files].
      rewrite get_filter_prefix.
      destruct (String.prefix p (File.name o)); reflexivity. }
    split; [exact Hex|].
    intros Hp Hi. rewrite Hex, Hp, Hi. reflexivity.
  - vm_compute. reflexivity.
Qed.

Lemma deleteFiles_contract_witness :
  exists h',
    MockBucket_deleteFiles 0 (Some {| prefix := Some "test-" |}) demo_file =
    (Return tt, h') /\
    child h' 0 "test-file.txt" = None.
Proof.
  destruct (deleteFiles_contract demo_file 0 _
              (Some {| prefix := Some "test-" |}) eq_refl)
    as (h' & H1 & _ & H2 & _).
  exists h'. split; [exact H1|]. rewrite H2. reflexivity.
Defined.

(** ** The order of the keys *)


Section KeyOrder.
Context {V : Type}.
Implicit Types (o : Obj.t V) (k : string) (v : V).

Lemma keys_update o k v : Obj.keys (Obj.update k v o) = Obj.keys o.
Proof.
  unfold Obj.keys. induction o as [|[k0 v0] o IH]; simpl; [reflexivity|].
  destruct (String.eqb k k0); simpl; [reflexivity|]. rewrite IH. reflexivity.
Qed.

Lemma keys_app o o' : Obj.keys (o ++ o') = Obj.keys o ++ Obj.keys o'.
Proof. unfold Obj.keys. apply map_app. Qed.

Lemma get_None_keys o k : Obj.get k o = None <-> k ∉ Obj.keys o.
Proof.
  unfold Obj.keys. induction o as [|[k0 v0] o IH]; simpl.
  - split; [intros _; apply not_elem_of_nil|reflexivity].
  - rewrite not_elem_of_cons. destruct (String.eqb k k0) eqn:E.
    + apply String.eqb_eq in E. split; [discriminate|]. intros [H _]. congruence.
    + apply String.eqb_neq in E. rewrite IH. split; [auto|intros [_ H]; exact H].
Qed.

Lemma elem_of_keys_insert_index o i k v k' :
  k' ∈ Obj.keys (Obj.insert_index i k v o) <-> k' = k \/ k' ∈ Obj.keys o.
Proof.
  unfold Obj.keys. induction o as [|[k0 v0] o IH]; simpl.
  - rewrite elem_of_cons. reflexivity.
  - destruct (Obj.array_index k0) as [j|]; [destruct (j <? i)%N|]; simpl;
      rewrite ?elem_of_cons, ?IH, ?elem_of_cons; tauto.
Qed.

Lemma NoDup_keys_insert_index o i k v :
  k ∉ Obj.keys o -> NoDup (Obj.keys o) ->
  NoDup (Obj.keys (Obj.insert_index i k v o)).
Proof.
  unfold Obj.keys. induction o as [|[k0 v0] o IH]; simpl; intros Hk Hnd.
  - apply NoDup_singleton.
  - apply not_elem_of_cons in Hk as [Hne Hk].
    apply NoDup_cons in Hnd as [Hk0 Hnd].
    assert (NoDup (k :: k0 :: map fst o)) as Hfront.
    { apply NoDup_cons. split.
      - rewrite not_elem_of_cons. split; assumption.
      - apply NoDup_cons. split; assumption. }
    destruct (Obj.array_index k0) as [j|]; [destruct (j <? i)%N|]; simpl;
      try exact Hfront.
    apply NoDup_cons. split; [|apply IH; assumption].
    intros Hin. apply (elem_of_keys_insert_index o i k v k0) in Hin as [->|Hin];
      [congruence|]. apply Hk0. exact Hin.
Qed.

Lemma own_order_insert_index o i k v :
  Obj.array_index k = Some i ->
  own_order (Obj.keys o) -> own_order (Obj.keys (Obj.insert_index i k v o)).
Proof.
  intros Hi. induction o as [|[k0 v0] o IH]; simpl.
  - intros _. split; [exact I|]. intros k' Hk'. apply elem_of_nil in Hk'.
    contradiction.
  - intros [Ho Hk0].
    assert (forall j, Obj.array_index k0 = Some j -> (i <= j)%N ->
            own_order (k :: k0 :: Obj.keys o)) as Hfront_idx.
    { intros j Hj Hle. split; [split; assumption|]. intros k' Hk'. rewrite Hi.
      apply elem_of_cons in Hk' as [->|Hk'].
      - rewrite Hj. exact Hle.
      - specialize (Hk0 k' Hk'). rewrite Hj in Hk0.
        destruct (Obj.array_index k'); [lia|exact I]. }
    destruct (Obj.array_index k0) as [j|] eqn:Hj.
    + destruct (j <? i)%N eqn:Hlt.
      * apply N.ltb_lt in Hlt. simpl. split; [apply IH; exact Ho|].
        intros k' Hk'. rewrite Hj.
        apply (elem_of_keys_insert_index o i k v k') in Hk' as [->|Hk'].
        -- rewrite Hi. lia.
        -- specialize (Hk0 k' Hk'). exact Hk0.
      * apply N.ltb_ge in Hlt. apply (Hfront_idx j eq_refl Hlt).
    + simpl. split; [split; [exact Ho|]|].
      * intros k' Hk'. specialize (Hk0 k' Hk'). rewrite Hj. exact Hk0.
      * intros k' Hk'. rewrite Hi. apply elem_of_cons in Hk' as [->|Hk'].
        -- rewrite Hj. exact I.
        -- specialize (Hk0 k' Hk').
           destruct (Obj.array_index k'); [contradiction|exact I].
Qed.

Lemma own_order_snoc ks k :
  Obj.array_index k = None -> own_order ks -> own_order (ks ++ [k]).
Proof.
  intros Hk. induction ks as [|k0 ks IH]; simpl.
  - intros _. split; [exact I|]. intros k' Hk'. apply elem_of_nil in Hk'.
    contradiction.
  - intros [Ho Hk0]. split; [apply IH; exact Ho|].
    intros k' Hk'. apply elem_of_app in Hk' as [Hk'|Hk'].
    + apply Hk0. exact Hk'.
    + apply list_elem_of_singleton in Hk'. subst k'. rewrite Hk.
      destruct (Obj.array_index k0); exact I.
Qed.

Lemma elem_of_keys_filter (P : string * V -> bool) o k :
  k ∈ Obj.keys (List.filter P o) -> k ∈ Obj.keys o.
Proof.
  unfold Obj.keys. induction o as [|e o IH]; simpl; [auto|].
  destruct (P e); simpl; rewrite ?elem_of_cons; intuition.
Qed.

Lemma well_formed_filter (P : string * V -> bool) o :
  well_formed o -> well_formed (List.filter P o).
Proof.
  unfold well_formed, Obj.keys. induction o as [|e o IH]; simpl; [auto|].
  intros [Hnd [Ho He]]. apply NoDup_cons in Hnd as [Hnotin Hnd].
  destruct (IH (conj Hnd Ho)) as [IH1 IH2].
  destruct (P e); simpl; [|split; assumption].
  split; [|split; [exact IH2|]].
  - apply NoDup_cons. split; [|exact IH1].
    intros Hin. apply Hnotin. apply (elem_of_keys_filter P o). exact Hin.
  - intros k' Hk'. apply He. apply (elem_of_keys_filter P o). exact Hk'.
Qed.

Lemma well_formed_empty : well_formed (@Obj.empty V).
Proof. split; [apply NoDup_nil_2|exact I]. Qed.

Lemma well_formed_remove o k : well_formed o -> well_formed (Obj.remove k o).
Proof. apply well_formed_filter. Qed.

Lemma well_formed_set o k v : well_formed o -> well_formed (Obj.set k v o).
Proof.
  intros [Hnd Ho]. unfold well_formed, Obj.set, Obj.has.
  destruct (Obj.get k o) eqn:G.
  - rewrite keys_update. split; assumption.
  - apply get_None_keys in G. unfold Obj.add.
    destruct (Obj.array_index k) as [i|] eqn:Hi.
    + split; [apply NoDup_keys_insert_index; assumption|].
      apply own_order_insert_index; assumption.
    + rewrite keys_app. split; [|apply own_order_snoc; assumption].
      apply NoDup_app. split; [exact Hnd|]. split; [|apply NoDup_singleton].
      intros x Hx Hx'. apply list_elem_of_singleton in Hx'. subst x.
      apply G. exact Hx.
Qed.

(** A key that is new and is not an array index goes last. *)
Lemma set_new_last o k v :
  Obj.get k o = None -> Obj.array_index k = None ->
  Obj.set k v o = o ++ [(k, v)].
Proof.
  intros G Hi. unfold Obj.set, Obj.has, Obj.add. rewrite G, Hi. reflexivity.
Qed.

Lemma get_Some_elem_of o k v :
  NoDup (Obj.keys o) -> (Obj.get k o = Some v <-> (k, v) ∈ o).
Proof.
  unfold Obj.keys. induction o as [|[k0 v0] o IH]; simpl; intros Hnd.
  - split; [discriminate|]. intros H. apply elem_of_nil in H. contradiction.
  - apply NoDup_cons in Hnd as [Hnotin Hnd]. rewrite elem_of_cons.
    destruct (String.eqb k k0) eqn:E.
    + apply String.eqb_eq in E. subst k0. split.
      * intros [= ->]. left. reflexivity.
      * intros [[= ->]|Hin]; [reflexivity|]. exfalso. apply Hnotin.
        clear -Hin. induction o as [|[k1 v1] o IH]; simpl.
        -- apply elem_of_nil in Hin. contradiction.
        -- apply elem_of_cons in Hin as [[= <- <-]|Hin];
             [left|right; apply IH; exact Hin].
    + apply String.eqb_neq in E. rewrite (IH Hnd). split; [auto|].
      intros [[= -> ->]|Hin]; [congruence|exact Hin].
Qed.

End KeyOrder.

(** getFiles does not list in insertion order: of two members named "2"
    and "1", put in that order, the one put last is listed first. *)
Lemma getFiles_insertion_order_counterexample :
  exists put_first put_second listing,
    fst (listing_example demo_bucket) = Return (put_first, put_second, listing) /\
    listing = [put_second; put_first] /\
    listing <> [put_first; put_second].
Proof.
  exists (VFile 0), (VFile 1), [VFile 1; VFile 0].
  split; [vm_compute; reflexivity|]. split; [reflexivity|discriminate].
Qed.

Lemma elem_of_listed {V} (o : Obj.t V) p g :
  NoDup (Obj.keys o) ->
  g ∈ map snd (List.filter (fun e => String.prefix p (fst e)) (Obj.entries o)) <->
  exists n, String.prefix p n = true /\ Obj.get n o = Some g.
Proof.
  intros Hnd. rewrite list_elem_of_In, in_map_iff. split.
  - intros [[n g'] [Hg Hin]]. simpl in Hg. subst g'.
    apply filter_In in Hin as [Hin Hp]. exists n. split; [exact Hp|].
    apply (get_Some_elem_of o n g Hnd). apply list_elem_of_In. exact Hin.
  - intros [n [Hp Hg]]. exists (n, g). split; [reflexivity|].
    apply filter_In. split; [|exact Hp].
    apply list_elem_of_In. apply (get_Some_elem_of o n g Hnd). exact Hg.
Qed.

(** C8 as the code has it: getFiles never fails and changes nothing; it
    returns what the mapping holds under the keys that start with the
    prefix (under all its keys for an empty or absent prefix), each
    entry once, in the order in which the files record enumerates its
    keys: names that are array indices first, in ascending order, then
    the other names in the order in which they became keys. When the
    mapping holds under each key a file of that name, a handle for which
    exists() answers false is not listed. A put under a new name that is
    neither an array index nor __proto__ lists its file last, and a
    file(name) lookup of a name under which nothing is found leaves the
    listing as it was, without the new handle. *)
Theorem getFiles_contract (h : Heap.t) (bk : bref) (bo : Bucket.t)
  (query : option GetFilesOptions) :
  Heap.buckets h !! bk = Some bo ->
  let p := query_prefix query in
  let listed :=
    List.filter (fun e => String.prefix p (fst e)) (Obj.entries (Bucket.files bo)) in
  MockBucket_getFiles bk query h =
  (Return (map snd listed, JObj Obj.empty, JObj Obj.empty), h) /\
  (p = "" -> map snd listed = Obj.values (Bucket.files bo)) /\
  (well_formed (Bucket.files bo) ->
   (forall v, v ∈ map snd listed <->
              exists n, String.prefix p n = true /\ child h bk n = Some v) /\
   NoDup (map fst listed) /\
   own_order (map fst listed)) /\
  (well_formed (Bucket.files bo) ->
   (forall n g, Obj.get n (Bucket.files bo) = Some (VFile g) ->
                exists og, Heap.files h !! g = Some og /\
                           File.bucket og = bk /\ File.name og = n) ->
   forall g og,
     Heap.files h !! g = Some og ->
     File.bucket og = bk ->
     is_member h g = false ->
     VFile g ∉ map snd listed) /\
  (forall n contents metadata,
      let new := length (Heap.files h) in
      let h' := snd (MockBucket_put bk n contents metadata h) in
      (well_formed (Bucket.files bo) ->
       forall bo', Heap.buckets h' !! bk = Some bo' ->
                   well_formed (Bucket.files bo')) /\
      (Obj.get n (Bucket.files bo) = None ->
       Obj.array_index n = None ->
       n <> "__proto__" ->
       fst (MockBucket_getFiles bk query h') =
       Return (map snd listed ++ (if String.prefix p n then [VFile new] else []),
               JObj Obj.empty, JObj Obj.empty))) /\
  (forall n,
      defined_truthy (files_get h bo n) = false ->
      exists h1,
        MockBucket_file bk n false h =
        (Return (VFile (length (Heap.files h))), h1) /\
        MockBucket_getFiles bk query h1 =
        (Return (map snd listed, JObj Obj.empty, JObj Obj.empty), h1) /\
        ((forall g, VFile g ∈ map snd listed -> is_Some (Heap.files h !! g)) ->
         VFile (length (Heap.files h)) ∉ map snd listed)).
Proof.
  intros Hbk p listed. split; [|split; [|split; [|split; [|split]]]].
  - unfold MockBucket_getFiles, bind, getBucket. rewrite Hbk. reflexivity.
  - intros Hp. unfold listed, Obj.values, Obj.entries. f_equal.
    rewrite Hp. induction (Bucket.files bo) as [|e o IH]; simpl; [reflexivity|].
    rewrite prefix_empty, IH. reflexivity.
  - intros Hwf. split; [|exact (well_formed_filter _ _ Hwf)].
    intros g. unfold listed. rewrite (elem_of_listed _ p g (proj1 Hwf)).
    unfold child. rewrite Hbk. reflexivity.
  - intros Hwf Hent g og Hg Hgb Hm Hin.
    unfold listed in Hin. apply (elem_of_listed _ p _ (proj1 Hwf)) in Hin
      as (n & _ & Hn).
    destruct (Hent n g Hn) as (og' & Hg' & _ & Hname).
    assert (og' = og) as -> by congruence.
    unfold is_member in Hm. rewrite Hg, Hgb, Hbk, Hname in Hm.
    rewrite (files_get_own h bo n _ Hn) in Hm. discriminate.
  - intros n contents metadata new h'.
    assert (Heap.buckets h' !! bk = Some (assign_files n (VFile new) bo)) as Hbk'.
    { unfold h'. rewrite (MockBucket_put_spec h bk bo n Hbk). simpl.
      apply list_lookup_insert_eq. eapply lookup_lt_Some; eauto. }
    split.
    + intros Hwf bo' Hbo'. rewrite Hbk' in Hbo'. injection Hbo' as <-.
      unfold assign_files. destruct (_ && _)%bool.
      * exact Hwf.
      * simpl. apply well_formed_set. exact Hwf.
    + intros Hn Hi Hne. unfold MockBucket_getFiles, bind, getBucket.
      rewrite Hbk'. rewrite assign_files_plain
        by (apply String.eqb_neq; exact Hne).
      simpl. rewrite (set_new_last _ n (VFile new) Hn Hi).
      unfold Obj.entries. rewrite List.filter_app, List.map_app. simpl.
      fold p. destruct (String.prefix p n); reflexivity.
  - intros n Hn. exists (constructed h bk bo n).
    split; [apply (MockBucket_file_fresh h bk bo n Hbk Hn)|]. split.
    + unfold MockBucket_getFiles, bind, getBucket. simpl. rewrite Hbk.
      reflexivity.
    + intros Hall Hin. apply Hall in Hin as [o Ho].
      apply lookup_lt_Some in Ho. lia.
Qed.

Lemma getFiles_contract_witness :
  MockBucket_getFiles 0 (Some {| prefix := Some "test-" |}) demo_file =
  (Return ([VFile 0], JObj Obj.empty, JObj Obj.empty), demo_file).
Proof.
  apply (proj1 (getFiles_contract demo_file 0 _
                  (Some {| prefix := Some "test-" |}) eq_refl)).
Defined.

(** ** Handles *)

(** Two lookups of a name that is not a member give two objects, which
    do not share their queues: the error queued on the first is not
    thrown by the second. *)
Lemma file_not_cached_counterexample :
  exists file1 file2 found,
    fst (lookup_twice_example demo_bucket) = Return (file1, file2, found) /\
    file1 <> file2.
Proof.
  exists 0, 1, false. split; [vm_compute; reflexivity|discriminate].
Qed.

Lemma plain_name_inherits_nothing n :
  plain_name n = true -> object_prototype_get VObjectPrototype n = None.
Proof.
  unfold plain_name, object_prototype_get. intros H.
  apply negb_true_iff, orb_false_iff in H as [-> ->]. reflexivity.
Qed.

Lemma MockStorage_bucket_spec h s so name :
  Heap.storages h !! s = Some so ->
  MockStorage_bucket s name h =
  match buckets_get so name with
  | Some v => (Return v, h)
  | None =>
      (Return (VBucket (length (Heap.buckets h))),
       Heap.set_storages
         (<[s := Storage.mk
                   (Obj.set name (length (Heap.buckets h)) (Storage.buckets so))]>
            (Heap.storages h))
         (Heap.set_buckets
            (Heap.buckets h ++ [Bucket.mk name s Obj.empty None]) h))
  end.
Proof.
  intros Hs. unfold MockStorage_bucket, bind, getStorage. rewrite Hs.
  destruct (buckets_get so name); [reflexivity|].
  unfold new_MockBucket, allocBucket, modifyStorage, ret. simpl.
  rewrite Hs. reflexivity.
Qed.

Lemma buckets_get_plain so name :
  plain_name name = true ->
  buckets_get so name = VBucket <$> Obj.get name (Storage.buckets so).
Proof.
  intros Hp. unfold buckets_get.
  destruct (Obj.get name (Storage.buckets so)); [reflexivity|].
  apply plain_name_inherits_nothing. exact Hp.
Qed.

(** C9 as the code has it: for a name that a record does not inherit
    from [Object.prototype], bucket(name) never fails, creates the
    bucket on the first call and returns that same bucket on every later
    one; file(name) returns the file that the name finds when it finds
    one, and the same object again after a call with forceExists; for a
    name under which nothing is found it constructs a new object in its
    default state on every call and stores nothing, so two calls return
    two objects. *)
Theorem handles_contract (h : Heap.t) (s : sref) (so : Storage.t) (bk : bref)
  (bo : Bucket.t) (name : string) :
  Heap.storages h !! s = Some so ->
  Heap.buckets h !! bk = Some bo ->
  (plain_name name = true ->
   exists b h1,
      MockStorage_bucket s name h = (Return (VBucket b), h1) /\
      MockStorage_bucket s name h1 = (Return (VBucket b), h1) /\
      match Obj.get name (Storage.buckets so) with
      | Some b0 => b = b0 /\ h1 = h
      | None =>
          b = length (Heap.buckets h) /\
          Heap.buckets h1 !! b = Some (Bucket.mk name s Obj.empty None)
      end) /\
  (forall g force,
      files_get h bo name = Some (VFile g) ->
      MockBucket_file bk name force h = (Return (VFile g), h)) /\
  (defined_truthy (files_get h bo name) = false ->
   let new := length (Heap.files h) in
   (exists h1,
       MockBucket_file bk name true h = (Return (VFile new), h1) /\
       child h1 bk name = Some (VFile new) /\
       forall force,
         MockBucket_file bk name force h1 = (Return (VFile new), h1)) /\
   ((forall p, Bucket.files_proto bo = Some p -> is_Some (Heap.files h !! p)) ->
    exists h1 h2,
       MockBucket_file bk name false h = (Return (VFile new), h1) /\
       Heap.files h1 !! new = Some (fresh_file bk (Bucket.storage bo) name) /\
       Heap.buckets h1 = Heap.buckets h /\
       MockBucket_file bk name false h1 = (Return (VFile (S new)), h2) /\
       S new <> new)).
Proof.
  intros Hs Hbk. split; [|split].
  - intros Hplain. rewrite (MockStorage_bucket_spec h s so name Hs).
    rewrite (buckets_get_plain so name Hplain).
    destruct (Obj.get name (Storage.buckets so)) as [b0|] eqn:Hg; cbn [fmap option_fmap option_map].
    + exists b0, h. split; [reflexivity|]. split; [|split; reflexivity].
      rewrite (MockStorage_bucket_spec h s so name Hs).
      rewrite (buckets_get_plain so name Hplain), Hg. reflexivity.
    + eexists _, _. split; [reflexivity|]. split; [|split; [reflexivity|]].
      * erewrite MockStorage_bucket_spec
          by (simpl; apply list_lookup_insert_eq; eapply lookup_lt_Some; eauto).
        rewrite (buckets_get_plain _ name Hplain).
        simpl. rewrite get_set_eq. reflexivity.
      * simpl. rewrite lookup_app_r by lia. rewrite Nat.sub_diag. reflexivity.
  - intros g force Hg. apply (MockBucket_file_member h bk bo name Hbk g force Hg).
  - intros Hg new. split.
    + eexists. split; [apply (MockBucket_file_forced h bk bo name Hbk Hg)|].
      assert (Heap.buckets
                (Heap.set_buckets
                   (<[bk := Bucket.set_files
                              (Obj.set name (VFile (length (Heap.files h)))
                                 (Bucket.files bo))
                              bo]> (Heap.buckets h))
                   (constructed h bk bo name)) !! bk =
              Some (Bucket.set_files
                      (Obj.set name (VFile (length (Heap.files h)))
                         (Bucket.files bo)) bo))
        as Hbk'.
      { simpl. apply list_lookup_insert_eq. eapply lookup_lt_Some; eauto. }
      split.
      * unfold child. rewrite Hbk'. simpl. apply get_set_eq.
      * intros force. apply (MockBucket_file_member _ bk _ name Hbk').
        apply files_get_own. simpl. apply get_set_eq.
    + intros Hp.
      eexists _, _. split; [apply (MockBucket_file_fresh h bk bo name Hbk Hg)|].
      split; [apply constructed_lookup|]. split; [reflexivity|].
      split; [|lia].
      assert (Heap.buckets (constructed h bk bo name) !! bk = Some bo) as Hbk'
        by exact Hbk.
      assert (defined_truthy (files_get (constructed h bk bo name) bo name) = false)
        as Hg'.
      { rewrite <- Hg. unfold files_get.
        destruct (Obj.get name (Bucket.files bo)); [reflexivity|].
        rewrite (inherited_alloc h (constructed h bk bo name) bo name _ eq_refl Hp).
        reflexivity. }
      rewrite (MockBucket_file_fresh _ bk bo name Hbk' Hg').
      unfold constructed at 1. simpl. rewrite length_app. simpl.
      replace (length (Heap.files h) + 1) with (S new) by (unfold new; lia).
      reflexivity.
Qed.

Lemma handles_contract_witness :
  exists b h1,
    MockStorage_bucket 0 "test-bucket" demo_file = (Return (VBucket b), h1) /\
    MockStorage_bucket 0 "test-bucket" h1 = (Return (VBucket b), h1).
Proof.
  destruct (proj1 (handles_contract demo_file 0 _ 0 _ "test-bucket"
                     eq_refl eq_refl) eq_refl) as (b & h1 & H1 & H2 & _).
  exists b, h1. split; assumption.
Defined.

(** C10: the claim fails for the name __proto__. Two files are put
    under that name, one after the other. The handle of the first
    answers true to exists() and its delete() succeeds, but removes
    nothing: file('__proto__') still returns the second file, whose
    exists() still answers true. The second put has made its file the
    prototype of the record [files], and [delete files['__proto__']]
    removes an own property, which there is not. *)
Theorem stale_delete_of_proto_name_removes_nothing :
  stale_proto_example =
  (Return (VFile 0), Return (VFile 1), Return true, Return (JObj Obj.empty),
   Return (VFile 1), Return true).
Proof. vm_compute. reflexivity. Qed.

(** X26: existence goes by the name, not by the object.  Once put has
    stored a new file under a name, a handle obtained earlier for that
    name in that bucket is another object than the one the name finds,
    yet (with no error queued on it) its exists() answers true, its
    download() and getMetadata() succeed with its own contents and
    metadata, whatever the new file holds, and its delete() succeeds and
    leaves no key of that name in the mapping: the new file was the
    entry of that key, unless the name is __proto__ and no key. *)
Theorem stale_handle_after_put (h : Heap.t) (bk : bref) (bo : Bucket.t)
  (n : string) (f : fref) (o : File.t) (contents : option Data)
  (metadata : option JsVal) :
  Heap.buckets h !! bk = Some bo ->
  Heap.files h !! f = Some o ->
  File.bucket o = bk ->
  File.name o = n ->
  Queues.get m_exists (File.mockQueues o) = [] ->
  Queues.get m_download (File.mockQueues o) = [] ->
  Queues.get m_getMetadata (File.mockQueues o) = [] ->
  Queues.get m_delete (File.mockQueues o) = [] ->
  exists new h',
    MockBucket_put bk n contents metadata h = (Return (VFile new), h') /\
    new <> f /\
    resolved h' bk n = Some (VFile new) /\
    ((n = "__proto__" -> Obj.has n (Bucket.files bo) = true) ->
     child h' bk n = Some (VFile new)) /\
    contents_of h' new = Some (CBuffer (put_contents contents)) /\
    metadata_of h' new = Some (put_metadata metadata) /\
    MockFile_exists f h' = (Return true, h') /\
    MockFile_download f None h' = (Return (File.contents o), h') /\
    MockFile_getMetadata f h' = (Return (File.metadata o, JObj Obj.empty), h') /\
    exists h'',
      MockFile_delete f h' = (Return (JObj Obj.empty), h'') /\
      child h'' bk n = None.
Proof.
  intros Hbk Hf Hob Hon Hqe Hqd Hqg Hqx. subst bk n.
  set (h' := put_state h (File.bucket o) bo (File.name o)
               (put_contents contents) (put_metadata metadata)).
  set (bo' := assign_files (File.name o) (VFile (length (Heap.files h))) bo).
  assert (Heap.files h' !! f = Some o) as Hf'.
  { unfold h', put_state. simpl. apply lookup_app_l_Some. exact Hf. }
  assert (Heap.buckets h' !! File.bucket o = Some bo') as Hb'
    by apply (put_state_bucket h _ bo _ Hbk).
  assert (is_member h' f = true) as Hm.
  { rewrite (is_member_eq h' f o bo' Hf' Hb'). unfold bo'.
    rewrite files_get_assign_file. reflexivity. }
  exists (length (Heap.files h)), h'.
  split; [apply (MockBucket_put_spec h _ bo _ Hbk)|].
  split; [apply lookup_lt_Some in Hf; lia|].
  split; [apply (put_state_resolved h _ bo _ Hbk)|].
  split; [apply (put_state_child h _ bo _ Hbk)|].
  split; [unfold contents_of, h'; rewrite put_state_file; reflexivity|].
  split; [unfold metadata_of, h'; rewrite put_state_file; reflexivity|].
  split; [rewrite (MockFile_exists_spec h' f o bo' Hf' Hb' Hqe), Hm; reflexivity|].
  split; [rewrite (MockFile_download_spec h' f o bo' Hf' Hb'), Hqd, Hm;
          reflexivity|].
  split; [rewrite (MockFile_getMetadata_spec h' f o bo' Hf' Hb'), Hqg, Hm;
          reflexivity|].
  exists (deleted h' o bo').
  split; [apply (MockFile_delete_present h' f o bo' Hf' Hb' Hm Hqx)|].
  apply (deleted_child h' f o bo' Hf' Hb').
Qed.

Lemma stale_handle_after_put_witness :
  exists new h',
    MockBucket_put 0 "test-file.txt" (Some (DString "New contents")) None
      demo_old = (Return (VFile new), h') /\
    new <> 0 /\
    MockFile_exists 0 h' = (Return true, h') /\
    MockFile_download 0 None h' =
    (Return (CBuffer (list_byte_of_string "Old contents")), h').
Proof.
  destruct (stale_handle_after_put demo_old 0 _ "test-file.txt" 0 _
              (Some (DString "New contents")) None
              eq_refl eq_refl eq_refl eq_refl eq_refl eq_refl eq_refl eq_refl)
    as (new & h' & H1 & H2 & _ & _ & _ & _ & H3 & H4 & _).
  exists new, h'. repeat split; assumption.
Defined.

(** ** Failures of the other methods *)

Lemma bind_throw_inv {A B} (m : M A) (k : A -> M B) h e h' :
  bind m k h = (Throw e, h') ->
  m h = (Throw e, h') \/
  exists a h1, m h = (Return a, h1) /\ k a h1 = (Throw e, h').
Proof.
  unfold bind. destruct (m h) as [[a|x|] h1]; intros H.
  - right. exists a, h1. split; [reflexivity|exact H].
  - left. inversion H. reflexivity.
  - discriminate.
Qed.

Lemma run_throw_popped f c h e h' :
  run f c h = (Throw e, h') -> h' = popped h f (method_of c).
Proof.
  unfold popped. rewrite run_unfold. unfold bind at 1.
  destruct (Heap.files h !! f) as [o|] eqn:Hf.
  - destruct (Queues.get (method_of c) (File.mockQueues o)) as [|[e0] q] eqn:Hq.
    + rewrite (mockValue_check_nil h f o _ Hf Hq), (shift_nil h f o _ Hf Hq).
      intros H. apply body_throw in H. exact H.
    + rewrite (mockValue_check_cons h f o _ e0 q Hf Hq),
        (shift_cons h f o _ _ q Hf Hq).
      intros H. inversion H. reflexivity.
  - rewrite (mockValue_check_dangling h f _ Hf). discriminate.
Qed.

Lemma popped_dangling h : popped h (length (Heap.files h)) m_delete = h.
Proof.
  unfold popped, shift, bind, getFile.
  rewrite lookup_ge_None_2 by lia. reflexivity.
Qed.

Lemma MockFile_download_throw f options h e h' :
  MockFile_download f options h = (Throw e, h') -> h' = popped h f m_download.
Proof.
  intros H. apply (run_throw_popped f (call_download options) h e h').
  unfold run, bind. rewrite H. reflexivity.
Qed.

Lemma MockFile_getMetadata_throw f h e h' :
  MockFile_getMetadata f h = (Throw e, h') -> h' = popped h f m_getMetadata.
Proof.
  intros H. apply (run_throw_popped f call_getMetadata h e h').
  unfold run, bind. rewrite H. reflexivity.
Qed.

Lemma MockFile_save_throw f data options h e h' :
  MockFile_save f data options h = (Throw e, h') -> h' = popped h f m_save.
Proof.
  intros H. apply (run_throw_popped f (call_save data options) h e h').
  unfold run, bind. rewrite H. reflexivity.
Qed.

Lemma MockFile_download_return f h r h' :
  MockFile_download f None h = (Return r, h') ->
  h' = h /\ contents_of h f = Some r.
Proof.
  unfold MockFile_download, contents_of. intros H.
  apply bind_return_inv in H as (a & h1 & Hc & H).
  apply mockValue_check_return_inv in Hc as (-> & o & Hf & _).
  revert H. unfold download_body. unfold_M. rewrite Hf. intros H.
  cbn [fmap option_fmap option_map].
  repeat (break_match; try discriminate); simpl in *;
    injection H as <- <-; split; congruence.
Qed.

Lemma MockFile_getMetadata_return f h r h' :
  MockFile_getMetadata f h = (Return r, h') -> h' = h.
Proof.
  unfold MockFile_getMetadata. intros H.
  apply bind_return_inv in H as (a & h1 & Hc & H).
  apply mockValue_check_return_inv in Hc as (-> & _).
  revert H. unfold_M. intros H. crush_M.
Qed.

(** [save] does not fail on bytes. *)
Lemma save_body_with_no_throw f bytes options h e h' :
  save_body_with f (inr bytes) options h <> (Throw e, h').
Proof. unfold_M. intros H. crush_M. Qed.

Lemma MockFile_save_contents_throw f c options h e h' :
  MockFile_save_contents f c options h = (Throw e, h') ->
  (h' = popped h f m_save /\
   exists o, Heap.files h !! f = Some o /\
             Queues.get m_save (File.mockQueues o) <> []) \/
  c = CFalse.
Proof.
  unfold MockFile_save_contents. intros H.
  apply bind_throw_inv in H as [H|(u & h1 & Hc & H)].
  - left. unfold popped.
    destruct (Heap.files h !! f) as [o|] eqn:Hf.
    + destruct (Queues.get m_save (File.mockQueues o)) as [|[e0] q] eqn:Hq.
      * rewrite (mockValue_check_nil h f o _ Hf Hq) in H. discriminate.
      * rewrite (mockValue_check_cons h f o _ e0 q Hf Hq) in H.
        rewrite (shift_cons h f o _ _ q Hf Hq).
        injection H as _ <-. split; [reflexivity|].
        exists o. split; [reflexivity|].
        rewrite Hq. discriminate.
    + rewrite (mockValue_check_dangling h f _ Hf) in H. discriminate.
  - destruct c as [bytes|]; [|right; reflexivity].
    exfalso. eapply save_body_with_no_throw; eauto.
Qed.

Lemma MockBucket_file_inv bk n h r h' :
  MockBucket_file bk n false h = (r, h') ->
  r <> Dangling ->
  exists v, r = Return v /\
    (h' = h \/
     exists bo, h' = constructed h bk bo n /\ v = VFile (length (Heap.files h))).
Proof.
  unfold MockBucket_file, bind, getBucket, read_files, when, new_MockFile,
    allocFile, ret.
  destruct (Heap.buckets h !! bk) as [bo|] eqn:Hbk; [|intros [= <- <-]; congruence].
  destruct (files_get h bo n) as [v|]; simpl.
  - destruct (value_truthy v); simpl.
    + intros [= <- <-] _. exists v. split; [reflexivity|left; reflexivity].
    + unfold bind, getBucket. rewrite Hbk. simpl.
      intros [= <- <-] _. eexists. split; [reflexivity|].
      right. exists bo. split; reflexivity.
  - unfold bind, getBucket. rewrite Hbk. simpl.
    intros [= <- <-] _. eexists. split; [reflexivity|].
    right. exists bo. split; reflexivity.
Qed.

Lemma as_file_inv v h r h' :
  as_file v h = (r, h') ->
  h' = h /\ (forall g, r = Return g -> v = VFile g) /\
  (forall g, v = VFile g -> r = Return g).
Proof.
  destruct v as [g| | |[]| | | | |]; simpl; unfold ret, throw;
    intros [= <- <-]; (split; [reflexivity|]); split; intros; congruence.
Qed.

(** A [copy] that fails has at most shifted one queue, unless its
    source holds [false]. *)
Lemma MockFile_copy_throw f destination options h e h' :
  MockFile_copy f destination options h = (Throw e, h') ->
  (exists g m, h' = popped h g m) \/ contents_of h f = Some CFalse.
Proof.
  assert (exists g m, h = popped h g m) as Hsame.
  { exists (length (Heap.files h)), m_delete. rewrite popped_dangling.
    reflexivity. }
  unfold MockFile_copy. intros H.
  apply bind_throw_inv in H as [H|(me & h1 & Hme & H)].
  { unfold getFile in H. destruct (Heap.files h !! f); discriminate. }
  assert (h1 = h) as ->.
  { unfold getFile in Hme. destruct (Heap.files h !! f); congruence. }
  apply bind_throw_inv in H as [H|(target & h2 & Ht & H)].
  { left. destruct destination; unfold ret, throw, bind, getFile in H;
      try discriminate; try (injection H as _ <-; exact Hsame).
    destruct (Heap.files h !! f0); discriminate. }
  assert (h2 = h) as ->.
  { destruct destination; unfold ret, throw, bind, getFile in Ht;
      try congruence.
    destruct (Heap.files h !! f0); congruence. }
  apply bind_throw_inv in H as [H|(contents & h3 & Hd & H)].
  { left. exists f, m_download. eapply MockFile_download_throw; eauto. }
  apply MockFile_download_return in Hd as (-> & Hc).
  apply bind_throw_inv in H as [H|(md & h4 & Hg & H)].
  { left. exists f, m_getMetadata. eapply MockFile_getMetadata_throw; eauto. }
  apply MockFile_getMetadata_return in Hg as ->.
  destruct (fst target) as [tb|].
  2:{ left. unfold throw in H. injection H as _ <-. exact Hsame. }
  apply bind_throw_inv in H as [H|(found & h5 & Hn & H)].
  { apply MockBucket_file_inv in H as (g & Hg & _); congruence. }
  apply MockBucket_file_inv in Hn as (v & [= <-] & Hn); [|discriminate].
  apply bind_throw_inv in H as [H|(newFile & h6 & Ha & H)].
  { apply as_file_inv in H as (-> & _ & Hv).
    destruct Hn as [->|(bo & -> & ->)]; [left; exact Hsame|].
    specialize (Hv _ eq_refl). discriminate. }
  apply as_file_inv in Ha as (-> & Hv & _). specialize (Hv _ eq_refl).
  apply bind_throw_inv in H as [H|(u & h7 & _ & H)]; [|discriminate].
  apply MockFile_save_contents_throw in H as [(H & o & Ho & Hq)| ->];
    [|right; exact Hc].
  destruct Hn as [->|(bo & -> & Hnew)].
  - left. exists newFile, m_save. exact H.
  - exfalso. rewrite Hnew in Hv. injection Hv as <-.
    rewrite constructed_lookup in Ho. injection Ho as <-. apply Hq.
    reflexivity.
Qed.

(** C3: the claim fails for a copy whose source holds no bytes. A write
    stream opened on a new file and closed with nothing written leaves
    [false] for the contents of the file (what [getContents()] of an
    empty stream returns). copy() of that file to a new name fails, on
    [Buffer.from(false)], and yet the bucket, which listed the source
    only, lists a second file then: save has made the destination a
    member and has stored the merged metadata before it fails on the
    data. *)
Theorem failed_copy_of_empty_stream_adds_member :
  empty_stream_copy_example =
  (Return ([VFile 0], JObj Obj.empty, JObj Obj.empty),
   Throw (TypeError "The first argument must be of type string or an instance of Buffer, ArrayBuffer, or Array or an Array-like Object. Received type boolean (false)"),
   Return ([VFile 0; VFile 1], JObj Obj.empty, JObj Obj.empty),
   Some (JObj [("metadata", JObj []); ("a", JNum 1)])).
Proof. vm_compute. reflexivity. Qed.

(** X28: when a call of a mockable method fails, with a queued error,
    with "No such file" or otherwise, the store is the one left by the
    shift of that method's queue, which comes before anything else: the
    storages, the buckets and hence the members, the disk, and the name,
    contents and metadata of every file are as before the call, and the
    only queue that differs is the one of the method called on that
    file, which has lost its head.  A createReadStream that fails
    changes nothing, and a copy that fails has at most shifted one queue
    (of download or getMetadata on the source, or of save on the
    destination), unless its source holds [false] for its contents. *)
Theorem failed_call_changes_only_queue (f : fref) (h : Heap.t) (e : Error)
  (h' : Heap.t) :
  (forall c,
      run f c h = (Throw e, h') ->
      h' = snd (shift f (method_of c) h) /\
      same_but_queue f (method_of c) h h') /\
  (MockFile_createReadStream f h = (Throw e, h') -> h' = h) /\
  (forall destination options,
      MockFile_copy f destination options h = (Throw e, h') ->
      contents_of h f <> Some CFalse ->
      exists g m, h' = snd (shift g m h) /\ same_but_queue g m h h').
Proof.
  split; [|split].
  - intros c H. split; [|apply (run_throw f c h e h' H)].
    apply (run_throw_popped f c h e h' H).
  - unfold MockFile_createReadStream. unfold_M. intros H. crush_M.
  - intros destination options H Hc.
    apply MockFile_copy_throw in H as [(g & m & ->)|H]; [|contradiction].
    exists g, m. split; [reflexivity|apply popped_same_but_queue].
Qed.

Lemma failed_call_changes_only_queue_witness :
  demo_absent = snd (shift 1 m_delete demo_absent) /\
  same_but_queue 1 m_delete demo_absent demo_absent.
Proof.
  apply (proj1 (failed_call_changes_only_queue 1 demo_absent
                  (no_such_file "test-bucket" "non-existent-file.txt")
                  demo_absent) call_delete).
  reflexivity.
Defined.

(** ** The examples of the repository *)

Example readme_example_runs :
  readme_example =
  (Throw (MkError "Failed to save"), Return false, Return tt, Return true).
Proof. vm_compute. reflexivity. Qed.

Example getFiles_example_runs :
  fst (getFiles_example demo_bucket) =
  Return (VFile 0, VFile 1, [VFile 0; VFile 1]).
Proof. vm_compute. reflexivity. Qed.

Example copy_example_runs :
  fst (copy_example demo_bucket) =
  Return (CBuffer (list_byte_of_string "test file contents"),
          JObj [("metadata", JObj []); ("foo", JStr "bar")]).
Proof. vm_compute. reflexivity. Qed.

Example put_example_runs :
  metadata_of
    (snd (MockBucket_put 0 "file.txt" (Some (DString ""))
            (Some (JObj [("contentType", JStr "text/plain")])) demo_bucket)) 0 =
  Some (JObj [("metadata", JObj []); ("contentType", JStr "text/plain")]).
Proof. vm_compute. reflexivity. Qed.

(** * More of the code *)

(** ** The invariant and the changes of the store *)

Lemma ext_refl h : ext h h.
Proof.
  split; [|split].
  - intros f o Hf. exists o. auto.
  - intros b bo Hb. exists bo. auto.
  - intros s so Hs. eauto.
Qed.

Lemma ext_trans h1 h2 h3 : ext h1 h2 -> ext h2 h3 -> ext h1 h3.
Proof.
  intros (F1 & B1 & S1) (F2 & B2 & S2). split; [|split].
  - intros f o Hf. destruct (F1 f o Hf) as (o' & Hf' & Hn & Hb).
    destruct (F2 f o' Hf') as (o'' & Hf'' & Hn' & Hb').
    exists o''. repeat split; congruence.
  - intros b bo Hb. destruct (B1 b bo Hb) as (bo' & Hb' & Hn & Hs).
    destruct (B2 b bo' Hb') as (bo'' & Hb'' & Hn' & Hs').
    exists bo''. repeat split; congruence.
  - intros s so Hs. destruct (S1 s so Hs) as [so' Hs']. eauto.
Qed.

(** A field of a file other than its name and back references
    changes. *)
Lemma wf_update_file h f o o' :
  wf h ->
  Heap.files h !! f = Some o ->
  File.name o' = File.name o -> File.bucket o' = File.bucket o ->
  File.parent o' = File.parent o -> File.storage o' = File.storage o ->
  wf (Heap.set_files (<[f := o']> (Heap.files h)) h) /\
  ext h (Heap.set_files (<[f := o']> (Heap.files h)) h).
Proof.
  intros (WF & WB & WS) Hf Hn Hb Hp Hs.
  assert (f < length (Heap.files h)) as Hlt by (eapply lookup_lt_Some; eauto).
  assert (forall g og, Heap.files h !! g = Some og ->
            exists og', <[f := o']> (Heap.files h) !! g = Some og' /\
              File.name og' = File.name og /\ File.bucket og' = File.bucket og)
    as Hkeep.
  { intros g og Hg. destruct (decide (g = f)) as [->|Hne].
    - exists o'. rewrite list_lookup_insert_eq by exact Hlt.
      assert (og = o) as -> by congruence. auto.
    - exists og. rewrite list_lookup_insert_ne by congruence. auto. }
  split; [split; [|split]|split; [|split]]; simpl.
  - intros g og Hg. destruct (decide (g = f)) as [->|Hne].
    + rewrite list_lookup_insert_eq in Hg by exact Hlt. injection Hg as <-.
      destruct (WF f o Hf) as (Hpar & bo & Hbo & Hst).
      split; [congruence|]. exists bo. rewrite Hb, Hs. auto.
    + rewrite list_lookup_insert_ne in Hg by congruence. apply (WF g og Hg).
  - intros b bo Hbo. destruct (WB b bo Hbo) as (Hst & Hwf & Hproto & Hmem).
    split; [exact Hst|]. split; [exact Hwf|]. split.
    + intros p Hpr. destruct (Hproto p Hpr) as [op Hop].
      destruct (Hkeep p op Hop) as (op' & Hop' & _). eauto.
    + intros n v Hg. destruct (Hmem n v Hg) as (g & og & -> & Hog & Hgn & Hgb).
      destruct (Hkeep g og Hog) as (og' & Hog' & Hn' & Hb').
      exists g, og'. repeat split; congruence.
  - exact WS.
  - exact Hkeep.
  - intros b bo Hbo. exists bo. auto.
  - intros s so Hso. eauto.
Qed.

Lemma wf_set_disk h d : wf h -> wf (Heap.set_disk d h) /\ ext h (Heap.set_disk d h).
Proof.
  intros H. split; [exact H|]. split; [|split].
  - intros f o Hf. exists o. auto.
  - intros b bo Hb. exists bo. auto.
  - intros s so Hs. eauto.
Qed.

(** A file object is constructed. *)
Lemma wf_constructed h bk bo n :
  wf h ->
  Heap.buckets h !! bk = Some bo ->
  wf (constructed h bk bo n) /\ ext h (constructed h bk bo n) /\
  file_at (length (Heap.files h)) bk n (constructed h bk bo n).
Proof.
  intros (WF & WB & WS) Hbk. unfold constructed.
  split; [split; [|split]|split; [split; [|split]|]]; simpl.
  - intros g og Hg. apply lookup_app_Some in Hg as [Hg|[Hlen Hg]].
    + apply (WF g og Hg).
    + apply list_lookup_singleton_Some in Hg as [_ <-]. simpl.
      split; [reflexivity|]. exists bo. auto.
  - intros b bo' Hbo'. destruct (WB b bo' Hbo') as (Hst & Hwf & Hproto & Hmem).
    split; [exact Hst|]. split; [exact Hwf|]. split.
    + intros p Hp. destruct (Hproto p Hp) as [op Hop]. exists op.
      apply lookup_app_l_Some. exact Hop.
    + intros n' v Hg. destruct (Hmem n' v Hg) as (g & og & -> & Hog & Hgn & Hgb).
      exists g, og. split; [reflexivity|].
      split; [apply lookup_app_l_Some; exact Hog|auto].
  - exact WS.
  - intros g og Hg. exists og. split; [apply lookup_app_l_Some; exact Hg|auto].
  - intros b bo' Hb. exists bo'. auto.
  - intros s so Hs. eauto.
  - exists (fresh_file bk (Bucket.storage bo) n). split; [|split; reflexivity].
    simpl. rewrite lookup_app_r by lia. rewrite Nat.sub_diag. reflexivity.
Qed.

(** [files[n] = g] for a file [g] of that bucket and name. *)
Lemma wf_assign_member h bk bo n g :
  wf h ->
  Heap.buckets h !! bk = Some bo ->
  file_at g bk n h ->
  let h' :=
    Heap.set_buckets
      (<[bk := assign_files n (VFile g) bo]> (Heap.buckets h)) h in
  wf h' /\ ext h h'.
Proof.
  intros (WF & WB & WS) Hbk (og & Hog & Hgn & Hgb) h'.
  assert (bk < length (Heap.buckets h)) as Hlt by (eapply lookup_lt_Some; eauto).
  assert (forall b bo0, Heap.buckets h !! b = Some bo0 ->
            exists bo', Heap.buckets h' !! b = Some bo' /\
              Bucket.name bo' = Bucket.name bo0 /\
              Bucket.storage bo' = Bucket.storage bo0) as Hkeep.
  { intros b bo0 Hb. unfold h'. simpl. destruct (decide (b = bk)) as [->|Hne].
    - rewrite list_lookup_insert_eq by exact Hlt. eexists. split; [reflexivity|].
      assert (bo0 = bo) as -> by congruence.
      rewrite assign_files_name, assign_files_storage. auto.
    - rewrite list_lookup_insert_ne by congruence. exists bo0. auto. }
  split; [split; [|split]|split; [|split]].
  - intros f o Hf. destruct (WF f o Hf) as (Hpar & bo0 & Hbo0 & Hst).
    split; [exact Hpar|]. destruct (Hkeep _ _ Hbo0) as (bo' & Hbo' & _ & Hst').
    exists bo'. split; [exact Hbo'|congruence].
  - intros b bo0 Hb. unfold h' in Hb. simpl in Hb.
    destruct (decide (b = bk)) as [->|Hne].
    + rewrite list_lookup_insert_eq in Hb by exact Hlt. injection Hb as <-.
      destruct (WB bk bo Hbk) as (Hst & Hwf & Hproto & Hmem).
      rewrite assign_files_storage. split; [exact Hst|].
      unfold assign_files. destruct (_ && _)%bool;
        cbn [Bucket.files Bucket.files_proto Bucket.set_files
             Bucket.set_files_proto].
      * split; [exact Hwf|]. split; [|exact Hmem].
        intros p [= <-]. exists og. exact Hog.
      * split; [apply well_formed_set; exact Hwf|]. split; [exact Hproto|].
        intros n' v Hg'. rewrite get_set in Hg'.
        destruct (String.eqb n' n) eqn:E.
        -- apply String.eqb_eq in E. subst n'. injection Hg' as <-.
           exists g, og. auto.
        -- apply (Hmem n' v Hg').
    + rewrite list_lookup_insert_ne in Hb by congruence. apply (WB b bo0 Hb).
  - intros s so Hs. destruct (WS s so Hs) as (Hwf & Hreg). split; [exact Hwf|].
    intros n' b Hb. destruct (Hreg n' b Hb) as (bo0 & Hbo0 & Hbn & Hbs).
    destruct (Hkeep _ _ Hbo0) as (bo' & Hbo' & Hn' & Hs').
    exists bo'. repeat split; congruence.
  - intros f o Hf. exists o. auto.
  - exact Hkeep.
  - intros s so Hs. eauto.
Qed.

(** [delete files[n]] *)
Lemma wf_remove_member h bk bo n :
  wf h ->
  Heap.buckets h !! bk = Some bo ->
  let h' :=
    Heap.set_buckets
      (<[bk := Bucket.set_files (Obj.remove n (Bucket.files bo)) bo]>
         (Heap.buckets h)) h in
  wf h' /\ ext h h'.
Proof.
  intros (WF & WB & WS) Hbk h'.
  assert (bk < length (Heap.buckets h)) as Hlt by (eapply lookup_lt_Some; eauto).
  assert (forall b bo0, Heap.buckets h !! b = Some bo0 ->
            exists bo', Heap.buckets h' !! b = Some bo' /\
              Bucket.name bo' = Bucket.name bo0 /\
              Bucket.storage bo' = Bucket.storage bo0) as Hkeep.
  { intros b bo0 Hb. unfold h'. simpl. destruct (decide (b = bk)) as [->|Hne].
    - rewrite list_lookup_insert_eq by exact Hlt. eexists. split; [reflexivity|].
      assert (bo0 = bo) as -> by congruence. auto.
    - rewrite list_lookup_insert_ne by congruence. exists bo0. auto. }
  split; [split; [|split]|split; [|split]].
  - intros f o Hf. destruct (WF f o Hf) as (Hpar & bo0 & Hbo0 & Hst).
    split; [exact Hpar|]. destruct (Hkeep _ _ Hbo0) as (bo' & Hbo' & _ & Hst').
    exists bo'. split; [exact Hbo'|congruence].
  - intros b bo0 Hb. unfold h' in Hb. simpl in Hb.
    destruct (decide (b = bk)) as [->|Hne].
    + rewrite list_lookup_insert_eq in Hb by exact Hlt. injection Hb as <-.
      destruct (WB bk bo Hbk) as (Hst & Hwf & Hproto & Hmem). simpl.
      split; [exact Hst|]. split; [apply well_formed_remove; exact Hwf|].
      split; [exact Hproto|].
      intros n' g' Hg'. rewrite get_remove in Hg'.
      destruct (String.eqb n' n); [discriminate|]. apply (Hmem n' g' Hg').
    + rewrite list_lookup_insert_ne in Hb by congruence. apply (WB b bo0 Hb).
  - intros s so Hs. destruct (WS s so Hs) as (Hwf & Hreg). split; [exact Hwf|].
    intros n' b Hb. destruct (Hreg n' b Hb) as (bo0 & Hbo0 & Hbn & Hbs).
    destruct (Hkeep _ _ Hbo0) as (bo' & Hbo' & Hn' & Hs').
    exists bo'. repeat split; congruence.
  - intros f o Hf. exists o. auto.
  - exact Hkeep.
  - intros s so Hs. eauto.
Qed.

(** A bucket is constructed and registered in its storage. *)
Lemma wf_new_bucket h s so name :
  wf h ->
  Heap.storages h !! s = Some so ->
  let b := length (Heap.buckets h) in
  let h' :=
    Heap.set_storages
      (<[s := Storage.mk (Obj.set name b (Storage.buckets so))]>
         (Heap.storages h))
      (Heap.set_buckets (Heap.buckets h ++ [Bucket.mk name s Obj.empty None]) h) in
  wf h' /\ ext h h' /\ Heap.buckets h' !! b = Some (Bucket.mk name s Obj.empty None).
Proof.
  intros (WF & WB & WS) Hs b h'.
  assert (s < length (Heap.storages h)) as Hlt by (eapply lookup_lt_Some; eauto).
  assert (Heap.buckets h' !! b = Some (Bucket.mk name s Obj.empty None)) as Hnew.
  { unfold h', b. simpl. rewrite lookup_app_r by lia. rewrite Nat.sub_diag.
    reflexivity. }
  assert (forall b0 bo0, Heap.buckets h !! b0 = Some bo0 ->
            Heap.buckets h' !! b0 = Some bo0) as Hold.
  { intros b0 bo0 Hb0. unfold h'. simpl. apply lookup_app_l_Some. exact Hb0. }
  assert (forall s0, is_Some (Heap.storages h !! s0) ->
            is_Some (Heap.storages h' !! s0)) as Hst.
  { intros s0 [so0 Hs0]. unfold h'. simpl. destruct (decide (s0 = s)) as [->|Hne].
    - rewrite list_lookup_insert_eq by exact Hlt. eauto.
    - rewrite list_lookup_insert_ne by congruence. eauto. }
  split; [split; [|split]|split; [split; [|split]|exact Hnew]].
  - intros f o Hf. destruct (WF f o Hf) as (Hpar & bo & Hbo & Hso).
    split; [exact Hpar|]. exists bo. split; [apply Hold; exact Hbo|exact Hso].
  - intros b0 bo0 Hb0. unfold h' in Hb0. simpl in Hb0.
    apply lookup_app_Some in Hb0 as [Hb0|[Hlen Hb0]].
    + destruct (WB b0 bo0 Hb0) as (Hso & Hwf & Hproto & Hmem).
      split; [apply Hst; exact Hso|]. split; [exact Hwf|].
      split; [exact Hproto|exact Hmem].
    + apply list_lookup_singleton_Some in Hb0 as [_ <-]. simpl.
      split; [apply Hst; eauto|]. split; [apply well_formed_empty|].
      split; [intros p Hp; discriminate|].
      intros n g Hg. discriminate.
  - intros s0 so0 Hs0. unfold h' in Hs0. simpl in Hs0.
    destruct (decide (s0 = s)) as [->|Hne].
    + rewrite list_lookup_insert_eq in Hs0 by exact Hlt. injection Hs0 as <-.
      destruct (WS s so Hs) as (Hwf & Hreg). simpl.
      split; [apply well_formed_set; exact Hwf|].
      intros n b0 Hb0. rewrite get_set in Hb0.
      destruct (String.eqb n name) eqn:E.
      * apply String.eqb_eq in E. subst n. injection Hb0 as <-.
        eexists. split; [exact Hnew|]. split; reflexivity.
      * destruct (Hreg n b0 Hb0) as (bo0 & Hbo0 & Hbn & Hbs).
        exists bo0. split; [apply Hold; exact Hbo0|auto].
    + rewrite list_lookup_insert_ne in Hs0 by congruence.
      destruct (WS s0 so0 Hs0) as (Hwf & Hreg). split; [exact Hwf|].
      intros n b0 Hb0. destruct (Hreg n b0 Hb0) as (bo0 & Hbo0 & Hbn & Hbs).
      exists bo0. split; [apply Hold; exact Hbo0|auto].
  - intros f o Hf. exists o. auto.
  - intros b0 bo0 Hb0. exists bo0. split; [apply Hold; exact Hb0|auto].
  - intros s0 so0 Hs0. apply Hst. eauto.
Qed.

Lemma wf_new_storage h :
  wf h ->
  let h' := Heap.set_storages (Heap.storages h ++ [Storage.mk Obj.empty]) h in
  wf h' /\ ext h h' /\ has_storage (length (Heap.storages h)) h'.
Proof.
  intros (WF & WB & WS) h'.
  split; [split; [|split]|split; [split; [|split]|]].
  - exact WF.
  - intros b bo Hb. destruct (WB b bo Hb) as ([so Hso] & Hwf & Hproto & Hmem).
    split; [|split; [|split]; assumption].
    exists so. unfold h'. simpl. apply lookup_app_l_Some. exact Hso.
  - intros s so Hs. unfold h' in Hs. simpl in Hs.
    apply lookup_app_Some in Hs as [Hs|[Hlen Hs]]; [apply (WS s so Hs)|].
    apply list_lookup_singleton_Some in Hs as [_ <-]. simpl.
    split; [apply well_formed_empty|]. intros n b Hb. discriminate.
  - intros f o Hf. exists o. auto.
  - intros b bo Hb. exists bo. auto.
  - intros s so Hs. exists so. unfold h'. simpl. apply lookup_app_l_Some.
    exact Hs.
  - eexists. unfold h'. simpl. rewrite lookup_app_r by lia.
    rewrite Nat.sub_diag. reflexivity.
Qed.

Lemma wf_empty : wf Heap.empty.
Proof.
  split; [|split]; simpl; intros ? ? H; rewrite lookup_nil in H; discriminate.
Qed.


(** ** Composing methods under the invariant *)

Lemma stable_True : stable (fun _ => True).
Proof. intros h h' _ _. exact I. Qed.

Lemma stable_and P Q : stable P -> stable Q -> stable (fun h => P h /\ Q h).
Proof. intros HP HQ h h' He [Hp Hq]. split; eauto. Qed.

Lemma stable_forall {A} (P : A -> Heap.t -> Prop) :
  (forall a, stable (P a)) -> stable (fun h => forall a, P a h).
Proof. intros HP h h' He H a. eapply HP; eauto. Qed.

Lemma stable_impl (C : Prop) P : stable P -> stable (fun h => C -> P h).
Proof. intros HP h h' He H c. eapply HP; eauto. Qed.

Lemma stable_file_at f b n : stable (file_at f b n).
Proof.
  intros h h' (F & _ & _) (o & Hf & Hn & Hb).
  destruct (F f o Hf) as (o' & Hf' & Hn' & Hb'). exists o'.
  repeat split; congruence.
Qed.

Lemma stable_has_file f : stable (has_file f).
Proof.
  intros h h' (F & _ & _) [o Hf]. destruct (F f o Hf) as (o' & Hf' & _).
  exists o'. exact Hf'.
Qed.

Lemma stable_has_bucket b : stable (has_bucket b).
Proof.
  intros h h' (_ & B & _) [bo Hb]. destruct (B b bo Hb) as (bo' & Hb' & _).
  exists bo'. exact Hb'.
Qed.

Lemma stable_has_storage s : stable (has_storage s).
Proof. intros h h' (_ & _ & S) [so Hs]. apply (S s so Hs). Qed.

Create HintDb stable_db.
#[export] Hint Resolve stable_True stable_and stable_forall stable_impl
  stable_file_at stable_has_file stable_has_bucket stable_has_storage
  : stable_db.

Lemma keeps_ret {A} (P : Heap.t -> Prop) (a : A) (Q : A -> Heap.t -> Prop) :
  (forall h, wf h -> P h -> Q a h) -> keeps P (ret a) Q.
Proof.
  intros H h Hwf Hp. simpl. split; [exact Hwf|]. split; [apply ext_refl|auto].
Qed.

Lemma keeps_throw {A} (P : Heap.t -> Prop) e (Q : A -> Heap.t -> Prop) :
  keeps P (throw e) Q.
Proof. intros h Hwf Hp. simpl. split; [exact Hwf|apply ext_refl]. Qed.

Lemma keeps_bind {A B} (P : Heap.t -> Prop) (m : M A) (k : A -> M B) Q R :
  stable P ->
  keeps P m Q ->
  (forall a, keeps (fun h => P h /\ Q a h) (k a) R) ->
  keeps P (bind m k) R.
Proof.
  intros Hst Hm Hk h Hwf Hp. unfold bind. specialize (Hm h Hwf Hp).
  destruct (m h) as [[a|e|] h1]; [|exact Hm|exact Hm].
  destruct Hm as (Hwf1 & He1 & Hq).
  specialize (Hk a h1 Hwf1 (conj (Hst h h1 He1 Hp) Hq)).
  destruct (k a h1) as [[b|e|] h2]; [| |exact Hk].
  - destruct Hk as (Hwf2 & He2 & Hr).
    split; [exact Hwf2|]. split; [eapply ext_trans; eauto|exact Hr].
  - destruct Hk as (Hwf2 & He2). split; [exact Hwf2|eapply ext_trans; eauto].
Qed.

Lemma keeps_weaken {A} (P P' : Heap.t -> Prop) (m : M A)
  (Q Q' : A -> Heap.t -> Prop) :
  (forall h, wf h -> P' h -> P h) ->
  (forall a h, wf h -> Q a h -> Q' a h) ->
  keeps P m Q -> keeps P' m Q'.
Proof.
  intros HP HQ Hm h Hwf Hp. specialize (Hm h Hwf (HP h Hwf Hp)).
  destruct (m h) as [[a|e|] h1]; [|exact Hm|exact Hm].
  destruct Hm as (Hwf1 & He1 & Hq). split; [exact Hwf1|]. split; [exact He1|].
  apply HQ; assumption.
Qed.

Lemma stable_file_facts f o : stable (file_facts f o).
Proof. unfold file_facts. auto with stable_db. Qed.

Lemma stable_bucket_facts b bo : stable (bucket_facts b bo).
Proof.
  intros h h' He (Hb & Hp & Hmem). split; [|split].
  - eapply stable_has_bucket; eauto.
  - intros p Hpr. eapply stable_has_file; eauto.
  - intros n v Hg. destruct (Hmem n v Hg) as (g & -> & Hat).
    exists g. split; [reflexivity|]. eapply stable_file_at; eauto.
Qed.

Lemma stable_storage_facts s so : stable (storage_facts s so).
Proof.
  unfold storage_facts. apply stable_and; [auto with stable_db|].
  apply stable_forall. intros n. apply stable_forall. intros b.
  apply stable_impl. auto with stable_db.
Qed.

#[export] Hint Resolve stable_file_facts stable_bucket_facts
  stable_storage_facts : stable_db.

Lemma keeps_getFile f :
  keeps (has_file f) (getFile f)
    (fun o h => Heap.files h !! f = Some o /\ file_facts f o h).
Proof.
  intros h Hwf [o Hf]. unfold getFile. rewrite Hf.
  split; [exact Hwf|]. split; [apply ext_refl|]. split; [exact Hf|].
  destruct Hwf as (WF & _). destruct (WF f o Hf) as (_ & bo & Hbo & _).
  split; [exists o; auto|exists bo; exact Hbo].
Qed.

Lemma keeps_getBucket b :
  keeps (has_bucket b) (getBucket b)
    (fun bo h => Heap.buckets h !! b = Some bo /\ bucket_facts b bo h).
Proof.
  intros h Hwf [bo Hb]. unfold getBucket. rewrite Hb.
  split; [exact Hwf|]. split; [apply ext_refl|]. split; [exact Hb|].
  destruct Hwf as (_ & WB & _). destruct (WB b bo Hb) as (_ & _ & Hproto & Hmem).
  split; [exists bo; exact Hb|]. split; [exact Hproto|]. intros n v Hg.
  destruct (Hmem n v Hg) as (g & og & -> & Hog & Hn & Hgb).
  exists g. split; [reflexivity|]. exists og. auto.
Qed.

Lemma keeps_getStorage s :
  keeps (has_storage s) (getStorage s)
    (fun so h => Heap.storages h !! s = Some so /\ storage_facts s so h).
Proof.
  intros h Hwf [so Hs]. unfold getStorage. rewrite Hs.
  split; [exact Hwf|]. split; [apply ext_refl|]. split; [exact Hs|].
  destruct Hwf as (_ & _ & WS). destruct (WS s so Hs) as (_ & Hreg).
  split; [exists so; exact Hs|]. intros n b Hb.
  destruct (Hreg n b Hb) as (bo & Hbo & _). exists bo. exact Hbo.
Qed.

Lemma keeps_modifyFile f g :
  (forall o, File.name (g o) = File.name o /\ File.bucket (g o) = File.bucket o /\
             File.parent (g o) = File.parent o /\
             File.storage (g o) = File.storage o) ->
  keeps (has_file f) (modifyFile f g) (fun _ _ => True).
Proof.
  intros Hg h Hwf [o Hf]. unfold modifyFile. rewrite Hf.
  destruct (Hg o) as (Hn & Hb & Hp & Hs).
  destruct (wf_update_file h f o (g o) Hwf Hf Hn Hb Hp Hs) as [H1 H2]. auto.
Qed.

Lemma keeps_assign b n g :
  keeps (fun h => has_bucket b h /\ file_at g b n h)
    (modifyBucket b (assign_files n (VFile g)))
    (fun _ _ => True).
Proof.
  intros h Hwf [[bo Hb] Hg]. unfold modifyBucket. rewrite Hb.
  destruct (wf_assign_member h b bo n g Hwf Hb Hg) as [H1 H2]. auto.
Qed.

Lemma keeps_remove b n :
  keeps (has_bucket b)
    (modifyBucket b (fun o => Bucket.set_files (Obj.remove n (Bucket.files o)) o))
    (fun _ _ => True).
Proof.
  intros h Hwf [bo Hb]. unfold modifyBucket. rewrite Hb.
  destruct (wf_remove_member h b bo n Hwf Hb) as [H1 H2]. auto.
Qed.

Lemma keeps_writeFileSync p d :
  keeps (fun _ => True) (writeFileSync p d) (fun _ _ => True).
Proof.
  intros h Hwf _. unfold writeFileSync.
  destruct d as [bytes|]; [|split; [exact Hwf|apply ext_refl]].
  destruct (Obj.get p (Heap.refused h)); [split; [exact Hwf|apply ext_refl]|].
  destruct (wf_set_disk h (Obj.set p bytes (Heap.disk h)) Hwf) as [H1 H2]. auto.
Qed.

Lemma keeps_read_files b k :
  keeps (fun _ => True) (read_files b k) (fun _ _ => True).
Proof.
  intros h Hwf _. unfold read_files. split; [exact Hwf|].
  split; [apply ext_refl|exact I].
Qed.

Lemma keeps_readFileSync p :
  keeps (fun _ => True) (readFileSync p) (fun _ _ => True).
Proof.
  intros h Hwf _. unfold readFileSync.
  destruct (Obj.get p (Heap.disk h)); (split; [exact Hwf|]);
    [split; [apply ext_refl|exact I]|apply ext_refl].
Qed.

Lemma keeps_new_MockFile b n :
  keeps (has_bucket b) (new_MockFile b n) (fun f h => file_at f b n h).
Proof.
  intros h Hwf [bo Hb]. rewrite (new_MockFile_spec h b bo n Hb).
  destruct (wf_constructed h b bo n Hwf Hb) as (H1 & H2 & H3). auto.
Qed.

Lemma keeps_seq {A B} (P P1 : Heap.t -> Prop) (m : M A) (k : A -> M B) Q R :
  stable P ->
  (forall h, wf h -> P h -> P1 h) ->
  keeps P1 m Q ->
  (forall a, keeps (fun h => P h /\ Q a h) (k a) R) ->
  keeps P (bind m k) R.
Proof.
  intros Hst HP Hm Hk. apply (keeps_bind P m k Q R Hst); [|exact Hk].
  apply (keeps_weaken P1 P m Q Q HP); auto.
Qed.

Lemma keeps_bind_getFile {B} (P : Heap.t -> Prop) f (k : File.t -> M B) R :
  stable P ->
  (forall h, wf h -> P h -> has_file f h) ->
  (forall o, keeps (fun h => P h /\ file_facts f o h) (k o) R) ->
  keeps P (bind (getFile f) k) R.
Proof.
  intros Hst HP Hk. apply (keeps_seq P (has_file f) _ _ _ R Hst HP (keeps_getFile f)).
  intros o.
  apply (keeps_weaken (fun h => P h /\ file_facts f o h)
           (fun h => P h /\ (Heap.files h !! f = Some o /\ file_facts f o h)) _ R R);
    [|auto|apply Hk].
  intros h Hwf (Hp & Hl & Hfacts). auto.
Qed.

Lemma keeps_bind_getBucket {B} (P : Heap.t -> Prop) b (k : Bucket.t -> M B) R :
  stable P ->
  (forall h, wf h -> P h -> has_bucket b h) ->
  (forall bo, keeps (fun h => P h /\ bucket_facts b bo h) (k bo) R) ->
  keeps P (bind (getBucket b) k) R.
Proof.
  intros Hst HP Hk.
  apply (keeps_seq P (has_bucket b) _ _ _ R Hst HP (keeps_getBucket b)).
  intros bo.
  apply (keeps_weaken (fun h => P h /\ bucket_facts b bo h)
           (fun h => P h /\ (Heap.buckets h !! b = Some bo /\ bucket_facts b bo h)) _ R R);
    [|auto|apply Hk].
  intros h Hwf (Hp & Hl & Hfacts). auto.
Qed.

Lemma keeps_bind_getStorage {B} (P : Heap.t -> Prop) s (k : Storage.t -> M B) R :
  stable P ->
  (forall h, wf h -> P h -> has_storage s h) ->
  (forall so, keeps (fun h => P h /\ storage_facts s so h) (k so) R) ->
  keeps P (bind (getStorage s) k) R.
Proof.
  intros Hst HP Hk.
  apply (keeps_seq P (has_storage s) _ _ _ R Hst HP (keeps_getStorage s)).
  intros so.
  apply (keeps_weaken (fun h => P h /\ storage_facts s so h)
           (fun h => P h /\ (Heap.storages h !! s = Some so /\ storage_facts s so h)) _ R R);
    [|auto|apply Hk].
  intros h Hwf (Hp & Hl & Hfacts). auto.
Qed.

Lemma file_at_has_file f b n h : file_at f b n h -> has_file f h.
Proof. intros (o & Hf & _). exists o. exact Hf. Qed.

(** The side conditions: a fact asked for is among those at hand. *)
Ltac facts :=
  intros;
  repeat match goal with
         | H : _ /\ _ |- _ => destruct H
         | H : file_facts _ _ _ |- _ => destruct H
         | H : bucket_facts _ _ _ |- _ => destruct H
         | H : storage_facts _ _ _ |- _ => destruct H
         end;
  repeat split;
  eauto using file_at_has_file.

Ltac stab := auto 10 with stable_db.

Ltac kseq L := eapply keeps_seq; [stab | | apply L | intros ?]; [facts | ..].
Ltac kret := apply keeps_ret; intros; try exact I; auto.
Ltac kfile := apply keeps_bind_getFile; [stab | facts | intros ?].
Ltac kbucket := apply keeps_bind_getBucket; [stab | facts | intros ?].
Ltac kread :=
  apply (keeps_seq _ (fun _ => True) _ _ (fun _ _ => True));
    [stab | intros; exact I | apply keeps_read_files | intros ?].

Lemma keeps_mustBeExists f :
  keeps (has_file f) (mustBeExists f) (fun _ _ => True).
Proof.
  unfold mustBeExists. kfile. kbucket. kread.
  destruct (negb _); [apply keeps_throw|apply keeps_ret; auto].
Qed.

Lemma keeps_markAsExists f :
  keeps (has_file f) (markAsExists f) (fun _ _ => True).
Proof.
  unfold markAsExists, when. kfile. kbucket. kread.
  destruct (negb _); [|apply keeps_ret; auto].
  eapply keeps_weaken; [| |apply keeps_assign]; facts.
Qed.

Lemma keeps_shift f m :
  keeps (has_file f) (shift f m) (fun _ _ => True).
Proof.
  unfold shift.
  apply keeps_bind_getFile; [stab|facts|]. intros me.
  destruct (Queues.get m (File.mockQueues me)); [apply keeps_ret; auto|].
  eapply keeps_seq; [stab| |apply keeps_modifyFile|]; [facts|auto|].
  intros ?. apply keeps_ret; auto.
Qed.

Lemma keeps_mockValue_check f m :
  keeps (has_file f) (mockValue_check f m) (fun _ _ => True).
Proof.
  unfold mockValue_check.
  eapply keeps_seq; [stab| |apply keeps_shift|]; [facts|].
  intros [[e]|]; [apply keeps_throw|apply keeps_ret; auto].
Qed.

Lemma keeps_mockErrorOnce f m e :
  keeps (has_file f) (mockErrorOnce f m e) (fun g h => g = f).
Proof.
  unfold mockErrorOnce.
  eapply keeps_seq; [stab| |apply keeps_modifyFile|]; [facts|auto|].
  intros ?. apply keeps_ret; auto.
Qed.

Lemma keeps_mockReset f m :
  keeps (has_file f) (mockReset f m) (fun g h => g = f).
Proof.
  unfold mockReset.
  eapply keeps_seq; [stab|intros h _ H; exact H| |].
  - destruct m; apply keeps_modifyFile; auto.
  - intros ?. apply keeps_ret; auto.
Qed.

Lemma keeps_delete_body f : keeps (has_file f) (delete_body f) (fun _ _ => True).
Proof.
  unfold delete_body. kseq keeps_mustBeExists. kfile.
  kseq keeps_remove. kret.
Qed.

Lemma keeps_exists_body f : keeps (has_file f) (exists_body f) (fun _ _ => True).
Proof. unfold exists_body. kfile. kbucket. kread. kret. Qed.

Lemma keeps_download_body f options :
  keeps (has_file f) (download_body f options) (fun _ _ => True).
Proof.
  unfold download_body. kseq keeps_mustBeExists. kfile.
  apply (keeps_seq _ (fun _ => True) _ _ (fun _ _ => True));
    [stab|intros h _ _; exact I| |intros ?; kret].
  destruct options as [[[p|]]|]; try kret.
  unfold when. destruct (negb _); [apply keeps_writeFileSync|kret].
Qed.

Lemma keeps_getSignedUrl_body f :
  keeps (has_file f) (getSignedUrl_body f) (fun _ _ => True).
Proof.
  unfold getSignedUrl_body. kseq keeps_mustBeExists. kfile. kbucket. kret.
Qed.

Lemma keeps_save_body_with f buffer options :
  keeps (has_file f) (save_body_with f buffer options) (fun _ _ => True).
Proof.
  unfold save_body_with. kseq keeps_markAsExists.
  apply (keeps_seq _ (has_file f) _ _ (fun _ _ => True)); [stab|facts| |intros ?].
  - destruct options as [o|]; [|kret].
    unfold when. destruct (truthy _); [|kret].
    eapply keeps_weaken; [| |apply keeps_modifyFile]; [facts|auto|auto].
  - destruct buffer; [apply keeps_throw|].
    eapply keeps_weaken; [| |apply keeps_modifyFile]; [facts|auto|auto].
Qed.

Lemma keeps_save_body f data options :
  keeps (has_file f) (save_body f data options) (fun _ _ => True).
Proof. apply keeps_save_body_with. Qed.

Lemma keeps_setMetadata_body f metadata :
  keeps (has_file f) (setMetadata_body f metadata) (fun _ _ => True).
Proof.
  unfold setMetadata_body. kseq keeps_mustBeExists. kfile.
  destruct (prop_metadata (File.metadata _)); [apply keeps_throw|].
  destruct (prop_metadata metadata); [apply keeps_throw|].
  eapply keeps_seq; [stab| |apply keeps_modifyFile|intros ?]; [facts|auto|].
  kfile. kret.
Qed.

Lemma keeps_getMetadata_body f :
  keeps (has_file f) (getMetadata_body f) (fun _ _ => True).
Proof. unfold getMetadata_body. kseq keeps_mustBeExists. kfile. kret. Qed.

Lemma keeps_body f c :
  keeps (has_file f) (body f c) (fun _ _ => True).
Proof.
  destruct c; simpl.
  - kseq keeps_delete_body. kret.
  - kseq keeps_exists_body. kret.
  - kseq keeps_download_body. kret.
  - kseq keeps_getSignedUrl_body. kret.
  - kseq keeps_save_body. kret.
  - kseq keeps_setMetadata_body. kret.
  - kseq keeps_getMetadata_body. kret.
Qed.

Lemma keeps_check_then {A} f m (k : M A) :
  keeps (has_file f) k (fun _ _ => True) ->
  keeps (has_file f) (do! mockValue_check f m in k) (fun _ _ => True).
Proof. intros Hk. kseq keeps_mockValue_check. eapply keeps_weaken; [| |exact Hk]; facts. Qed.

Lemma keeps_MockFile_save f data options :
  keeps (has_file f) (MockFile_save f data options) (fun _ _ => True).
Proof. apply keeps_check_then, keeps_save_body. Qed.

Lemma keeps_MockFile_save_contents f contents options :
  keeps (has_file f) (MockFile_save_contents f contents options)
    (fun _ _ => True).
Proof. apply keeps_check_then, keeps_save_body_with. Qed.

Lemma keeps_MockFile_download f options :
  keeps (has_file f) (MockFile_download f options) (fun _ _ => True).
Proof. apply keeps_check_then, keeps_download_body. Qed.

Lemma keeps_MockFile_getMetadata f :
  keeps (has_file f) (MockFile_getMetadata f) (fun _ _ => True).
Proof. apply keeps_check_then, keeps_getMetadata_body. Qed.

Lemma keeps_MockFile_setMetadata f metadata :
  keeps (has_file f) (MockFile_setMetadata f metadata) (fun _ _ => True).
Proof. apply keeps_check_then, keeps_setMetadata_body. Qed.

Lemma keeps_run f c : keeps (has_file f) (run f c) (fun _ _ => True).
Proof.
  intros h Hwf Hp. rewrite run_unfold.
  apply (keeps_check_then f (method_of c) (body f c) (keeps_body f c) h Hwf Hp).
Qed.


(** The store that [put] leaves. *)
Lemma wf_put_state h bk bo n c md :
  wf h ->
  Heap.buckets h !! bk = Some bo ->
  wf (put_state h bk bo n c md) /\ ext h (put_state h bk bo n c md) /\
  file_at (length (Heap.files h)) bk n (put_state h bk bo n c md).
Proof.
  intros Hwf Hbk.
  destruct (wf_constructed h bk bo n Hwf Hbk) as (W1 & E1 & A1).
  assert (Heap.buckets (constructed h bk bo n) !! bk = Some bo) as Hbk1
    by exact Hbk.
  destruct (wf_assign_member _ bk bo n _ W1 Hbk1 A1) as (W2 & E2).
  set (h2 := Heap.set_buckets
               (<[bk := assign_files n (VFile (length (Heap.files h))) bo]>
                  (Heap.buckets (constructed h bk bo n)))
               (constructed h bk bo n)) in *.
  assert (Heap.files h2 !! length (Heap.files h) =
          Some (fresh_file bk (Bucket.storage bo) n)) as Hnew
    by apply constructed_lookup.
  destruct (wf_update_file h2 _ _
              (File.mk n bk bk (Bucket.storage bo) md (CBuffer c) Queues.empty)
              W2 Hnew eq_refl eq_refl eq_refl eq_refl) as (W3 & E3).
  assert (Heap.set_files
            (<[length (Heap.files h) :=
                 File.mk n bk bk (Bucket.storage bo) md (CBuffer c) Queues.empty]>
               (Heap.files h2)) h2 = put_state h bk bo n c md) as Heq.
  { unfold h2, put_state, constructed. simpl. rewrite insert_last. reflexivity. }
  rewrite Heq in W3, E3.
  split; [exact W3|]. split.
  - eapply ext_trans; [exact E1|]. eapply ext_trans; [exact E2|exact E3].
  - eexists. split; [apply put_state_file|]. split; reflexivity.
Qed.

(** What a lookup of a name finds, when it is a file, is a file of the
    store. *)
Lemma wf_files_get_file h b bo n g :
  wf h ->
  Heap.buckets h !! b = Some bo ->
  files_get h bo n = Some (VFile g) ->
  has_file g h.
Proof.
  intros (_ & WB & _) Hb Hg. destruct (WB b bo Hb) as (_ & _ & Hproto & Hmem).
  apply files_get_VFile_inv in Hg as [Hg|(_ & _ & Hp)].
  - destruct (Hmem n _ Hg) as (g' & og & [= <-] & Hog & _). exists og. exact Hog.
  - apply (Hproto g Hp).
Qed.

Lemma keeps_MockBucket_file b n :
  keeps (has_bucket b) (MockBucket_file b n false)
    (fun v h => forall g, v = VFile g -> has_file g h).
Proof.
  intros h Hwf [bo Hb].
  destruct (defined_truthy (files_get h bo n)) eqn:Hfound.
  - unfold defined_truthy in Hfound.
    destruct (files_get h bo n) as [v|] eqn:Hg; [|discriminate].
    rewrite (MockBucket_file_found h b bo n Hb v Hg Hfound).
    split; [exact Hwf|]. split; [apply ext_refl|].
    intros g ->. apply (wf_files_get_file h b bo n g Hwf Hb Hg).
  - rewrite (MockBucket_file_fresh h b bo n Hb Hfound).
    destruct (wf_constructed h b bo n Hwf Hb) as (H1 & H2 & H3).
    split; [exact H1|]. split; [exact H2|].
    intros g [= <-]. eapply file_at_has_file; eauto.
Qed.

(** [file] with [forceExists], when it finds a file or nothing. *)
Lemma keeps_MockBucket_file_forced b n :
  keeps (fun h => has_bucket b h /\ stores_a_file (op_file b n true) h)
    (MockBucket_file b n true)
    (fun v h => forall g, v = VFile g -> has_file g h).
Proof.
  intros h Hwf [[bo Hb] Hs]. specialize (Hs bo Hb). cbn beta in Hs.
  destruct (files_get h bo n) as [[g| | | | | | | |]|] eqn:Hg.
  1:{ rewrite (MockBucket_file_member h b bo n Hb g true Hg).
      split; [exact Hwf|]. split; [apply ext_refl|].
      intros g' [= <-]. apply (wf_files_get_file h b bo n g Hwf Hb Hg). }
  all: assert (defined_truthy (files_get h bo n) = false) as Hfalsy
         by (rewrite Hg; exact Hs).
  all: rewrite (MockBucket_file_forced h b bo n Hb Hfalsy).
  all: destruct (wf_constructed h b bo n Hwf Hb) as (W1 & E1 & A1).
  all: pose proof (wf_assign_member (constructed h b bo n) b bo n _ W1 Hb A1)
         as (W2 & E2).
  all: rewrite (assign_files_falsy h bo n _ Hfalsy) in W2, E2.
  all: split; [exact W2|]; split; [eapply ext_trans; eauto|].
  all: intros g' [= <-]; eapply stable_has_file; [exact E2|];
         eapply file_at_has_file; eauto.
Qed.

Lemma keeps_MockBucket_getFiles b query :
  keeps (has_bucket b) (MockBucket_getFiles b query) (fun _ _ => True).
Proof. unfold MockBucket_getFiles. kbucket. kret. Qed.

Lemma keeps_MockBucket_put b n contents metadata :
  keeps (has_bucket b) (MockBucket_put b n contents metadata)
    (fun v h => exists f, v = VFile f /\ file_at f b n h).
Proof.
  intros h Hwf [bo Hb]. rewrite (MockBucket_put_spec h b bo n Hb).
  destruct (wf_put_state h b bo n (put_contents contents)
              (put_metadata metadata) Hwf Hb) as (H1 & H2 & H3).
  split; [exact H1|]. split; [exact H2|]. eexists. split; [reflexivity|exact H3].
Qed.

Lemma keeps_new_MockStorage :
  keeps (fun _ => True) new_MockStorage (fun s h => has_storage s h).
Proof.
  intros h Hwf _. unfold new_MockStorage, allocStorage.
  apply (wf_new_storage h Hwf).
Qed.

Lemma keeps_MockStorage_bucket s name :
  keeps (has_storage s) (MockStorage_bucket s name)
    (fun v h => forall b, v = VBucket b -> has_bucket b h).
Proof.
  intros h Hwf [so Hs]. rewrite (MockStorage_bucket_spec h s so name Hs).
  destruct (buckets_get so name) as [v|] eqn:Hg.
  - split; [exact Hwf|]. split; [apply ext_refl|].
    intros b ->. unfold buckets_get in Hg.
    destruct (Obj.get name (Storage.buckets so)) as [b'|] eqn:Hown.
    + injection Hg as Hbb. subst b'.
      destruct Hwf as (_ & _ & WS). destruct (WS s so Hs) as (_ & Hreg).
      destruct (Hreg name b Hown) as (bo & Hbo & _). exists bo. exact Hbo.
    + unfold object_prototype_get in Hg.
      destruct (String.eqb name "__proto__"); [discriminate|].
      destruct (in_names name _); discriminate.
  - destruct (wf_new_bucket h s so name Hwf Hs) as (H1 & H2 & H3).
    split; [exact H1|]. split; [exact H2|]. intros b [= <-]. eexists. exact H3.
Qed.

Lemma keeps_createReadStream f :
  keeps (has_file f) (MockFile_createReadStream f) (fun _ _ => True).
Proof. unfold MockFile_createReadStream. kseq keeps_mustBeExists. kfile. kret. Qed.

Lemma keeps_on_finish f written :
  keeps (has_file f) (MockFile_on_finish f written) (fun _ _ => True).
Proof. apply keeps_modifyFile. auto. Qed.

Lemma stable_has_destination d : stable (has_destination d).
Proof.
  destruct d; intros h h' He H; simpl in *; try exact I.
  - eapply stable_has_bucket; eauto.
  - eapply stable_has_file; eauto.
Qed.

#[export] Hint Resolve stable_has_destination : stable_db.

Lemma keeps_as_file v :
  keeps (fun h => forall g, v = VFile g -> has_file g h) (as_file v)
    (fun g h => has_file g h).
Proof.
  intros h Hwf Hv.
  destruct v as [g| | |[]| | | | |]; simpl;
    try (split; [exact Hwf|apply ext_refl]).
  split; [exact Hwf|]. split; [apply ext_refl|]. apply Hv. reflexivity.
Qed.

Lemma stable_file_value v : stable (fun h => forall g, v = VFile g -> has_file g h).
Proof. intros h h' He H g Hg. eapply stable_has_file; eauto. Qed.

Lemma stable_target (t : option bref) :
  stable (fun h => forall tb, t = Some tb -> has_bucket tb h).
Proof. intros h h' He H tb Ht. eapply stable_has_bucket; eauto. Qed.

#[export] Hint Resolve stable_file_value stable_target : stable_db.

Lemma keeps_MockFile_copy f destination options :
  keeps (fun h => has_file f h /\ has_destination destination h)
    (MockFile_copy f destination options)
    (fun r h => has_file (fst r) h).
Proof.
  unfold MockFile_copy. apply keeps_bind_getFile; [stab|facts|intros me].
  apply (keeps_bind _ _ _
           (fun t h => forall tb, fst t = Some tb -> has_bucket tb h));
    [stab| |intros target].
  { destruct destination as [s|b|g| | |]; simpl.
    - apply keeps_ret. intros h Hwf H tb [= <-]. revert H. facts.
    - apply keeps_ret. intros h Hwf H tb [= <-]. revert H. facts.
    - kfile. apply keeps_ret. intros h Hwf H tb [= <-]. revert H. facts.
    - apply keeps_throw.
    - apply keeps_ret. intros h Hwf H tb [=].
    - apply keeps_throw. }
  apply (keeps_seq _ (has_file f) _ _ (fun _ _ => True));
    [stab|facts|apply keeps_MockFile_download|intros contents].
  apply (keeps_seq _ (has_file f) _ _ (fun _ _ => True));
    [stab|facts|apply keeps_MockFile_getMetadata|intros md].
  destruct (fst target) as [tb|] eqn:Ht; [|apply keeps_throw].
  apply (keeps_seq _ (has_bucket tb) _ _
           (fun v h => forall g, v = VFile g -> has_file g h));
    [stab|facts|apply keeps_MockBucket_file|intros found].
  apply (keeps_seq _ (fun h => forall g, found = VFile g -> has_file g h) _ _
           (fun g h => has_file g h));
    [stab|facts|apply keeps_as_file|intros newFile].
  apply (keeps_seq _ (has_file newFile) _ _ (fun _ _ => True));
    [stab|facts|apply keeps_MockFile_save_contents|intros ?].
  apply keeps_ret. facts.
Qed.

Lemma keeps_value_metadata v :
  keeps (fun h => forall g, v = VFile g -> has_file g h) (value_metadata v)
    (fun _ _ => True).
Proof.
  destruct v as [g| | |j| | | | |]; simpl; try (apply keeps_ret; auto).
  - kfile. kret.
  - destruct (prop_metadata j); [apply keeps_throw|apply keeps_ret; auto].
Qed.

Lemma keeps_MockBucket_upload basename b filePath options :
  keeps (has_bucket b) (MockBucket_upload basename b filePath options)
    (fun r h => forall g, fst r = VFile g -> has_file g h).
Proof.
  unfold MockBucket_upload.
  apply (keeps_seq _ (fun _ => True) _ _ (fun _ _ => True));
    [stab|facts| |intros ?].
  { destruct options as [[[[s|]|] md]|]; try kret. apply keeps_throw. }
  apply (keeps_seq _ (fun _ => True) _ _ (fun _ _ => True));
    [stab|facts|apply keeps_readFileSync|intros contents].
  apply (keeps_seq _ (has_bucket b) _ _
           (fun v h => exists f, v = VFile f /\
              file_at f b (upload_name basename filePath options) h));
    [stab|facts|apply keeps_MockBucket_put|intros file].
  apply (keeps_seq _ (fun h => forall g, file = VFile g -> has_file g h) _ _
           (fun _ _ => True));
    [| |apply keeps_value_metadata|intros md].
  - apply stable_and; [stab|].
    intros h h' He (g & -> & Hat). exists g. split; [reflexivity|].
    eapply stable_file_at; eauto.
  - intros h Hwf (_ & g & -> & Hat) g' [= <-]. eapply file_at_has_file; eauto.
  - apply keeps_ret. intros h Hwf ((_ & g & -> & Hat) & _) g' [= <-].
    eapply file_at_has_file; eauto.
Qed.

Lemma keeps_void {A} P (m : M A) Q :
  keeps P m Q -> keeps P (void m) (fun _ _ => True).
Proof.
  intros Hm h Hwf Hp. unfold void, bind. specialize (Hm h Hwf Hp).
  destruct (m h) as [[a|e|] h']; [|exact Hm|exact Hm].
  destruct Hm as (H1 & H2 & _). simpl. auto.
Qed.

Lemma exec_keeps basename op :
  keeps (fun h => valid_op op h /\ stores_a_file op h) (exec basename op)
    (fun _ _ => True).
Proof.
  assert (forall (P : Heap.t -> Prop) (m : M unit),
            keeps P m (fun _ _ => True) ->
            keeps (fun h => P h /\ stores_a_file op h) m (fun _ _ => True))
    as Hdrop.
  { intros P m Hm. eapply keeps_weaken; [| |exact Hm]; [|auto].
    intros h _ [H _]. exact H. }
  destruct op; simpl exec; simpl valid_op.
  - eapply Hdrop, keeps_void, keeps_new_MockStorage.
  - eapply Hdrop, keeps_void, keeps_MockStorage_bucket.
  - destruct forceExists.
    + eapply keeps_void, keeps_MockBucket_file_forced.
    + eapply Hdrop, keeps_void, keeps_MockBucket_file.
  - eapply Hdrop, keeps_void, keeps_MockBucket_put.
  - eapply Hdrop, keeps_void, keeps_MockBucket_upload.
  - eapply Hdrop, keeps_void, keeps_MockBucket_getFiles.
  - eapply Hdrop, keeps_void, keeps_run.
  - eapply Hdrop, keeps_void, keeps_MockFile_copy.
  - eapply Hdrop, keeps_void, keeps_createReadStream.
  - apply Hdrop, keeps_markAsExists.
  - apply Hdrop, keeps_on_finish.
  - eapply Hdrop, keeps_void, keeps_mockErrorOnce.
  - eapply Hdrop, keeps_void, keeps_mockReset.
Qed.

(** ** X1, X2: the invariant of the store *)

(** X1: on a store that satisfies the invariant, a call of any method of
    the three classes, made on objects that exist, never meets a
    dangling reference and, whether it returns or throws, leaves a store
    that satisfies the invariant and in which every object is still
    there, with its name and back references; a call of file with
    forceExists is one that finds a file or nothing under the name, so
    that what it stores is a file. *)
Theorem every_call_keeps_the_invariant (basename : string -> string) (op : Op)
  (h : Heap.t) :
  wf h ->
  valid_op op h ->
  stores_a_file op h ->
  fst (exec basename op h) <> Dangling /\
  wf (snd (exec basename op h)) /\
  ext h (snd (exec basename op h)).
Proof.
  intros Hwf Hv Hs. pose proof (exec_keeps basename op h Hwf (conj Hv Hs)) as H.
  destruct (exec basename op h) as [[[]|e|] h']; simpl.
  - destruct H as (H1 & H2 & _). split; [discriminate|auto].
  - destruct H as (H1 & H2). split; [discriminate|auto].
  - contradiction.
Qed.

Lemma every_call_keeps_the_invariant_witness :
  wf demo_file.
Proof.
  pose (b := fun s : string => s).
  pose (h1 := snd (exec b op_new_MockStorage Heap.empty)).
  pose (h2 := snd (exec b (op_bucket 0 "test-bucket") h1)).
  assert (wf h1) as W1
    by apply (every_call_keeps_the_invariant b op_new_MockStorage Heap.empty
                wf_empty I I).
  assert (wf h2) as W2.
  { apply (every_call_keeps_the_invariant b (op_bucket 0 "test-bucket") h1 W1);
      [vm_compute; eexists; reflexivity|exact I]. }
  change (wf (snd (exec b (op_file 0 "test-file.txt" true) h2))).
  apply (every_call_keeps_the_invariant b (op_file 0 "test-file.txt" true) h2 W2).
  - vm_compute. eexists. reflexivity.
  - intros bo Hbo. vm_compute in Hbo. injection Hbo as <-. vm_compute.
    reflexivity.
Defined.

Lemma reachable_with_files_wf basename h : reachable_with_files basename h -> wf h.
Proof.
  induction 1 as [|h op Hr IH Hv Hs]; [apply wf_empty|].
  pose proof (exec_keeps basename op h IH (conj Hv Hs)) as H.
  destruct (exec basename op h) as [[[]|e|] h']; simpl.
  - apply H.
  - apply H.
  - contradiction.
Qed.

(** X2: in every store that calls lead to from the empty one, a call of
    file with forceExists being one that finds a file or nothing under
    the name, an entry of a bucket is a file of that bucket and of that
    name, so that a file is a member of no other bucket and under no
    other name; a file's [parent] is its [bucket] and its [storage] that
    of its bucket; and no name is a key twice. *)
Theorem reachable_members (basename : string -> string) (h : Heap.t) :
  reachable_with_files basename h ->
  (forall b n v, child h b n = Some v -> exists g, v = VFile g /\ file_at g b n h) /\
  (forall b1 n1 b2 n2 g,
      child h b1 n1 = Some (VFile g) -> child h b2 n2 = Some (VFile g) ->
      b1 = b2 /\ n1 = n2) /\
  (forall f o, Heap.files h !! f = Some o ->
     File.parent o = File.bucket o /\
     exists bo, Heap.buckets h !! File.bucket o = Some bo /\
                File.storage o = Bucket.storage bo) /\
  (forall b bo, Heap.buckets h !! b = Some bo -> NoDup (Obj.keys (Bucket.files bo))).
Proof.
  intros Hr. pose proof (reachable_with_files_wf basename h Hr) as (WF & WB & WS).
  assert (forall b n v, child h b n = Some v ->
            exists g, v = VFile g /\ file_at g b n h) as Hchild.
  { intros b n v. unfold child.
    destruct (Heap.buckets h !! b) as [bo|] eqn:Hb; [|discriminate].
    intros Hg. destruct (WB b bo Hb) as (_ & _ & _ & Hmem).
    destruct (Hmem n v Hg) as (g & og & -> & Hog & Hn & Hgb).
    exists g. split; [reflexivity|]. exists og. auto. }
  split; [exact Hchild|]. split; [|split; [exact WF|]].
  - intros b1 n1 b2 n2 g H1 H2.
    destruct (Hchild _ _ _ H1) as (g1 & [= <-] & o1 & Ho1 & Hn1 & Hb1).
    destruct (Hchild _ _ _ H2) as (g2 & [= <-] & o2 & Ho2 & Hn2 & Hb2).
    assert (o1 = o2) by congruence. subst. auto.
  - intros b bo Hb. destruct (WB b bo Hb) as (_ & [Hnd _] & _). exact Hnd.
Qed.

Lemma demo_file_reachable :
  reachable_with_files (fun s : string => s) demo_file.
Proof.
  pose (b := fun s : string => s).
  change (reachable_with_files b
            (snd (exec b (op_file 0 "test-file.txt" true)
                    (snd (exec b (op_bucket 0 "test-bucket")
                            (snd (exec b op_new_MockStorage Heap.empty))))))).
  apply reach_files_step;
    [apply reach_files_step; [apply reach_files_step;
       [apply reach_files_empty| |]| |]| |].
  - exact I.
  - exact I.
  - vm_compute. eexists. reflexivity.
  - exact I.
  - vm_compute. eexists. reflexivity.
  - intros bo Hbo. vm_compute in Hbo. injection Hbo as <-. vm_compute.
    reflexivity.
Defined.

Lemma reachable_members_witness :
  exists g, VFile 0 = VFile g /\ file_at g 0 "test-file.txt" demo_file.
Proof.
  exact (proj1 (reachable_members (fun s : string => s) demo_file
                  demo_file_reachable) 0 "test-file.txt" (VFile 0) eq_refl).
Defined.

(** ** Reading back what was written *)

Lemma saved_bucket h f o b bytes options :
  Heap.files h !! f = Some o ->
  Heap.buckets h !! File.bucket o = Some b ->
  exists b', Heap.buckets (saved h f o b bytes options) !! File.bucket o = Some b'.
Proof.
  intros Hf Hb. destruct (marked_bucket h f o b Hf Hb) as [b' Hb'].
  exists b'. exact Hb'.
Qed.

Lemma saved_other h f o b bytes options g :
  g <> f ->
  Heap.files (saved h f o b bytes options) !! g = Heap.files h !! g.
Proof.
  intros Hne. unfold saved. cbn [Heap.files Heap.set_files].
  rewrite list_lookup_insert_ne by congruence. unfold marked.
  destruct (is_member h f); reflexivity.
Qed.

Lemma MockFile_createReadStream_spec h f o b :
  Heap.files h !! f = Some o ->
  Heap.buckets h !! File.bucket o = Some b ->
  MockFile_createReadStream f h =
  if is_member h f then (Return (File.contents o), h)
  else (Throw (no_such_file (Bucket.name b) (File.name o)), h).
Proof.
  intros Hf Hb. unfold MockFile_createReadStream, bind.
  rewrite (mustBeExists_spec h f o b Hf Hb).
  destruct (is_member h f); [|reflexivity].
  unfold getFile. rewrite Hf. reflexivity.
Qed.

(** X3: whatever the file held and whether or not it was a member,
    after a [save] that no queued error stops, [download] and
    [createReadStream] give the bytes saved, [exists] gives true, and
    [getMetadata] gives the metadata of the options when that is truthy
    and the metadata the file had otherwise. *)
Theorem save_then_read (h : Heap.t) (f : fref) (o : File.t) (b : Bucket.t)
  (data : Data) (options : option SaveOptions) :
  Heap.files h !! f = Some o ->
  Heap.buckets h !! File.bucket o = Some b ->
  Queues.get m_save (File.mockQueues o) = [] ->
  Queues.get m_download (File.mockQueues o) = [] ->
  Queues.get m_exists (File.mockQueues o) = [] ->
  Queues.get m_getMetadata (File.mockQueues o) = [] ->
  exists h',
    MockFile_save f data options h = (Return tt, h') /\
    MockFile_download f None h' = (Return (CBuffer (to_buffer data)), h') /\
    MockFile_createReadStream f h' = (Return (CBuffer (to_buffer data)), h') /\
    MockFile_exists f h' = (Return true, h') /\
    MockFile_getMetadata f h' =
    (Return (match options with
             | Some so => if truthy (save_metadata so) then save_metadata so
                          else File.metadata o
             | None => File.metadata o
             end, JObj Obj.empty), h').
Proof.
  intros Hf Hb Hqs Hqd Hqe Hqg. exists (saved h f o b (to_buffer data) options).
  pose proof (saved_lookup h f o b (to_buffer data) options Hf) as Hf'.
  destruct (saved_bucket h f o b (to_buffer data) options Hf Hb) as [b' Hb'].
  pose proof (saved_member h f o b Hf Hb (to_buffer data) options) as Hm.
  split; [apply MockFile_save_spec; assumption|].
  split; [|split; [|split]].
  - rewrite (MockFile_download_spec _ f _ b' Hf' Hb').
    cbn [File.mockQueues File.set_contents File.set_metadata File.contents
         File.metadata].
    rewrite Hqd, Hm. reflexivity.
  - rewrite (MockFile_createReadStream_spec _ f _ b' Hf' Hb'), Hm. reflexivity.
  - apply exists_after_save; assumption.
  - rewrite (MockFile_getMetadata_spec _ f _ b' Hf' Hb').
    cbn [File.mockQueues File.set_contents File.set_metadata File.contents
         File.metadata].
    rewrite Hqg, Hm. reflexivity.
Qed.

Lemma save_then_read_witness :
  exists h',
    MockFile_save 1 (DString "abc") None demo_absent = (Return tt, h') /\
    MockFile_download 1 None h' =
    (Return (CBuffer (to_buffer (DString "abc"))), h').
Proof.
  destruct (save_then_read demo_absent 1
              (fresh_file 0 0 "non-existent-file.txt")
              (Bucket.mk "test-bucket" 0 [("test-file.txt", VFile 0)] None)
              (DString "abc") None) as (h' & H1 & H2 & _);
    try reflexivity.
  exists h'. split; assumption.
Defined.

(** The prototype of the record after [markAsExists]. *)
Lemma marked_proto h f o b b' :
  Heap.files h !! f = Some o ->
  Heap.buckets h !! File.bucket o = Some b ->
  Heap.buckets (marked h f o b) !! File.bucket o = Some b' ->
  Bucket.files_proto b' = Bucket.files_proto b.
Proof.
  intros Hf Hb. destruct (is_member h f) eqn:Hm.
  - unfold marked. rewrite Hm, Hb. intros [= <-]. reflexivity.
  - rewrite (marked_assign h f o b Hf Hb Hm). cbn [Heap.buckets Heap.set_buckets].
    rewrite list_lookup_insert_eq by (eapply lookup_lt_Some; eauto).
    intros [= <-]. reflexivity.
Qed.

Lemma inherited_no_proto h b k :
  Bucket.files_proto b = None ->
  inherited h b k = object_prototype_get VObjectPrototype k.
Proof. intros Hp. unfold inherited. rewrite Hp. reflexivity. Qed.

(** The store once the stream opened on [f] has finished. *)
Lemma finished_member h f o b written :
  Heap.files h !! f = Some o ->
  Heap.buckets h !! File.bucket o = Some b ->
  (written = CFalse -> Bucket.files_proto b = None) ->
  is_member
    (Heap.set_files (<[f := File.set_contents written o]> (Heap.files h))
       (marked h f o b)) f = true.
Proof.
  intros Hf Hb Hw.
  pose proof (marked_member h f o b Hf Hb) as Hm.
  assert (Heap.files (marked h f o b) !! f = Some o) as Hf'
    by (rewrite marked_files; exact Hf).
  destruct (is_member_true_buckets Hf' Hm) as (b' & Hb' & Ht).
  unfold is_member. cbn [Heap.files Heap.buckets Heap.set_files].
  rewrite list_lookup_insert_eq by (eapply lookup_lt_Some; eauto).
  cbn [File.name File.bucket File.set_contents]. rewrite Hb'.
  destruct written as [bytes|].
  - eapply (files_get_truthy_update (marked h f o b) _ b' _ f o);
      [exact Hf'| | |exact Ht].
    + cbn [Heap.files Heap.set_files]. rewrite marked_files. reflexivity.
    + repeat split; try reflexivity; [auto|discriminate].
  - rewrite <- Ht. f_equal. unfold files_get.
    destruct (Obj.get (File.name o) (Bucket.files b')); [reflexivity|].
    assert (Bucket.files_proto b' = None) as Hp.
    { rewrite (marked_proto h f o b b' Hf Hb Hb'). apply Hw. reflexivity. }
    rewrite !(inherited_no_proto _ b' _ Hp). reflexivity.
Qed.

(** X4: a write stream makes the file a member at once, with the
    contents it had (none for a new file) until the stream finishes;
    when it finishes, the file holds what the stream hands over
    ([writable.getContents()]: the bytes written, or [false] when
    nothing was written), which is what [download] returns then, and
    its metadata is the one it had. For a stream that hands over
    [false], the record of the bucket is taken to have the prototype
    that [{}] gave it. *)
Theorem write_stream_then_read (h : Heap.t) (f : fref) (o : File.t)
  (b : Bucket.t) (written : Contents) :
  Heap.files h !! f = Some o ->
  Heap.buckets h !! File.bucket o = Some b ->
  Queues.get m_download (File.mockQueues o) = [] ->
  Queues.get m_getMetadata (File.mockQueues o) = [] ->
  (written = CFalse -> Bucket.files_proto b = None) ->
  exists h1 h2,
    MockFile_createWriteStream f h = (Return tt, h1) /\
    MockFile_download f None h1 = (Return (File.contents o), h1) /\
    MockFile_on_finish f written h1 = (Return tt, h2) /\
    MockFile_download f None h2 = (Return written, h2) /\
    MockFile_getMetadata f h2 = (Return (File.metadata o, JObj Obj.empty), h2).
Proof.
  intros Hf Hb Hqd Hqg Hw.
  exists (marked h f o b),
    (Heap.set_files (<[f := File.set_contents written o]> (Heap.files h))
       (marked h f o b)).
  destruct (marked_bucket h f o b Hf Hb) as [b' Hb'].
  assert (Heap.files (marked h f o b) !! f = Some o) as Hf1
      by (rewrite marked_files; exact Hf).
  set (h2 := Heap.set_files (<[f := File.set_contents written o]> (Heap.files h))
               (marked h f o b)).
  assert (Heap.files h2 !! f = Some (File.set_contents written o)) as Hf2.
  { unfold h2. cbn [Heap.files Heap.set_files]. apply list_lookup_insert_eq.
    eapply lookup_lt_Some; eauto. }
  assert (Heap.buckets h2 !! File.bucket o = Some b') as Hb2 by exact Hb'.
  pose proof (finished_member h f o b written Hf Hb Hw) as Hm2. fold h2 in Hm2.
  split; [apply markAsExists_spec; assumption|].
  split; [|split; [|split]].
  - rewrite (MockFile_download_spec _ f o b' Hf1 Hb'), Hqd.
    rewrite (marked_member h f o b Hf Hb). reflexivity.
  - unfold MockFile_on_finish, modifyFile. rewrite Hf1.
    rewrite (marked_files h f o b). reflexivity.
  - rewrite (MockFile_download_spec _ f _ b' Hf2 Hb2).
    cbn [File.mockQueues File.set_contents File.contents].
    rewrite Hqd, Hm2. reflexivity.
  - rewrite (MockFile_getMetadata_spec _ f _ b' Hf2 Hb2).
    cbn [File.mockQueues File.set_contents File.metadata].
    rewrite Hqg, Hm2. reflexivity.
Qed.

Lemma write_stream_then_read_witness :
  exists h1 h2,
    MockFile_createWriteStream 1 demo_absent = (Return tt, h1) /\
    MockFile_download 1 None h1 = (Return (CBuffer []), h1) /\
    MockFile_on_finish 1 CFalse h1 = (Return tt, h2) /\
    MockFile_download 1 None h2 = (Return CFalse, h2).
Proof.
  destruct (write_stream_then_read demo_absent 1
              (fresh_file 0 0 "non-existent-file.txt")
              (Bucket.mk "test-bucket" 0 [("test-file.txt", VFile 0)] None)
              CFalse)
    as (h1 & h2 & H1 & H2 & H3 & H4 & _); try reflexivity.
  exists h1, h2. repeat split; assumption.
Defined.

(** X5: a call of [exists], [getSignedUrl], [getMetadata], or of
    [download] with no destination, that returns has changed nothing:
    the store is the one before the call; so it is for
    [createReadStream] and for [getFiles], however they end. *)
Theorem reads_change_nothing (h : Heap.t) :
  (forall f c r h', read_only c = true ->
     run f c h = (Return r, h') -> h' = h) /\
  (forall f r h', MockFile_createReadStream f h = (r, h') -> h' = h) /\
  (forall b query r h', MockBucket_getFiles b query h = (r, h') -> h' = h).
Proof.
  split; [|split].
  - intros f c r h' Hro Hrun. rewrite run_unfold in Hrun.
    apply bind_return_inv in Hrun as (u & h1 & Hc & Hb).
    apply mockValue_check_return_inv in Hc as [-> _].
    destruct c as [| |[[[p|]]|]| | | |]; simpl in Hro; try discriminate;
      unfold body in Hb; unfold_M;
      try (rewrite Hro in Hb); crush_M.
  - intros f r h'. unfold MockFile_createReadStream. unfold_M. intros H.
    crush_M.
  - intros b query r h'. unfold MockBucket_getFiles. unfold_M. intros H.
    crush_M.
Qed.

Lemma reads_change_nothing_witness :
  snd (run 0 call_getMetadata demo_copy_source) = demo_copy_source.
Proof.
  eapply (proj1 (reads_change_nothing demo_copy_source) 0 call_getMetadata).
  - reflexivity.
  - vm_compute. reflexivity.
Defined.

(** X6: [download] with a destination, on a member that holds bytes and
    has nothing queued, when the file system does not refuse the path,
    returns the contents and writes them to that path: reading the path
    gives them back, and the objects of the store are untouched. *)
Theorem download_writes_destination (h : Heap.t) (f : fref) (o : File.t)
  (b : Bucket.t) (path : string) (bytes : Buffer) :
  Heap.files h !! f = Some o ->
  Heap.buckets h !! File.bucket o = Some b ->
  is_member h f = true ->
  Queues.get m_download (File.mockQueues o) = [] ->
  path <> ""%string ->
  File.contents o = CBuffer bytes ->
  Obj.get path (Heap.refused h) = None ->
  exists h',
    MockFile_download f (Some {| dl_destination := Some path |}) h =
    (Return (CBuffer bytes), h') /\
    readFileSync path h' = (Return bytes, h') /\
    Heap.files h' = Heap.files h /\
    Heap.buckets h' = Heap.buckets h /\
    Heap.storages h' = Heap.storages h.
Proof.
  intros Hf Hb Hm Hq Hp Hc Hr.
  exists (Heap.set_disk (Obj.set path bytes (Heap.disk h)) h).
  split; [|split; [|auto]].
  - unfold MockFile_download, bind at 1.
    rewrite (mockValue_check_nil h f o _ Hf Hq).
    unfold download_body, bind at 1.
    rewrite (mustBeExists_spec h f o b Hf Hb), Hm.
    unfold bind, getFile. rewrite Hf.
    apply String.eqb_neq in Hp. rewrite Hp. cbn [negb when].
    unfold writeFileSync. rewrite Hc, Hr. reflexivity.
  - unfold readFileSync. cbn [Heap.disk Heap.set_disk].
    rewrite get_set_eq. reflexivity.
Qed.

Lemma download_writes_destination_witness :
  exists h',
    MockFile_download 0 (Some {| dl_destination := Some "out.txt" |}) demo_file =
    (Return (CBuffer []), h') /\
    readFileSync "out.txt" h' = (Return [], h').
Proof.
  destruct (download_writes_destination demo_file 0
              (fresh_file 0 0 "test-file.txt")
              (Bucket.mk "test-bucket" 0 [("test-file.txt", VFile 0)] None)
              "out.txt" [])
    as (h' & H1 & H2 & _); try reflexivity; try discriminate.
  exists h'. split; assumption.
Defined.
(** ** The queues of errors *)

Lemma Queues_get_empty m : Queues.get m Queues.empty = [].
Proof. destruct m; reflexivity. Qed.

(** X7: [mockReset(m)] returns the file itself and empties the queue of
    [m] and nothing else: whatever was queued, the next call of [m] runs
    the method itself, the queues of the other methods, the contents and
    the metadata are those before, and so is the rest of the store.
    [mockReset()] empties the seven queues: every next call runs the
    method itself. *)
Theorem mockReset_clears (h : Heap.t) (f : fref) (o : File.t) :
  Heap.files h !! f = Some o ->
  (forall m, exists q,
      mockReset f (Some m) h =
      (Return f,
       Heap.set_files (<[f := File.set_mockQueues q o]> (Heap.files h)) h) /\
      Queues.get m q = [] /\
      (forall m', m' <> m -> Queues.get m' q = Queues.get m' (File.mockQueues o)) /\
      forall c, method_of c = m ->
        run f c (snd (mockReset f (Some m) h)) =
        body f c (snd (mockReset f (Some m) h))) /\
  (exists q,
      mockReset f None h =
      (Return f,
       Heap.set_files (<[f := File.set_mockQueues q o]> (Heap.files h)) h) /\
      (forall m, Queues.get m q = []) /\
      forall c, run f c (snd (mockReset f None h)) =
                body f c (snd (mockReset f None h))).
Proof.
  intros Hf.
  assert (f < length (Heap.files h)) as Hlt by (eapply lookup_lt_Some; eauto).
  split.
  - intros m. exists (Queues.set m [] (File.mockQueues o)).
    assert (mockReset f (Some m) h =
            (Return f,
             Heap.set_files
               (<[f := File.set_mockQueues
                         (Queues.set m [] (File.mockQueues o)) o]>
                  (Heap.files h)) h)) as E
        by (unfold mockReset, bind, modifyFile; rewrite Hf; reflexivity).
    split; [exact E|]. split; [apply Queues_get_set_eq|]. split.
    + intros m' Hne. apply Queues_get_set_ne. congruence.
    + intros c <-. rewrite E. cbn [snd]. eapply run_normal.
      * cbn [Heap.files Heap.set_files]. apply list_lookup_insert_eq. exact Hlt.
      * cbn [File.mockQueues File.set_mockQueues]. apply Queues_get_set_eq.
  - exists Queues.empty.
    assert (mockReset f None h =
            (Return f,
             Heap.set_files
               (<[f := File.set_mockQueues Queues.empty o]> (Heap.files h)) h))
      as E by (unfold mockReset, bind, modifyFile; rewrite Hf; reflexivity).
    split; [exact E|]. split; [apply Queues_get_empty|].
    intros c. rewrite E. cbn [snd]. eapply run_normal.
    + cbn [Heap.files Heap.set_files]. apply list_lookup_insert_eq. exact Hlt.
    + cbn [File.mockQueues File.set_mockQueues]. apply Queues_get_empty.
Qed.

Lemma mockReset_clears_witness :
  run 0 (call_save (DString "x") None)
    (snd (mockReset 0 (Some m_save) demo_pending)) =
  body 0 (call_save (DString "x") None)
    (snd (mockReset 0 (Some m_save) demo_pending)).
Proof.
  destruct (mockReset_clears demo_pending 0
              (enq_file m_save (MkError "Failed to save")
                 (fresh_file 0 0 "test-file.txt")) eq_refl) as [H _].
  destruct (H m_save) as (q & _ & _ & _ & Hrun).
  exact (Hrun (call_save (DString "x") None) eq_refl).
Defined.

Section EnqueueOther.
Variables (f : fref) (op : Method) (e : Error).

Lemma sim_modifyFile_other g G :
  g <> f -> sim f op e (modifyFile g G) (modifyFile g G).
Proof.
  intros E h. unfold modifyFile. rewrite enq_lookup.
  apply Nat.eqb_neq in E as E'. rewrite E'. apply Nat.eqb_neq in E'.
  destruct (Heap.files h !! g) as [o|] eqn:Hg; simpl; [|reflexivity].
  f_equal. destruct (Heap.files h !! f) as [o'|] eqn:Hf.
  - rewrite (enq_Some _ _ _ _ _ Hf).
    erewrite enq_Some
      by (simpl; rewrite list_lookup_insert_ne by congruence; exact Hf).
    simpl. rewrite list_insert_insert_ne by congruence. reflexivity.
  - rewrite (enq_None _ _ _ _ Hf). rewrite enq_None; [reflexivity|].
    simpl. rewrite list_lookup_insert_ne by congruence. exact Hf.
Qed.

Lemma sim_mockValue_check_other g m' :
  g <> f -> sim f op e (mockValue_check g m') (mockValue_check g m').
Proof.
  intros Hne. unfold mockValue_check, shift.
  apply sim_bind; [|intros [[x]|]; sim_step].
  apply sim_getFile. intros o.
  apply Nat.eqb_neq in Hne as E. rewrite E.
  destruct (Queues.get m' (File.mockQueues o)); [sim_step|].
  apply sim_bind; [|intros ?; sim_step].
  apply sim_modifyFile_other. exact Hne.
Qed.

End EnqueueOther.

(** X8: the errors queued on a file are those of that object alone: a
    call of any of the seven methods on another object, be it a second
    handle of the same name in the same bucket, ends as it would have
    without the [mockErrorOnce] on the first, and leaves the same
    store. *)
Theorem mockErrorOnce_is_per_object (f g : fref) (op : Method) (e : Error)
  (c : Call) (h : Heap.t) :
  g <> f ->
  run g c (snd (mockErrorOnce f op e h)) =
  (fst (run g c h), snd (mockErrorOnce f op e (snd (run g c h)))).
Proof.
  intros Hne. change (run g c (enq f op e h) =
                      (fst (run g c h), enq f op e (snd (run g c h)))).
  rewrite !run_unfold.
  apply (sim_bind f op e (mockValue_check g (method_of c))
           (mockValue_check g (method_of c)) (fun _ => body g c)
           (fun _ => body g c)).
  - apply sim_mockValue_check_other. exact Hne.
  - intros _. apply sim_body.
Qed.

Lemma mockErrorOnce_is_per_object_witness :
  fst (run 1 (call_save (DString "x") None)
         (snd (mockErrorOnce 0 m_save (MkError "Failed to save") demo_absent))) =
  Return r_save.
Proof.
  rewrite (mockErrorOnce_is_per_object 0 1 m_save (MkError "Failed to save")
             (call_save (DString "x") None) demo_absent); [reflexivity|lia].
Defined.


(** ** Two handles of one name *)

(** A new file object makes nothing falsy of what the records read. *)
Lemma inherited_alloc_mono h h' b k o :
  Heap.files h' = Heap.files h ++ [o] ->
  defined_truthy (inherited h b k) = true ->
  defined_truthy (inherited h' b k) = true.
Proof.
  intros Hfiles. unfold inherited. rewrite Hfiles.
  destruct (Bucket.files_proto b) as [p|]; [|auto].
  destruct (Heap.files h !! p) as [po|] eqn:Hpo.
  - rewrite (lookup_app_l_Some _ _ _ _ Hpo). auto.
  - destruct ((Heap.files h ++ [o]) !! p) as [po'|]; [|auto].
    unfold file_get, object_prototype_get.
    destruct (String.eqb k "name") eqn:E1;
      [apply String.eqb_eq in E1; subst k; discriminate|].
    destruct (String.eqb k "bucket"); [reflexivity|].
    destruct (String.eqb k "parent"); [reflexivity|].
    destruct (String.eqb k "storage"); [reflexivity|].
    destruct (String.eqb k "contents") eqn:E2;
      [apply String.eqb_eq in E2; subst k; discriminate|].
    destruct (String.eqb k "metadata") eqn:E3;
      [apply String.eqb_eq in E3; subst k; discriminate|].
    destruct (String.eqb k "mockQueues"); [reflexivity|].
    destruct (in_names k MockFile_prototype_names); [reflexivity|auto].
Qed.

Lemma constructed_member_mono h bk bo n g :
  Heap.files h !! g <> None ->
  is_member h g = true ->
  is_member (constructed h bk bo n) g = true.
Proof.
  intros Hg. unfold is_member, constructed.
  cbn [Heap.files Heap.buckets Heap.set_files].
  destruct (Heap.files h !! g) as [o|] eqn:E; [|congruence].
  rewrite (lookup_app_l_Some _ _ _ _ E).
  destruct (Heap.buckets h !! File.bucket o) as [b|]; [|auto].
  unfold files_get. destruct (Obj.get (File.name o) (Bucket.files b)); [auto|].
  apply (inherited_alloc_mono h _ b _ (fresh_file bk (Bucket.storage bo) n)).
  reflexivity.
Qed.

(** A truthy entry more in a record makes nothing falsy. *)
Lemma files_get_set_mono h b k v k' :
  value_truthy v = true ->
  defined_truthy (files_get h b k') = true ->
  defined_truthy
    (files_get h (Bucket.set_files (Obj.set k v (Bucket.files b)) b) k') = true.
Proof.
  intros Hv. unfold files_get. cbn [Bucket.files Bucket.set_files].
  rewrite get_set. destruct (String.eqb k' k); [intros _; exact Hv|].
  destruct (Obj.get k' (Bucket.files b)); [auto|].
  unfold inherited. cbn [Bucket.files_proto Bucket.set_files]. auto.
Qed.

Lemma marked_member_mono h f o b g :
  Heap.files h !! f = Some o ->
  Heap.buckets h !! File.bucket o = Some b ->
  is_member h g = true -> is_member (marked h f o b) g = true.
Proof.
  intros Hf Hb Hg. destruct (is_member h f) eqn:Hm.
  - unfold marked. rewrite Hm. exact Hg.
  - rewrite (marked_assign h f o b Hf Hb Hm).
    clear Hm. unfold is_member in *.
    cbn [Heap.files Heap.buckets Heap.set_buckets].
    destruct (Heap.files h !! g) as [og|]; [|discriminate].
    destruct (decide (File.bucket og = File.bucket o)) as [E|E].
    + rewrite E in Hg |- *. rewrite Hb in Hg.
      rewrite list_lookup_insert_eq by (eapply lookup_lt_Some; eauto).
      exact (files_get_set_mono h b (File.name o) (VFile f) (File.name og)
               eq_refl Hg).
    + rewrite list_lookup_insert_ne by congruence. exact Hg.
Qed.

Lemma saved_member_other h f o b bytes options g :
  Heap.files h !! f = Some o ->
  Heap.buckets h !! File.bucket o = Some b ->
  g <> f ->
  is_member h g = true -> is_member (saved h f o b bytes options) g = true.
Proof.
  intros Hf Hb Hne Hg.
  pose proof (marked_member_mono h f o b g Hf Hb Hg) as Hm.
  assert (Heap.files (marked h f o b) !! f = Some o) as Hf'
    by (rewrite marked_files; exact Hf).
  unfold is_member in *. rewrite saved_other by exact Hne.
  rewrite (marked_files h f o b) in Hm.
  destruct (Heap.files h !! g) as [og|]; [|discriminate].
  unfold saved at 1. cbn [Heap.buckets Heap.set_files].
  destruct (Heap.buckets (marked h f o b) !! File.bucket og) as [bg|];
    [|discriminate].
  eapply (files_get_truthy_update (marked h f o b) _ bg _ f o);
    [exact Hf'| |apply (saved_keeps_truthy o bytes options)|exact Hm].
  unfold saved. cbn [Heap.files Heap.set_files]. rewrite marked_files.
  reflexivity.
Qed.

(** X9: [save] on a handle that is not the member of its name, as the
    one held from before a [put], writes to that object only: the bucket
    keeps the member it has, which is not touched, and [file(name)]
    still gives that member; the handle holds the bytes saved. *)
Theorem save_through_stale_handle (h : Heap.t) (f g : fref) (o : File.t)
  (b : Bucket.t) (data : Data) (options : option SaveOptions) :
  Heap.files h !! f = Some o ->
  Heap.buckets h !! File.bucket o = Some b ->
  Obj.get (File.name o) (Bucket.files b) = Some (VFile g) ->
  g <> f ->
  Queues.get m_save (File.mockQueues o) = [] ->
  exists h',
    MockFile_save f data options h = (Return tt, h') /\
    contents_of h' f = Some (CBuffer (to_buffer data)) /\
    Heap.buckets h' = Heap.buckets h /\
    Heap.files h' !! g = Heap.files h !! g /\
    MockBucket_file (File.bucket o) (File.name o) false h' =
    (Return (VFile g), h').
Proof.
  intros Hf Hb Hg Hne Hq. exists (saved h f o b (to_buffer data) options).
  assert (is_member h f = true) as Hm.
  { rewrite (is_member_eq h f o b Hf Hb).
    rewrite (files_get_own h b _ _ Hg). reflexivity. }
  assert (Heap.buckets (saved h f o b (to_buffer data) options) =
          Heap.buckets h) as Hbs.
  { unfold saved, marked. rewrite Hm. reflexivity. }
  split; [apply MockFile_save_spec; assumption|].
  split; [|split; [exact Hbs|split]].
  - unfold contents_of. rewrite (saved_lookup h f o b _ options Hf).
    reflexivity.
  - apply saved_other. exact Hne.
  - apply (MockBucket_file_member _ _ b); [|apply files_get_own; exact Hg].
    rewrite Hbs. exact Hb.
Qed.

Lemma save_through_stale_handle_witness :
  exists h',
    MockFile_save 0 (DString "late") None
      (snd (MockBucket_put 0 "test-file.txt" (Some (DString "new")) None
              demo_file)) = (Return tt, h') /\
    contents_of h' 0 = Some (CBuffer (to_buffer (DString "late"))) /\
    contents_of h' 1 = Some (CBuffer (to_buffer (DString "new"))).
Proof.
  destruct (save_through_stale_handle
              (snd (MockBucket_put 0 "test-file.txt" (Some (DString "new")) None
                      demo_file))
              0 1 (fresh_file 0 0 "test-file.txt")
              (Bucket.mk "test-bucket" 0 [("test-file.txt", VFile 1)] None)
              (DString "late") None)
    as (h' & H1 & H2 & _ & H3 & _); try reflexivity; try lia.
  exists h'. split; [exact H1|]. split; [exact H2|].
  unfold contents_of. rewrite H3. reflexivity.
Defined.

(** ** copy and its source *)

Lemma MockFile_download_return_member f h r h' :
  MockFile_download f None h = (Return r, h') ->
  exists o, Heap.files h !! f = Some o /\ is_member h f = true.
Proof.
  unfold MockFile_download. intros H.
  apply bind_return_inv in H as (u & h1 & Hc & H).
  apply mockValue_check_return_inv in Hc as (-> & o & Hf & _).
  exists o. split; [exact Hf|].
  unfold download_body in H.
  apply bind_return_inv in H as (u' & h1 & Hm & _).
  destruct (mustBeExists_return_inv _ _ _ _ _ Hf Hm) as [b Hb].
  rewrite (mustBeExists_spec h f o b Hf Hb) in Hm.
  destruct (is_member h f); [reflexivity|discriminate].
Qed.

Lemma MockFile_save_contents_return_inv f contents options h u h' :
  MockFile_save_contents f contents options h = (Return u, h') ->
  exists o b bytes,
    Heap.files h !! f = Some o /\
    Heap.buckets h !! File.bucket o = Some b /\
    Queues.get m_save (File.mockQueues o) = [] /\
    contents = CBuffer bytes /\
    h' = saved h f o b bytes options.
Proof.
  unfold MockFile_save_contents. intros H.
  apply bind_return_inv in H as (a & h1 & Hc & Hs).
  apply mockValue_check_return_inv in Hc as (-> & o & Hf & Hq).
  assert (exists b, Heap.buckets h !! File.bucket o = Some b) as [b Hb].
  { unfold save_body_with in Hs.
    apply bind_return_inv in Hs as (a' & h2 & Hm & _).
    eapply markAsExists_return_inv; eauto. }
  rewrite (save_body_with_spec h f o b Hf Hb) in Hs.
  destruct contents as [bytes|]; [|discriminate].
  exists o, b, bytes. repeat split; try assumption. cbn in Hs. congruence.
Qed.

(** A [copy] that returns has found its source a member and has saved
    its contents, which are bytes, to the file it returns, in the store
    as it was or with that file new. *)
Lemma MockFile_copy_return_source f destination options h g md h' :
  MockFile_copy f destination options h = (Return (g, md), h') ->
  exists o h0 contents,
    Heap.files h !! f = Some o /\
    is_member h f = true /\
    Heap.files h0 !! f = Some o /\
    is_member h0 f = true /\
    contents_of h f = Some contents /\
    (h0 = h \/ exists tb tbo tn, h0 = constructed h tb tbo tn /\
                                 g = length (Heap.files h)) /\
    MockFile_save_contents g contents (Some {| save_metadata := md |}) h0 =
    (Return tt, h').
Proof.
  unfold MockFile_copy. intros H.
  apply bind_return_inv in H as (me & h1 & Hme & H).
  assert (h1 = h) as ->.
  { unfold getFile in Hme. destruct (Heap.files h !! f); congruence. }
  apply bind_return_inv in H as (target & h2 & Ht & H).
  assert (h2 = h) as ->.
  { destruct destination; unfold ret, throw, bind, getFile in Ht;
      try congruence.
    destruct (Heap.files h !! f0); congruence. }
  apply bind_return_inv in H as (contents & h3 & Hd & H).
  pose proof (MockFile_download_return _ _ _ _ Hd) as (-> & Hc).
  apply MockFile_download_return_member in Hd as (o & Hf & Hm).
  apply bind_return_inv in H as (md0 & h4 & Hg & H).
  apply MockFile_getMetadata_return in Hg as ->.
  destruct (fst target) as [tb|]; [|discriminate].
  apply bind_return_inv in H as (found & h5 & Hn & H).
  apply MockBucket_file_inv in Hn as (v & [= <-] & Hn); [|discriminate].
  apply bind_return_inv in H as (newFile & h6 & Ha & H).
  apply as_file_inv in Ha as (-> & Hv & _). specialize (Hv _ eq_refl).
  apply bind_return_inv in H as (u & h7 & Hs & H).
  unfold ret in H. injection H as <- <- <-.
  exists o, h5, contents. destruct u.
  destruct Hn as [->|(bo & -> & Hnew)]; repeat split; auto.
  - apply constructed_lookup_old. exact Hf.
  - apply constructed_member_mono; [congruence|exact Hm].
  - right. exists tb, bo, (snd target). split; [reflexivity|].
    rewrite Hnew in Hv. congruence.
Qed.

(** X10: a [copy] that returns a file other than its source has left
    the source as it was: the object is unchanged, contents, metadata
    and queues, and it is still a member. *)
Theorem copy_keeps_source (h : Heap.t) (f : fref) (destination : Destination)
  (options : option CopyOptions) (g : fref) (md : JsVal) (h' : Heap.t) :
  MockFile_copy f destination options h = (Return (g, md), h') ->
  g <> f ->
  Heap.files h' !! f = Heap.files h !! f /\ is_member h' f = true.
Proof.
  intros Hc Hne.
  apply MockFile_copy_return_source in Hc
    as (o & h0 & contents & Hf & Hm & Hf0 & Hm0 & _ & _ & Hs).
  apply MockFile_save_contents_return_inv in Hs
    as (og & bg & bytes & Hg & Hbg & _ & _ & ->).
  split.
  - rewrite saved_other by congruence. congruence.
  - apply saved_member_other; auto.
Qed.

Lemma copy_keeps_source_witness :
  Heap.files (snd (MockFile_copy 0 (DestString "copy.txt") None demo_copy_source))
    !! 0 = Heap.files demo_copy_source !! 0.
Proof.
  apply (copy_keeps_source demo_copy_source 0 (DestString "copy.txt") None 1
           (JObj [("metadata", JObj []); ("foo", JStr "bar")])
           (snd (MockFile_copy 0 (DestString "copy.txt") None demo_copy_source))).
  - vm_compute. reflexivity.
  - lia.
Defined.

(** ** The place of a name in the listing *)

Lemma keys_set_member {V} (o : Obj.t V) k v v' :
  Obj.get k o = Some v' -> Obj.keys (Obj.set k v o) = Obj.keys o.
Proof.
  intros Hg. unfold Obj.set. rewrite (has_get_Some _ _ _ Hg). apply keys_update.
Qed.

(** X11: [put] under a name that is a member replaces the member and
    keeps the place of the name: the names of the bucket, in the order
    in which they are listed, are those before; the name now gives the
    new file, every other name the file it gave; and no object that was
    there is touched, the replaced one included. *)
Theorem put_keeps_place (h : Heap.t) (bk : bref) (bo : Bucket.t) (n : string)
  (old : Value) (contents : option Data) (metadata : option JsVal) :
  Heap.buckets h !! bk = Some bo ->
  Obj.get n (Bucket.files bo) = Some old ->
  exists new h' bo',
    MockBucket_put bk n contents metadata h = (Return (VFile new), h') /\
    Heap.files h !! new = None /\
    Heap.buckets h' !! bk = Some bo' /\
    Obj.keys (Bucket.files bo') = Obj.keys (Bucket.files bo) /\
    Obj.get n (Bucket.files bo') = Some (VFile new) /\
    (forall n', n' <> n ->
       Obj.get n' (Bucket.files bo') = Obj.get n' (Bucket.files bo)) /\
    (forall g o, Heap.files h !! g = Some o -> Heap.files h' !! g = Some o).
Proof.
  intros Hbk Hold.
  exists (length (Heap.files h)),
    (put_state h bk bo n (put_contents contents) (put_metadata metadata)),
    (Bucket.set_files
       (Obj.set n (VFile (length (Heap.files h))) (Bucket.files bo)) bo).
  split; [apply MockBucket_put_spec; exact Hbk|].
  split; [apply lookup_ge_None_2; lia|].
  split; [|split; [|split; [|split]]].
  - unfold put_state. cbn [Heap.buckets Heap.set_buckets Heap.set_files].
    rewrite (assign_files_own bo n _ old Hold).
    apply list_lookup_insert_eq. eapply lookup_lt_Some; eauto.
  - cbn [Bucket.files Bucket.set_files]. eapply keys_set_member; eauto.
  - cbn [Bucket.files Bucket.set_files]. apply get_set_eq.
  - intros n' Hne. cbn [Bucket.files Bucket.set_files]. apply get_set_ne.
    congruence.
  - intros g o Hg. unfold put_state.
    cbn [Heap.files Heap.set_buckets Heap.set_files].
    apply lookup_app_l_Some. exact Hg.
Qed.

Lemma put_keeps_place_witness :
  exists new h' bo',
    MockBucket_put 0 "test-file.txt" (Some (DString "new")) None demo_file =
    (Return (VFile new), h') /\
    Heap.files demo_file !! new = None /\
    Heap.buckets h' !! 0 = Some bo' /\
    Obj.keys (Bucket.files bo') = ["test-file.txt"].
Proof.
  destruct (put_keeps_place demo_file 0
              (Bucket.mk "test-bucket" 0 [("test-file.txt", VFile 0)] None)
              "test-file.txt" (VFile 0) (Some (DString "new")) None
              eq_refl eq_refl)
    as (new & h' & bo' & H1 & H2 & H3 & H4 & _).
  exists new, h', bo'. repeat split; assumption.
Defined.

Lemma get_remove_same {V} (o : Obj.t V) k : Obj.get k (Obj.remove k o) = None.
Proof.
  pose proof (has_remove_eq o k) as H. unfold Obj.has in H.
  destruct (Obj.get k (Obj.remove k o)); [discriminate|reflexivity].
Qed.

(** X12: a member that is deleted and saved again through the same
    handle is a member again, and its name, unless it is an array index
    or a name under which the record inherits something truthy, has gone
    to the end of the listing; the object has kept what [save] does not
    set: the metadata, when the options give none. *)
Theorem delete_then_save_moves_last (h : Heap.t) (f : fref) (o : File.t)
  (b : Bucket.t) (data : Data) :
  Heap.files h !! f = Some o ->
  Heap.buckets h !! File.bucket o = Some b ->
  is_member h f = true ->
  Obj.array_index (File.name o) = None ->
  inherits h b (File.name o) = false ->
  Queues.get m_delete (File.mockQueues o) = [] ->
  Queues.get m_save (File.mockQueues o) = [] ->
  exists r h1 h2 b2,
    MockFile_delete f h = (Return r, h1) /\
    MockFile_save f data None h1 = (Return tt, h2) /\
    Heap.buckets h2 !! File.bucket o = Some b2 /\
    Bucket.files b2 =
    Obj.remove (File.name o) (Bucket.files b) ++ [(File.name o, VFile f)] /\
    Heap.files h2 !! f =
    Some (File.set_contents (CBuffer (to_buffer data)) o).
Proof.
  intros Hf Hb Hm Hi Hinh Hqd Hqs.
  assert (File.bucket o < length (Heap.buckets h)) as Hlt
      by (eapply lookup_lt_Some; eauto).
  set (b1 := Bucket.set_files (Obj.remove (File.name o) (Bucket.files b)) b).
  assert (Heap.files (deleted h o b) !! f = Some o) as Hf1 by exact Hf.
  assert (Heap.buckets (deleted h o b) !! File.bucket o = Some b1) as Hb1.
  { unfold deleted. cbn [Heap.buckets Heap.set_buckets].
    apply list_lookup_insert_eq. exact Hlt. }
  exists (JObj Obj.empty), (deleted h o b),
    (saved (deleted h o b) f o b1 (to_buffer data) None),
    (Bucket.set_files (Obj.set (File.name o) (VFile f) (Bucket.files b1)) b1).
  assert (is_member (deleted h o b) f = false) as Hm1
    by (rewrite (deleted_member h f o b Hf Hb); exact Hinh).
  split; [apply MockFile_delete_present; assumption|].
  split; [apply MockFile_save_spec; assumption|].
  split; [|split].
  - unfold saved. rewrite (marked_assign _ f o b1 Hf1 Hb1 Hm1).
    cbn [Heap.buckets Heap.set_buckets Heap.set_files].
    apply list_lookup_insert_eq. unfold deleted.
    cbn [Heap.buckets Heap.set_buckets]. rewrite length_insert. exact Hlt.
  - unfold b1. cbn [Bucket.files Bucket.set_files].
    apply set_new_last; [apply get_remove_same|exact Hi].
  - rewrite (saved_lookup _ f o b1 _ None Hf1). destruct o; reflexivity.
Qed.

Lemma delete_then_save_moves_last_witness :
  exists r h1 h2 b2,
    MockFile_delete 0 demo_absent = (Return r, h1) /\
    MockFile_save 0 (DString "again") None h1 = (Return tt, h2) /\
    Heap.buckets h2 !! 0 = Some b2 /\
    Bucket.files b2 = [("test-file.txt", VFile 0)].
Proof.
  destruct (delete_then_save_moves_last demo_absent 0
              (fresh_file 0 0 "test-file.txt")
              (Bucket.mk "test-bucket" 0 [("test-file.txt", VFile 0)] None)
              (DString "again"))
    as (r & h1 & h2 & b2 & H1 & H2 & H3 & H4 & _); try reflexivity.
  exists r, h1, h2, b2. repeat split; assumption.
Defined.

(** X13: [delete] takes the name out of the bucket and leaves the
    object as it is: through the handle, a write stream that is opened
    makes the file a member again with the contents and the metadata it
    had when it was deleted. *)
Theorem delete_keeps_the_object (h : Heap.t) (f : fref) (o : File.t)
  (b : Bucket.t) :
  Heap.files h !! f = Some o ->
  Heap.buckets h !! File.bucket o = Some b ->
  is_member h f = true ->
  Queues.get m_delete (File.mockQueues o) = [] ->
  Queues.get m_download (File.mockQueues o) = [] ->
  Queues.get m_getMetadata (File.mockQueues o) = [] ->
  exists r h1 h2,
    MockFile_delete f h = (Return r, h1) /\
    Heap.files h1 = Heap.files h /\
    MockFile_createWriteStream f h1 = (Return tt, h2) /\
    MockFile_download f None h2 = (Return (File.contents o), h2) /\
    MockFile_getMetadata f h2 = (Return (File.metadata o, JObj Obj.empty), h2).
Proof.
  intros Hf Hb Hm Hqd Hqr Hqg.
  assert (File.bucket o < length (Heap.buckets h)) as Hlt
      by (eapply lookup_lt_Some; eauto).
  set (b1 := Bucket.set_files (Obj.remove (File.name o) (Bucket.files b)) b).
  assert (Heap.files (deleted h o b) !! f = Some o) as Hf1 by exact Hf.
  assert (Heap.buckets (deleted h o b) !! File.bucket o = Some b1) as Hb1.
  { unfold deleted. cbn [Heap.buckets Heap.set_buckets].
    apply list_lookup_insert_eq. exact Hlt. }
  destruct (marked_bucket _ f o b1 Hf1 Hb1) as [b2 Hb2].
  assert (Heap.files (marked (deleted h o b) f o b1) !! f = Some o) as Hf2
      by (rewrite marked_files; exact Hf1).
  exists (JObj Obj.empty), (deleted h o b), (marked (deleted h o b) f o b1).
  split; [apply MockFile_delete_present; assumption|].
  split; [reflexivity|].
  split; [apply markAsExists_spec; assumption|].
  split.
  - rewrite (MockFile_download_spec _ f o b2 Hf2 Hb2), Hqr.
    rewrite (marked_member _ f o b1 Hf1 Hb1). reflexivity.
  - rewrite (MockFile_getMetadata_spec _ f o b2 Hf2 Hb2), Hqg.
    rewrite (marked_member _ f o b1 Hf1 Hb1). reflexivity.
Qed.

Lemma delete_keeps_the_object_witness :
  exists r h1 h2,
    MockFile_delete 0 demo_copy_source = (Return r, h1) /\
    Heap.files h1 = Heap.files demo_copy_source /\
    MockFile_createWriteStream 0 h1 = (Return tt, h2) /\
    MockFile_download 0 None h2 =
    (Return (CBuffer (list_byte_of_string "test file contents")), h2).
Proof.
  destruct (delete_keeps_the_object demo_copy_source 0
              (File.mk "test-file.txt" 0 0 0
                 (JObj [("metadata", JObj []); ("foo", JStr "bar")])
                 (CBuffer (list_byte_of_string "test file contents"))
                 Queues.empty)
              (Bucket.mk "test-bucket" 0 [("test-file.txt", VFile 0)] None))
    as (r & h1 & h2 & H1 & H2 & H3 & H4 & _); try reflexivity.
  exists r, h1, h2. repeat split; assumption.
Defined.

(** ** Errors of the methods themselves *)

(** X14: on a file that is not a member, with nothing queued, every
    method but [exists] and [save] fails with the same error, No such
    file: followed by the name of the bucket, a slash and the name of
    the file, and changes nothing; so do [createReadStream], and [copy]
    whatever the destination it is given resolves to. *)
Theorem absent_file_calls_fail (h : Heap.t) (f : fref) (o : File.t)
  (b : Bucket.t) :
  Heap.files h !! f = Some o ->
  Heap.buckets h !! File.bucket o = Some b ->
  is_member h f = false ->
  (forall c, needs_member c = true ->
     Queues.get (method_of c) (File.mockQueues o) = [] ->
     run f c h = (Throw (no_such_file (Bucket.name b) (File.name o)), h)) /\
  MockFile_createReadStream f h =
  (Throw (no_such_file (Bucket.name b) (File.name o)), h) /\
  (forall destination options target,
     copy_target h o destination = Some target ->
     Queues.get m_download (File.mockQueues o) = [] ->
     MockFile_copy f destination options h =
     (Throw (no_such_file (Bucket.name b) (File.name o)), h)).
Proof.
  intros Hf Hb Hm. split; [|split].
  - intros c Hc Hq. rewrite (run_normal h f o c Hf Hq).
    pose proof (mustBeExists_spec h f o b Hf Hb) as Hmust.
    rewrite Hm in Hmust.
    destruct c; try discriminate; unfold body, delete_body, download_body,
      getSignedUrl_body, setMetadata_body, getMetadata_body;
      unfold bind at 1; unfold bind at 1; rewrite Hmust; reflexivity.
  - rewrite (MockFile_createReadStream_spec h f o b Hf Hb), Hm. reflexivity.
  - intros destination options [tb tn] Ht Hq.
    rewrite (MockFile_copy_resolved h f o Hf destination options tb tn Ht).
    unfold bind at 1.
    rewrite (MockFile_download_spec h f o b Hf Hb), Hq, Hm. reflexivity.
Qed.

Lemma absent_file_calls_fail_witness :
  run 1 call_getSignedUrl demo_absent =
  (Throw (MkError "No such file: test-bucket/non-existent-file.txt"),
   demo_absent).
Proof.
  destruct (absent_file_calls_fail demo_absent 1
              (fresh_file 0 0 "non-existent-file.txt")
              (Bucket.mk "test-bucket" 0 [("test-file.txt", VFile 0)] None)
              eq_refl eq_refl eq_refl) as [H _].
  apply (H call_getSignedUrl eq_refl eq_refl).
Defined.

(** X15: [setMetadata] on a member with nothing queued fails exactly
    when its argument is [undefined] or [null], with a TypeError and
    without changing anything; for every other argument it returns the
    metadata it has stored, which is an object, so that a later call is
    in the same case. *)
Theorem setMetadata_fails_on_nullish_only (h : Heap.t) (f : fref) (o : File.t)
  (b : Bucket.t) (md : JsVal) :
  Heap.files h !! f = Some o ->
  Heap.buckets h !! File.bucket o = Some b ->
  is_member h f = true ->
  Queues.get m_setMetadata (File.mockQueues o) = [] ->
  nullish (File.metadata o) = false ->
  if nullish md
  then exists msg, MockFile_setMetadata f md h = (Throw (TypeError msg), h)
  else exists props h',
      MockFile_setMetadata f md h = (Return (JObj props), h') /\
      metadata_of h' f = Some (JObj props) /\
      contents_of h' f = Some (File.contents o) /\
      is_member h' f = true /\
      Heap.buckets h' = Heap.buckets h.
Proof.
  intros Hf Hb Hm Hq Ho.
  assert (exists old_custom, prop_metadata (File.metadata o) = inr old_custom)
    as [old_custom Hold]
      by (destruct (File.metadata o); try discriminate; simpl; eauto).
  destruct (nullish md) eqn:Hn.
  - assert (exists msg, prop_metadata md = inl (TypeError msg)) as [msg Hmsg]
        by (destruct md; try discriminate; simpl; eauto).
    exists msg. unfold MockFile_setMetadata, bind at 1.
    rewrite (mockValue_check_nil h f o _ Hf Hq).
    unfold setMetadata_body, bind at 1.
    rewrite (mustBeExists_spec h f o b Hf Hb), Hm.
    unfold bind, getFile. rewrite Hf, Hold, Hmsg. reflexivity.
  - assert (exists new_custom, prop_metadata md = inr new_custom)
      as [new_custom Hnew]
        by (destruct md; try discriminate; simpl; eauto).
    eexists _, _.
    split; [apply (MockFile_setMetadata_spec h f o b Hf Hb Hm md old_custom
                     new_custom Hq Hold Hnew)|].
    split; [|split; [|split]].
    + unfold metadata_of. rewrite (with_metadata_lookup h f o Hf). reflexivity.
    + unfold contents_of. rewrite (with_metadata_lookup h f o Hf). reflexivity.
    + apply (with_metadata_member h f o b Hf Hb Hm (JObj _) eq_refl).
    + reflexivity.
Qed.

Lemma setMetadata_fails_on_nullish_only_witness :
  exists msg,
    MockFile_setMetadata 0 JUndefined demo_file = (Throw (TypeError msg), demo_file).
Proof.
  apply (setMetadata_fails_on_nullish_only demo_file 0
           (fresh_file 0 0 "test-file.txt")
           (Bucket.mk "test-bucket" 0 [("test-file.txt", VFile 0)] None) JUndefined);
    reflexivity.
Defined.

(** ** put, then the handle *)

(** X16: after [put], [file] of the same name gives the file that [put]
    returned, with or without [forceExists]; [download] on it gives the
    contents put (nothing when none were given), [getMetadata] the
    metadata that [put] stored, and [exists] true. *)
Theorem put_then_read (h : Heap.t) (bk : bref) (bo : Bucket.t) (n : string)
  (contents : option Data) (metadata : option JsVal) :
  Heap.buckets h !! bk = Some bo ->
  exists new h',
    MockBucket_put bk n contents metadata h = (Return (VFile new), h') /\
    (forall force, MockBucket_file bk n force h' = (Return (VFile new), h')) /\
    MockFile_download new None h' =
    (Return (CBuffer (put_contents contents)), h') /\
    MockFile_createReadStream new h' =
    (Return (CBuffer (put_contents contents)), h') /\
    MockFile_getMetadata new h' =
    (Return (put_metadata metadata, JObj Obj.empty), h') /\
    MockFile_exists new h' = (Return true, h').
Proof.
  intros Hbk.
  set (c := put_contents contents). set (md := put_metadata metadata).
  set (h' := put_state h bk bo n c md).
  pose proof (put_state_file h bk bo n c md) as Hf.
  pose proof (put_state_bucket h bk bo n Hbk c md) as Hb.
  pose proof (put_state_member h bk bo n Hbk c md) as Hm.
  cbv zeta in Hf, Hb, Hm. fold h' in Hf, Hb, Hm.
  exists (length (Heap.files h)), h'.
  split; [apply MockBucket_put_spec; exact Hbk|].
  split; [|split; [|split; [|split]]].
  - intros force. eapply MockBucket_file_member; [exact Hb|].
    apply files_get_assign_file.
  - rewrite (MockFile_download_spec h' _ _ _ Hf Hb). cbn [File.mockQueues].
    rewrite Hm. reflexivity.
  - rewrite (MockFile_createReadStream_spec h' _ _ _ Hf Hb), Hm. reflexivity.
  - rewrite (MockFile_getMetadata_spec h' _ _ _ Hf Hb). cbn [File.mockQueues].
    rewrite Hm. reflexivity.
  - rewrite (MockFile_exists_spec h' _ _ _ Hf Hb eq_refl), Hm. reflexivity.
Qed.

Lemma put_then_read_witness :
  exists new h',
    MockBucket_put 0 "a.txt" (Some (DString "abc")) None demo_bucket =
    (Return (VFile new), h') /\
    MockFile_download new None h' =
    (Return (CBuffer (list_byte_of_string "abc")), h').
Proof.
  destruct (put_then_read demo_bucket 0 (Bucket.mk "test-bucket" 0 [] None)
              "a.txt" (Some (DString "abc")) None eq_refl)
    as (new & h' & H1 & _ & H2 & _).
  exists new, h'. split; assumption.
Defined.

(** ** The listing of a well-formed store *)


(** ** The listing of a well-formed store *)

Lemma NoDup_listed {V} (P : string * V -> bool) (o : Obj.t V) :
  NoDup (Obj.keys o) ->
  (forall n1 n2 g, Obj.get n1 o = Some g -> Obj.get n2 o = Some g -> n1 = n2) ->
  NoDup (map snd (List.filter P o)).
Proof.
  induction o as [|[k v] o IH]; intros Hnd Hinj; [constructor|].
  cbn [Obj.keys map fst] in Hnd. apply NoDup_cons in Hnd as [Hk Hnd'].
  assert (forall n g, (n, g) ∈ o -> Obj.get n ((k, v) :: o) = Some g) as Hin.
  { intros n g Hng. apply get_Some_elem_of.
    - cbn [Obj.keys map fst]. apply NoDup_cons. auto.
    - apply elem_of_cons. right. exact Hng. }
  assert (NoDup (map snd (List.filter P o))) as IH'.
  { apply IH; [exact Hnd'|]. intros n1 n2 g H1 H2.
    apply (get_Some_elem_of o _ _ Hnd') in H1, H2.
    apply (Hinj n1 n2 g); apply Hin; assumption. }
  cbn [List.filter]. destruct (P (k, v)); [|exact IH'].
  cbn [map snd]. apply NoDup_cons. split; [|exact IH'].
  intros Hv. apply list_elem_of_fmap in Hv as ([n g] & Hg & Hng).
  cbn [snd] in Hg. subst g.
  apply list_elem_of_In, List.filter_In in Hng as [Hng _].
  apply list_elem_of_In in Hng.
  assert (n = k) as ->.
  { apply (Hinj n k v); [apply Hin; exact Hng|].
    cbn [Obj.get]. rewrite String.eqb_refl. reflexivity. }
  apply Hk. unfold Obj.keys. apply list_elem_of_fmap.
  exists (k, v). split; [reflexivity|exact Hng].
Qed.

Lemma demo_file_wf : wf demo_file.
Proof. exact (reachable_with_files_wf _ _ demo_file_reachable). Qed.

(** X17: in a store that satisfies the invariant, [getFiles] lists no
    file twice, and every file it lists is a file of that bucket whose
    name starts with the prefix and that answers true to [exists]. *)
Theorem listed_files_exist (h : Heap.t) (bk : bref)
  (query : option GetFilesOptions) :
  wf h ->
  has_bucket bk h ->
  exists listed,
    MockBucket_getFiles bk query h =
    (Return (listed, JObj Obj.empty, JObj Obj.empty), h) /\
    NoDup listed /\
    forall v, v ∈ listed ->
      exists g og,
        v = VFile g /\
        Heap.files h !! g = Some og /\
        File.bucket og = bk /\
        String.prefix (query_prefix query) (File.name og) = true /\
        child h bk (File.name og) = Some (VFile g) /\
        (Queues.get m_exists (File.mockQueues og) = [] ->
         MockFile_exists g h = (Return true, h)).
Proof.
  intros (WF & WB & WS) [bo Hbk].
  destruct (WB bk bo Hbk) as (_ & [Hnd _] & _ & Hmem).
  eexists. split; [|split].
  - unfold MockBucket_getFiles, bind, getBucket. rewrite Hbk. reflexivity.
  - apply NoDup_listed; [exact Hnd|].
    intros n1 n2 v H1 H2.
    destruct (Hmem _ _ H1) as (g1 & o1 & -> & Ho1 & Hn1 & _).
    destruct (Hmem _ _ H2) as (g2 & o2 & [= <-] & Ho2 & Hn2 & _). congruence.
  - intros v Hv. apply (elem_of_listed _ _ _ Hnd) in Hv as (n & Hp & Hn).
    destruct (Hmem _ _ Hn) as (g & og & -> & Hog & <- & Hb).
    exists g, og. split; [reflexivity|].
    split; [exact Hog|]. split; [exact Hb|]. split; [exact Hp|].
    split.
    + unfold child. rewrite Hbk. exact Hn.
    + intros Hq. subst bk.
      rewrite (MockFile_exists_spec h g og bo Hog Hbk Hq).
      rewrite (is_member_eq h g og bo Hog Hbk).
      rewrite (files_get_own h bo _ _ Hn). reflexivity.
Qed.

Lemma listed_files_exist_witness :
  exists listed,
    MockBucket_getFiles 0 None demo_file =
    (Return (listed, JObj Obj.empty, JObj Obj.empty), demo_file) /\
    NoDup listed.
Proof.
  destruct (listed_files_exist demo_file 0 None demo_file_wf)
    as (listed & H1 & H2 & _).
  - vm_compute. eexists. reflexivity.
  - exists listed. split; assumption.
Defined.


(** ** upload *)

Section UploadFacts.
Variable basename : string -> string.
Variables (h : Heap.t) (bk : bref) (bo : Bucket.t).
Hypothesis Hbk : Heap.buckets h !! bk = Some bo.

Lemma put_state_disk n c md :
  Heap.disk (put_state h bk bo n c md) = Heap.disk h.
Proof. reflexivity. Qed.

Lemma MockBucket_upload_spec filePath options bytes :
  (forall o, options = Some o -> up_destination o <> Some UpFile) ->
  Obj.get filePath (Heap.disk h) = Some bytes ->
  let md := match options with Some o => up_metadata o | None => JUndefined end in
  MockBucket_upload basename bk filePath options h =
  (Return (VFile (length (Heap.files h)), put_metadata (Some md)),
   put_state h bk bo (upload_name basename filePath options) bytes
     (put_metadata (Some md))).
Proof using Hbk.
  intros Hd Hp md. unfold MockBucket_upload.
  assert ((match options with
           | Some {| up_destination := Some UpFile |} => throw upload_unsupported
           | _ => ret tt
           end) h = (Return tt, h)) as E.
  { destruct options as [[[[s|]|] m]|]; try reflexivity.
    exfalso. apply (Hd _ eq_refl). reflexivity. }
  unfold bind at 1. rewrite E.
  unfold bind at 1. unfold readFileSync at 1. rewrite Hp.
  unfold bind at 1.
  rewrite (MockBucket_put_spec h bk bo _ Hbk (Some (DBuffer bytes)) (Some md)).
  unfold value_metadata, bind, getFile. rewrite put_state_file. reflexivity.
Qed.

End UploadFacts.

(** X18: [upload] refuses a [File] as destination before it reads
    anything, and fails on a path that is not on the disk, the store
    being unchanged in both cases; otherwise it is [put] of the bytes
    read from the path, under the destination when that is a string
    that is not empty and under the base name of the path otherwise,
    and it returns the new file, which is what the name finds then,
    with its metadata. *)
Theorem upload_contract (basename : string -> string) (h : Heap.t) (bk : bref)
  (bo : Bucket.t) (filePath : string) (options : option UploadOptions) :
  Heap.buckets h !! bk = Some bo ->
  let md := match options with Some o => up_metadata o | None => JUndefined end in
  let name :=
    match options with
    | Some {| up_destination := Some (UpString s) |} =>
        if String.eqb s "" then basename filePath else s
    | _ => basename filePath
    end in
  match options with
  | Some {| up_destination := Some UpFile |} =>
      MockBucket_upload basename bk filePath options h =
      (Throw upload_unsupported, h)
  | _ =>
      match Obj.get filePath (Heap.disk h) with
      | None =>
          exists e, MockBucket_upload basename bk filePath options h = (Throw e, h)
      | Some bytes =>
          exists new meta h',
            MockBucket_upload basename bk filePath options h =
            (Return (VFile new, meta), h') /\
            MockBucket_put bk name (Some (DBuffer bytes)) (Some md) h =
            (Return (VFile new), h') /\
            resolved h' bk name = Some (VFile new) /\
            ((name = "__proto__" -> Obj.has name (Bucket.files bo) = true) ->
             child h' bk name = Some (VFile new)) /\
            contents_of h' new = Some (CBuffer bytes) /\
            metadata_of h' new = Some meta /\
            Heap.disk h' = Heap.disk h
      end
  end.
Proof.
  intros Hbk md name.
  assert (name = upload_name basename filePath options) as Hname by reflexivity.
  assert (forall bytes,
    (forall o, options = Some o -> up_destination o <> Some UpFile) ->
    Obj.get filePath (Heap.disk h) = Some bytes ->
    exists new meta h',
      MockBucket_upload basename bk filePath options h =
      (Return (VFile new, meta), h') /\
      MockBucket_put bk name (Some (DBuffer bytes)) (Some md) h =
      (Return (VFile new), h') /\
      resolved h' bk name = Some (VFile new) /\
      ((name = "__proto__" -> Obj.has name (Bucket.files bo) = true) ->
       child h' bk name = Some (VFile new)) /\
      contents_of h' new = Some (CBuffer bytes) /\
      metadata_of h' new = Some meta /\
      Heap.disk h' = Heap.disk h) as Hok.
  { intros bytes Hd Hp. eexists _, _, _.
    split; [rewrite Hname;
            apply (MockBucket_upload_spec basename h bk bo Hbk filePath options
                     bytes Hd Hp)|].
    split; [rewrite Hname; apply (MockBucket_put_spec h bk bo _ Hbk)|].
    split; [apply (put_state_resolved h bk bo _ Hbk)|].
    split; [apply (put_state_child h bk bo _ Hbk)|].
    split; [|split; [|reflexivity]].
    - unfold contents_of. rewrite put_state_file. reflexivity.
    - unfold metadata_of. rewrite put_state_file. reflexivity. }
  assert ((forall o, options = Some o -> up_destination o <> Some UpFile) ->
          Obj.get filePath (Heap.disk h) = None ->
          exists e,
            MockBucket_upload basename bk filePath options h = (Throw e, h))
    as Hmissing.
  { intros Hd Hp. eexists. unfold MockBucket_upload.
    assert ((match options with
             | Some {| up_destination := Some UpFile |} => throw upload_unsupported
             | _ => ret tt
             end) h = (Return tt, h)) as E.
    { destruct options as [[[[s|]|] m]|]; try reflexivity.
      exfalso. apply (Hd _ eq_refl). reflexivity. }
    unfold bind at 1. rewrite E.
    unfold bind at 1. unfold readFileSync at 1. rewrite Hp. reflexivity. }
  destruct options as [[[[s|]|] m]|]; try reflexivity;
    (destruct (Obj.get filePath (Heap.disk h)) as [bytes|] eqn:Hp;
     [apply Hok|apply Hmissing]; try reflexivity;
     intros o [= <-]; discriminate).
Qed.

Lemma upload_contract_witness :
  MockBucket_upload (fun s => s) 0 "in.txt"
    (Some {| up_destination := Some UpFile; up_metadata := JUndefined |})
    demo_bucket = (Throw upload_unsupported, demo_bucket).
Proof.
  apply (upload_contract (fun s => s) demo_bucket 0
           (Bucket.mk "test-bucket" 0 [] None) "in.txt"
           (Some {| up_destination := Some UpFile; up_metadata := JUndefined |})
           eq_refl).
Defined.

(** X19: what [download] writes to a destination, [upload] of that path
    brings back, when the file downloaded holds bytes and the file
    system does not refuse the path: the file uploaded, in whatever
    bucket and under whatever name, holds the contents of the file
    downloaded, which is left as it was. *)
Theorem download_then_upload (basename : string -> string) (h : Heap.t)
  (f : fref) (o : File.t) (b : Bucket.t) (path : string) (bk : bref)
  (bo : Bucket.t) (name : string) (md : JsVal) (bytes : Buffer) :
  Heap.files h !! f = Some o ->
  Heap.buckets h !! File.bucket o = Some b ->
  is_member h f = true ->
  Queues.get m_download (File.mockQueues o) = [] ->
  path <> ""%string ->
  name <> ""%string ->
  Heap.buckets h !! bk = Some bo ->
  File.contents o = CBuffer bytes ->
  Obj.get path (Heap.refused h) = None ->
  exists h1 new meta h2,
    MockFile_download f (Some {| dl_destination := Some path |}) h =
    (Return (CBuffer bytes), h1) /\
    MockBucket_upload basename bk path
      (Some {| up_destination := Some (UpString name); up_metadata := md |}) h1 =
    (Return (VFile new, meta), h2) /\
    new <> f /\
    resolved h2 bk name = Some (VFile new) /\
    MockFile_download new None h2 = (Return (CBuffer bytes), h2) /\
    Heap.files h2 !! f = Some o.
Proof.
  intros Hf Hb Hm Hq Hp Hn Hbk Hc Hr.
  set (h1 := Heap.set_disk (Obj.set path bytes (Heap.disk h)) h).
  assert (MockFile_download f (Some {| dl_destination := Some path |}) h =
          (Return (CBuffer bytes), h1)) as Hdl.
  { unfold MockFile_download, bind at 1.
    rewrite (mockValue_check_nil h f o _ Hf Hq).
    unfold download_body, bind at 1.
    rewrite (mustBeExists_spec h f o b Hf Hb), Hm.
    unfold bind, getFile. rewrite Hf.
    apply String.eqb_neq in Hp. rewrite Hp. cbn [negb when].
    unfold writeFileSync. rewrite Hc, Hr. reflexivity. }
  assert (Heap.buckets h1 !! bk = Some bo) as Hbk1 by exact Hbk.
  assert (Obj.get path (Heap.disk h1) = Some bytes) as Hdisk
      by (apply get_set_eq).
  set (options := Some {| up_destination := Some (UpString name);
                          up_metadata := md |}).
  assert (upload_name basename path options = name) as Hname.
  { unfold upload_name, options. apply String.eqb_neq in Hn. rewrite Hn.
    reflexivity. }
  set (meta := put_metadata (Some md)).
  set (h2 := put_state h1 bk bo name bytes meta).
  pose proof (put_state_file h1 bk bo name bytes meta) as Hf2.
  pose proof (put_state_bucket h1 bk bo name Hbk1 bytes meta) as Hb2.
  pose proof (put_state_member h1 bk bo name Hbk1 bytes meta) as Hm2.
  cbv zeta in Hf2, Hb2, Hm2. fold h2 in Hf2, Hb2, Hm2.
  exists h1, (length (Heap.files h)), meta, h2.
  split; [exact Hdl|]. split; [|split; [|split; [|split]]].
  - unfold h2. rewrite <- Hname.
    apply (MockBucket_upload_spec basename h1 bk bo Hbk1 path options
             bytes); [|exact Hdisk].
    intros o' [= <-]. discriminate.
  - apply lookup_lt_Some in Hf. lia.
  - apply (put_state_resolved h1 bk bo name Hbk1).
  - change (length (Heap.files h)) with (length (Heap.files h1)).
    rewrite (MockFile_download_spec h2 _ _ _ Hf2 Hb2). cbn [File.mockQueues].
    rewrite Hm2. reflexivity.
  - unfold h2, put_state. cbn [Heap.files Heap.set_buckets Heap.set_files].
    apply lookup_app_l_Some. exact Hf.
Qed.

Lemma download_then_upload_witness :
  exists h1 new meta h2,
    MockFile_download 0 (Some {| dl_destination := Some "out.txt" |})
      demo_copy_source =
    (Return (CBuffer (list_byte_of_string "test file contents")), h1) /\
    MockBucket_upload (fun s => s) 0 "out.txt"
      (Some {| up_destination := Some (UpString "back.txt");
               up_metadata := JUndefined |}) h1 =
    (Return (VFile new, meta), h2) /\
    MockFile_download new None h2 =
    (Return (CBuffer (list_byte_of_string "test file contents")), h2).
Proof.
  destruct (download_then_upload (fun s => s) demo_copy_source 0
              (File.mk "test-file.txt" 0 0 0
                 (JObj [("metadata", JObj []); ("foo", JStr "bar")])
                 (CBuffer (list_byte_of_string "test file contents"))
                 Queues.empty)
              (Bucket.mk "test-bucket" 0 [("test-file.txt", VFile 0)] None)
              "out.txt" 0
              (Bucket.mk "test-bucket" 0 [("test-file.txt", VFile 0)] None)
              "back.txt" JUndefined
              (list_byte_of_string "test file contents"))
    as (h1 & new & meta & h2 & H1 & H2 & _ & _ & H3 & _);
    try reflexivity; try discriminate.
  exists h1, new, meta, h2. repeat split; assumption.
Defined.

(** ** The buckets of a storage *)

Lemma MockStorage_bucket_registers h s so name :
  Heap.storages h !! s = Some so ->
  plain_name name = true ->
  exists b h' so',
    MockStorage_bucket s name h = (Return (VBucket b), h') /\
    Heap.storages h' !! s = Some so' /\
    Obj.get name (Storage.buckets so') = Some b /\
    forall n' b', Obj.get n' (Storage.buckets so) = Some b' ->
                  Obj.get n' (Storage.buckets so') = Some b'.
Proof.
  intros Hs Hplain. rewrite (MockStorage_bucket_spec h s so name Hs).
  rewrite (buckets_get_plain so name Hplain).
  destruct (Obj.get name (Storage.buckets so)) as [b|] eqn:Hg;
    cbn [fmap option_fmap option_map].
  - exists b, h, so. auto.
  - eexists _, _, _. split; [reflexivity|].
    cbn [Heap.storages Heap.set_storages Heap.set_buckets].
    split; [apply list_lookup_insert_eq; eapply lookup_lt_Some; eauto|].
    cbn [Storage.buckets]. split; [apply get_set_eq|].
    intros n' b' Hn'. rewrite get_set_ne; [exact Hn'|]. congruence.
Qed.

(** X20: in a store that satisfies the invariant, [bucket] gives
    different buckets for different names that a record does not
    inherit from [Object.prototype], each with the name asked for, and
    creating the second leaves the first in place: asking for the first
    name again gives the first bucket. *)
Theorem buckets_by_name (h : Heap.t) (s : sref) (n1 n2 : string) :
  wf h ->
  has_storage s h ->
  n1 <> n2 ->
  plain_name n1 = true ->
  plain_name n2 = true ->
  exists b1 h1 b2 h2 bo1 bo2,
    MockStorage_bucket s n1 h = (Return (VBucket b1), h1) /\
    MockStorage_bucket s n2 h1 = (Return (VBucket b2), h2) /\
    b1 <> b2 /\
    Heap.buckets h2 !! b1 = Some bo1 /\ Bucket.name bo1 = n1 /\
    Heap.buckets h2 !! b2 = Some bo2 /\ Bucket.name bo2 = n2 /\
    MockStorage_bucket s n1 h2 = (Return (VBucket b1), h2).
Proof.
  intros Hwf [so Hs] Hne Hp1 Hp2.
  destruct (MockStorage_bucket_registers h s so n1 Hs Hp1)
    as (b1 & h1 & so1 & E1 & Hs1 & Hg1 & _).
  destruct (MockStorage_bucket_registers h1 s so1 n2 Hs1 Hp2)
    as (b2 & h2 & so2 & E2 & Hs2 & Hg2 & Hkeep).
  pose proof (keeps_MockStorage_bucket s n1 h Hwf (ex_intro _ so Hs)) as K1.
  rewrite E1 in K1. destruct K1 as (Hwf1 & _ & _).
  pose proof (keeps_MockStorage_bucket s n2 h1 Hwf1 (ex_intro _ so1 Hs1)) as K2.
  rewrite E2 in K2. destruct K2 as (Hwf2 & _ & _).
  destruct Hwf2 as (_ & _ & WS). destruct (WS s so2 Hs2) as (_ & Hreg).
  destruct (Hreg n1 b1 (Hkeep _ _ Hg1)) as (bo1 & Hb1 & Hn1 & _).
  destruct (Hreg n2 b2 Hg2) as (bo2 & Hb2 & Hn2 & _).
  exists b1, h1, b2, h2, bo1, bo2.
  repeat split; try assumption.
  - intros ->. congruence.
  - rewrite (MockStorage_bucket_spec h2 s so2 n1 Hs2).
    rewrite (buckets_get_plain so2 n1 Hp1), (Hkeep _ _ Hg1). reflexivity.
Qed.

Lemma buckets_by_name_witness :
  exists b1 h1 b2 h2,
    MockStorage_bucket 0 "test-bucket" demo_file = (Return (VBucket b1), h1) /\
    MockStorage_bucket 0 "other-bucket" h1 = (Return (VBucket b2), h2) /\
    b1 <> b2.
Proof.
  destruct (buckets_by_name demo_file 0 "test-bucket" "other-bucket"
              demo_file_wf)
    as (b1 & h1 & b2 & h2 & bo1 & bo2 & H1 & H2 & H3 & _).
  - vm_compute. eexists. reflexivity.
  - discriminate.
  - reflexivity.
  - reflexivity.
  - exists b1, h1, b2, h2. repeat split; assumption.
Defined.

(** ** What save and delete leave alone *)

Lemma child_set_files h h0 bk bo fs bk' n :
  Heap.buckets h !! bk = Some bo ->
  child (Heap.set_buckets (<[bk := Bucket.set_files fs bo]> (Heap.buckets h)) h0)
    bk' n =
  if decide (bk' = bk) then Obj.get n fs else child h bk' n.
Proof.
  intros Hb. unfold child. cbn [Heap.buckets Heap.set_buckets].
  destruct (decide (bk' = bk)) as [->|Hne].
  - rewrite list_lookup_insert_eq by (eapply lookup_lt_Some; eauto).
    reflexivity.
  - rewrite list_lookup_insert_ne by congruence. reflexivity.
Qed.

(** X21: [save] and [delete] touch one name of one bucket: every other
    name of that bucket and every name of the other buckets gives the
    file it gave; [save] changes no file object but its own, [delete]
    changes no file object at all, and neither touches the disk. *)
Theorem save_and_delete_touch_one_name (h : Heap.t) (f : fref) (o : File.t)
  (b : Bucket.t) :
  Heap.files h !! f = Some o ->
  Heap.buckets h !! File.bucket o = Some b ->
  (forall data options,
      Queues.get m_save (File.mockQueues o) = [] ->
      exists h',
        MockFile_save f data options h = (Return tt, h') /\
        (forall g, g <> f -> Heap.files h' !! g = Heap.files h !! g) /\
        (forall bk n, bk <> File.bucket o \/ n <> File.name o ->
                      child h' bk n = child h bk n) /\
        Heap.disk h' = Heap.disk h /\
        Heap.storages h' = Heap.storages h) /\
  (is_member h f = true ->
   Queues.get m_delete (File.mockQueues o) = [] ->
   exists r h',
     MockFile_delete f h = (Return r, h') /\
     Heap.files h' = Heap.files h /\
     child h' (File.bucket o) (File.name o) = None /\
     (forall bk n, bk <> File.bucket o \/ n <> File.name o ->
                   child h' bk n = child h bk n) /\
     Heap.disk h' = Heap.disk h /\
     Heap.storages h' = Heap.storages h).
Proof.
  intros Hf Hb. split.
  - intros data options Hq. exists (saved h f o b (to_buffer data) options).
    split; [apply MockFile_save_spec; assumption|].
    split; [intros g Hne; apply saved_other; exact Hne|].
    split; [|unfold saved, marked; destruct (is_member h f); auto].
    intros bk n Hother. unfold saved.
    change (child (Heap.set_files ?x ?y) bk n) with (child y bk n).
    destruct (is_member h f) eqn:Hm; [unfold marked; rewrite Hm; reflexivity|].
    rewrite (marked_assign h f o b Hf Hb Hm).
    rewrite (child_set_files h h _ b _ bk n Hb).
    destruct (decide (bk = File.bucket o)) as [->|Hne]; [|reflexivity].
    destruct Hother as [Hx|Hx]; [congruence|].
    rewrite get_set_ne by congruence. unfold child. rewrite Hb. reflexivity.
  - intros Hm Hq. exists (JObj Obj.empty), (deleted h o b).
    split; [apply MockFile_delete_present; assumption|].
    split; [reflexivity|].
    split; [apply (deleted_child h f o b Hf Hb)|].
    split; [|auto].
    intros bk n Hother. unfold deleted.
    rewrite (child_set_files h h _ b _ bk n Hb).
    destruct (decide (bk = File.bucket o)) as [->|Hne]; [|reflexivity].
    destruct Hother as [Hx|Hx]; [congruence|].
    rewrite get_remove. unfold child. rewrite Hb.
    apply String.eqb_neq in Hx. rewrite Hx. reflexivity.
Qed.

Lemma save_and_delete_touch_one_name_witness :
  exists h',
    MockFile_save 1 (DString "x") None demo_absent = (Return tt, h') /\
    child h' 0 "test-file.txt" = Some (VFile 0).
Proof.
  destruct (save_and_delete_touch_one_name demo_absent 1
              (fresh_file 0 0 "non-existent-file.txt")
              (Bucket.mk "test-bucket" 0 [("test-file.txt", VFile 0)] None)
              eq_refl eq_refl) as [H _].
  destruct (H (DString "x") None eq_refl) as (h' & H1 & _ & H2 & _).
  exists h'. split; [exact H1|].
  rewrite (H2 0 "test-file.txt"); [reflexivity|].
  right. discriminate.
Defined.

(** ** What the queues do not reach *)

(** X22: the streams, the handler that ends a write stream and the
    listing of a bucket consult no queue: whatever error is queued on
    whatever method of whatever file, they end as they would have
    without it, and leave the same store. *)
Theorem streams_and_listing_ignore_queues (f : fref) (op : Method) (e : Error)
  (h : Heap.t) :
  (forall g,
      MockFile_createReadStream g (snd (mockErrorOnce f op e h)) =
      (fst (MockFile_createReadStream g h),
       snd (mockErrorOnce f op e (snd (MockFile_createReadStream g h))))) /\
  (forall g,
      MockFile_createWriteStream g (snd (mockErrorOnce f op e h)) =
      (fst (MockFile_createWriteStream g h),
       snd (mockErrorOnce f op e (snd (MockFile_createWriteStream g h))))) /\
  (forall g written,
      MockFile_on_finish g written (snd (mockErrorOnce f op e h)) =
      (fst (MockFile_on_finish g written h),
       snd (mockErrorOnce f op e (snd (MockFile_on_finish g written h))))) /\
  (forall b query,
      MockBucket_getFiles b query (snd (mockErrorOnce f op e h)) =
      (fst (MockBucket_getFiles b query h),
       snd (mockErrorOnce f op e (snd (MockBucket_getFiles b query h))))).
Proof.
  split; [|split; [|split]].
  - intros g. revert h. change (sim f op e (MockFile_createReadStream g)
                                  (MockFile_createReadStream g)).
    unfold MockFile_createReadStream.
    apply sim_bind; [apply sim_mustBeExists|intros _].
    repeat sim_step.
  - intros g. revert h. change (sim f op e (MockFile_createWriteStream g)
                                  (MockFile_createWriteStream g)).
    apply sim_markAsExists.
  - intros g written. revert h.
    change (sim f op e (MockFile_on_finish g written)
              (MockFile_on_finish g written)).
    unfold MockFile_on_finish. apply sim_modifyFile. intros []. reflexivity.
  - intros b query. revert h.
    change (sim f op e (MockBucket_getFiles b query)
              (MockBucket_getFiles b query)).
    unfold MockBucket_getFiles. repeat sim_step.
Qed.


(** ** copy to a file handle *)

Lemma child_member h g og x :
  Heap.files h !! g = Some og ->
  child h (File.bucket og) (File.name og) = Some (VFile x) ->
  is_member h g = true.
Proof.
  intros Hg. unfold child, is_member. rewrite Hg.
  destruct (Heap.buckets h !! File.bucket og) as [b|]; [|discriminate].
  intros Hx. rewrite (files_get_own h b _ _ Hx). reflexivity.
Qed.

(** X23: [copy] takes from a file given as destination its bucket and
    its name, and nothing else: when the source holds bytes and nothing
    is found under that name in that bucket, the copy is written to a
    new file, which becomes the member of the name and is the one
    returned; the file that was given is not written to, and still
    holds its own contents. *)
Theorem copy_to_file_handle (h : Heap.t) (f : fref) (o : File.t) (b : Bucket.t)
  (g : fref) (og : File.t) (tbo : Bucket.t) (options : option CopyOptions)
  (bytes : Buffer) :
  Heap.files h !! f = Some o ->
  Heap.buckets h !! File.bucket o = Some b ->
  is_member h f = true ->
  Queues.get m_download (File.mockQueues o) = [] ->
  Queues.get m_getMetadata (File.mockQueues o) = [] ->
  File.contents o = CBuffer bytes ->
  Heap.files h !! g = Some og ->
  Heap.buckets h !! File.bucket og = Some tbo ->
  (forall p, Bucket.files_proto tbo = Some p -> is_Some (Heap.files h !! p)) ->
  defined_truthy (files_get h tbo (File.name og)) = false ->
  Queues.get m_download (File.mockQueues og) = [] ->
  exists new md h',
    MockFile_copy f (DestFile g) options h = (Return (new, md), h') /\
    new <> g /\
    child h' (File.bucket og) (File.name og) = Some (VFile new) /\
    contents_of h' new = Some (CBuffer bytes) /\
    Heap.files h' !! g = Some og /\
    MockFile_download g None h' = (Return (File.contents og), h').
Proof.
  intros Hf Hb Hm Hqd Hqg Hc Hg Htb Hproto Hnone Hqdg.
  set (tb := File.bucket og). set (tn := File.name og).
  set (new := length (Heap.files h)).
  set (h0 := constructed h tb tbo tn).
  set (fresh := fresh_file tb (Bucket.storage tbo) tn).
  set (merged := JObj (spread2 (File.metadata o) (options_metadata options))).
  set (h' := saved h0 new fresh tbo bytes (Some {| save_metadata := merged |})).
  assert (copy_target h o (DestFile g) = Some (tb, tn)) as Ht
      by (simpl; rewrite Hg; reflexivity).
  assert (Heap.files h0 !! new = Some fresh) as Hnew
      by (apply constructed_lookup).
  assert (Heap.buckets h0 !! File.bucket fresh = Some tbo) as Hb0 by exact Htb.
  assert (new <> g) as Hne by (apply lookup_lt_Some in Hg; unfold new; lia).
  assert (Heap.files h' !! g = Some og) as Hg'.
  { unfold h'. rewrite saved_other by congruence.
    apply constructed_lookup_old. exact Hg. }
  assert (child h' tb tn = Some (VFile new)) as Hchild.
  { pose proof (saved_child h0 new fresh tbo bytes
                  (Some {| save_metadata := merged |}) Hnew Hb0) as Hch.
    unfold h0, new in Hch.
    rewrite (constructed_not_member h tb tbo tn Htb Hproto Hnone) in Hch.
    exact Hch. }
  exists new, merged, h'.
  split; [|split; [exact Hne|split; [exact Hchild|split; [|split; [exact Hg'|]]]]].
  - rewrite (copy_to_new_name_run h f o b (DestFile g) options tb tn tbo
               Hf Hb Ht Hm Hqd Hqg Htb Hproto Hnone), Hc.
    reflexivity.
  - unfold contents_of, h'.
    rewrite (saved_lookup h0 new fresh tbo _ _ Hnew). reflexivity.
  - assert (is_member h' g = true) as Hmg
        by (eapply child_member; [exact Hg'|exact Hchild]).
    destruct (is_member_true_buckets Hg' Hmg) as (b' & Hb' & _).
    rewrite (MockFile_download_spec h' g og b' Hg' Hb'), Hqdg, Hmg.
    reflexivity.
Qed.

Lemma copy_to_file_handle_witness :
  exists new md h',
    MockFile_copy 0 (DestFile 1) None demo_absent = (Return (new, md), h') /\
    new <> 1 /\
    child h' 0 "non-existent-file.txt" = Some (VFile new).
Proof.
  destruct (copy_to_file_handle demo_absent 0
              (fresh_file 0 0 "test-file.txt")
              (Bucket.mk "test-bucket" 0 [("test-file.txt", VFile 0)] None)
              1 (fresh_file 0 0 "non-existent-file.txt")
              (Bucket.mk "test-bucket" 0 [("test-file.txt", VFile 0)] None)
              None [])
    as (new & md & h' & H1 & H2 & H3 & _); try reflexivity.
  - intros p Hp. discriminate Hp.
  - exists new, md, h'. repeat split; assumption.
Defined.

(** ** The metadata is always defined *)

Section DefinedMetadata.
Abbreviation pres := (preserves defined_metadata).

Lemma pres_ret {A} (a : A) : pres (ret a).
Proof. intros h H. exact H. Qed.

Lemma pres_throw {A} e : pres (@throw A e).
Proof. intros h H. exact H. Qed.

Lemma pres_bind {A B} (m : M A) (k : A -> M B) :
  pres m -> (forall a, pres (k a)) -> pres (bind m k).
Proof.
  intros Hm Hk h H. unfold bind. specialize (Hm h H).
  destruct (m h) as [[a|e|] h1]; simpl in *; [apply Hk|..]; exact Hm.
Qed.

Lemma pres_getFile f : pres (getFile f).
Proof. intros h H. unfold getFile. destruct (_ !! _); exact H. Qed.

Lemma pres_getBucket b : pres (getBucket b).
Proof. intros h H. unfold getBucket. destruct (_ !! _); exact H. Qed.

Lemma pres_getStorage s : pres (getStorage s).
Proof. intros h H. unfold getStorage. destruct (_ !! _); exact H. Qed.

Lemma pres_modifyBucket b G : pres (modifyBucket b G).
Proof. intros h H. unfold modifyBucket. destruct (_ !! _); exact H. Qed.

Lemma pres_modifyStorage s G : pres (modifyStorage s G).
Proof. intros h H. unfold modifyStorage. destruct (_ !! _); exact H. Qed.

Lemma pres_allocBucket o : pres (allocBucket o).
Proof. intros h H. exact H. Qed.

Lemma pres_allocStorage o : pres (allocStorage o).
Proof. intros h H. exact H. Qed.

Lemma pres_writeFileSync p d : pres (writeFileSync p d).
Proof.
  intros h H. unfold writeFileSync. destruct d; [|exact H].
  destruct (Obj.get _ _); exact H.
Qed.

Lemma pres_read_files b k : pres (read_files b k).
Proof. intros h H. exact H. Qed.

Lemma pres_as_file v : pres (as_file v).
Proof. intros h H. destruct v as [| | |[]| | | | |]; exact H. Qed.

Lemma pres_readFileSync p : pres (readFileSync p).
Proof. intros h H. unfold readFileSync. destruct (Obj.get _ _); exact H. Qed.

Lemma pres_modifyFile f G :
  (forall o, nullish (File.metadata o) = false ->
             nullish (File.metadata (G o)) = false) ->
  pres (modifyFile f G).
Proof.
  intros HG h H. unfold modifyFile.
  destruct (Heap.files h !! f) as [o|] eqn:Hf; [|exact H].
  intros g og. cbn [snd Heap.files Heap.set_files].
  destruct (decide (g = f)) as [->|Hne].
  - rewrite list_lookup_insert_eq by (eapply lookup_lt_Some; eauto).
    intros [= <-]. apply HG. eapply H; eauto.
  - rewrite list_lookup_insert_ne by congruence. apply H.
Qed.

Lemma pres_allocFile o :
  nullish (File.metadata o) = false -> pres (allocFile o).
Proof.
  intros Ho h H g og. cbn [snd allocFile Heap.files Heap.set_files].
  intros Hg. apply lookup_app_Some in Hg as [Hg|[_ Hg]]; [eapply H; eauto|].
  apply list_lookup_singleton_Some in Hg as [_ <-]. exact Ho.
Qed.

End DefinedMetadata.

Ltac pres_step :=
  first
    [ apply pres_ret
    | apply pres_throw
    | apply pres_getFile
    | apply pres_getBucket
    | apply pres_getStorage
    | apply pres_modifyBucket
    | apply pres_modifyStorage
    | apply pres_allocBucket
    | apply pres_allocStorage
    | apply pres_writeFileSync
    | apply pres_read_files
    | apply pres_as_file
    | apply pres_readFileSync
    | apply pres_allocFile; reflexivity
    | apply pres_modifyFile;
      first [ intros [] ?; assumption
            | intros; reflexivity
            | intros; cbn [File.metadata File.set_metadata];
              apply truthy_not_nullish; assumption ]
    | apply pres_bind; [|intros ?]
    | match goal with
      | |- preserves _ (match ?x with _ => _ end) => destruct x eqn:?
      end ].

Ltac pres_unfold :=
  unfold void, run, MockFile_copy, MockBucket_put, MockBucket_file,
    MockBucket_getFiles, MockStorage_bucket, new_MockStorage, new_MockBucket,
    MockFile_createReadStream, MockFile_createWriteStream, MockFile_on_finish,
    MockFile_delete, MockFile_exists, MockFile_setMetadata,
    MockFile_getMetadata, MockFile_getSignedUrl, MockFile_download,
    MockFile_save, MockFile_save_contents, delete_body, exists_body,
    setMetadata_body, getMetadata_body, getSignedUrl_body, download_body,
    save_body, save_body_with, mockValue_check, shift, mockReset,
    mockErrorOnce, mustBeExists, markAsExists, files_at, files_assign,
    new_MockFile, fresh_file, value_metadata, when.

Lemma exec_defined_metadata basename op :
  preserves defined_metadata (exec basename op).
Proof.
  destruct op; unfold exec; try unfold MockBucket_upload; pres_unfold;
    repeat pres_step.
Qed.

Lemma reachable_defined_metadata basename h :
  reachable basename h -> defined_metadata h.
Proof.
  induction 1 as [|h op Hr IH Hv].
  - intros f o Hf. destruct f; discriminate.
  - apply exec_defined_metadata. exact IH.
Qed.

(** X24: in every store that calls lead to from the empty one, the
    metadata of a file is never [undefined] or [null]: [getMetadata] on
    a member with nothing queued returns a defined value, and
    [setMetadata] on it fails only when its argument is [undefined] or
    [null]. *)
Theorem metadata_is_defined (basename : string -> string) (h : Heap.t)
  (f : fref) (o : File.t) :
  reachable basename h ->
  Heap.files h !! f = Some o ->
  nullish (File.metadata o) = false /\
  (is_member h f = true ->
   Queues.get m_getMetadata (File.mockQueues o) = [] ->
   exists md h',
     MockFile_getMetadata f h = (Return (md, JObj Obj.empty), h') /\
     nullish md = false) /\
  (is_member h f = true ->
   Queues.get m_setMetadata (File.mockQueues o) = [] ->
   forall md, nullish md = false ->
     exists r h', MockFile_setMetadata f md h = (Return r, h')).
Proof.
  intros Hr Hf.
  pose proof (reachable_defined_metadata basename h Hr f o Hf) as Ho.
  split; [exact Ho|]. split.
  - intros Hm Hq. destruct (is_member_true_buckets Hf Hm) as (b & Hb & _).
    exists (File.metadata o), h.
    rewrite (MockFile_getMetadata_spec h f o b Hf Hb), Hq, Hm. auto.
  - intros Hm Hq md Hmd.
    destruct (is_member_true_buckets Hf Hm) as (b & Hb & _).
    assert (exists old_custom, prop_metadata (File.metadata o) = inr old_custom)
      as [old_custom Hold]
        by (destruct (File.metadata o); try discriminate; simpl; eauto).
    assert (exists new_custom, prop_metadata md = inr new_custom)
      as [new_custom Hnew]
        by (destruct md; try discriminate; simpl; eauto).
    eexists _, _.
    apply (MockFile_setMetadata_spec h f o b Hf Hb Hm md old_custom
             new_custom Hq Hold Hnew).
Qed.

Lemma demo_file_reached : reachable (fun s : string => s) demo_file.
Proof.
  pose (b := fun s : string => s).
  change (reachable b
            (snd (exec b (op_file 0 "test-file.txt" true)
                    (snd (exec b (op_bucket 0 "test-bucket")
                            (snd (exec b op_new_MockStorage Heap.empty))))))).
  apply reach_step; [apply reach_step; [apply reach_step; [apply reach_empty|]|]|].
  - exact I.
  - vm_compute. eexists. reflexivity.
  - vm_compute. eexists. reflexivity.
Defined.

Lemma metadata_is_defined_witness :
  nullish (File.metadata (fresh_file 0 0 "test-file.txt")) = false.
Proof.
  apply (proj1 (metadata_is_defined (fun s => s) demo_file 0
                  (fresh_file 0 0 "test-file.txt") demo_file_reached
                  eq_refl)).
Defined.

(** ** exists and the membership of ordinary names *)

(** X27: with no error queued on exists, exists() answers whether the
    name of the handle finds something truthy in the record of its
    bucket. It answers false on a handle that file(name) has just made
    for a name under which nothing is found; true right after a save,
    which succeeds on a member or not when no error is queued on it;
    true after a write stream was opened and closed; and true on the
    new file that a copy to a name under which nothing is found
    returns, as on the handle that any successful copy returns. For a
    name under which the record inherits nothing, it answers false right
    after a successful delete. delete() on an object that is not a
    member never succeeds and, with no error queued on delete, fails
    with "No such file" and changes nothing; on a member it succeeds. *)
Theorem exists_tracks_membership (h : Heap.t) (f : fref) (o : File.t)
  (b : Bucket.t) :
  Heap.files h !! f = Some o ->
  Heap.buckets h !! File.bucket o = Some b ->
  Queues.get m_exists (File.mockQueues o) = [] ->
  MockFile_exists f h = (Return (is_member h f), h) /\
  (forall bk bo n,
      Heap.buckets h !! bk = Some bo ->
      (forall p, Bucket.files_proto bo = Some p -> is_Some (Heap.files h !! p)) ->
      defined_truthy (files_get h bo n) = false ->
      exists g h1,
        MockBucket_file bk n false h = (Return (VFile g), h1) /\
        MockFile_exists g h1 = (Return false, h1)) /\
  (forall data options,
      Queues.get m_save (File.mockQueues o) = [] ->
      exists h1,
        MockFile_save f data options h = (Return tt, h1) /\
        MockFile_exists f h1 = (Return true, h1)) /\
  (forall written,
      (written = CFalse -> Bucket.files_proto b = None) ->
      exists h1,
        (do! MockFile_createWriteStream f in MockFile_on_finish f written) h =
        (Return tt, h1) /\
        MockFile_exists f h1 = (Return true, h1)) /\
  (forall destination options tb tn tbo bytes,
      copy_target h o destination = Some (tb, tn) ->
      is_member h f = true ->
      Queues.get m_download (File.mockQueues o) = [] ->
      Queues.get m_getMetadata (File.mockQueues o) = [] ->
      File.contents o = CBuffer bytes ->
      Heap.buckets h !! tb = Some tbo ->
      (forall p, Bucket.files_proto tbo = Some p -> is_Some (Heap.files h !! p)) ->
      defined_truthy (files_get h tbo tn) = false ->
      exists new md h1,
        MockFile_copy f destination options h = (Return (new, md), h1) /\
        MockFile_exists new h1 = (Return true, h1)) /\
  (forall src destination options g md h1,
      MockFile_copy src destination options h = (Return (g, md), h1) ->
      no_pending h1 g m_exists ->
      MockFile_exists g h1 = (Return true, h1)) /\
  (inherits h b (File.name o) = false ->
   forall r h1,
     MockFile_delete f h = (Return r, h1) ->
     MockFile_exists f h1 = (Return false, h1)) /\
  (is_member h f = false ->
   (forall r h1, MockFile_delete f h <> (Return r, h1)) /\
   (Queues.get m_delete (File.mockQueues o) = [] ->
    MockFile_delete f h =
    (Throw (no_such_file (Bucket.name b) (File.name o)), h))) /\
  (is_member h f = true ->
   Queues.get m_delete (File.mockQueues o) = [] ->
   exists h1,
     MockFile_delete f h = (Return (JObj Obj.empty), h1) /\
     (inherits h b (File.name o) = false ->
      MockFile_exists f h1 = (Return false, h1))).
Proof.
  intros Hf Hb Hq. repeat apply conj.
  - apply (MockFile_exists_spec h f o b Hf Hb Hq).
  - intros bk bo n Hbk Hp Hn. eexists _, _. split.
    + apply (MockBucket_file_fresh h bk bo n Hbk Hn).
    + apply (exists_after_file h bk bo n Hbk Hp Hn).
  - intros data options Hqs. eexists. split.
    + apply (MockFile_save_spec h f o b data options Hf Hb Hqs).
    + apply exists_after_save; assumption.
  - intros written Hw. eexists. split.
    + apply (write_stream_spec h f o b written Hf Hb).
    + destruct (marked_bucket h f o b Hf Hb) as [b' Hb'].
      rewrite <- (finished_member h f o b written Hf Hb Hw) at 1.
      eapply MockFile_exists_spec.
      * cbn [Heap.files Heap.set_files]. apply list_lookup_insert_eq.
        eapply lookup_lt_Some; eauto.
      * cbn [File.bucket File.set_contents]. exact Hb'.
      * exact Hq.
  - intros destination options tb tn tbo bytes Ht Hm Hqd Hqg Hc Htb Hp Hn.
    eexists _, _, _. split.
    + rewrite (copy_to_new_name_run h f o b destination options tb tn tbo
                 Hf Hb Ht Hm Hqd Hqg Htb Hp Hn), Hc.
      reflexivity.
    + apply exists_after_save; [apply constructed_lookup|exact Htb|reflexivity].
  - intros src destination options g md h1 H Hp.
    apply MockFile_copy_return_source in H
      as (os & h0 & contents & _ & _ & _ & _ & _ & _ & H).
    apply MockFile_save_contents_return_inv in H
      as (og & bg & bytes & Hg & Hbg & _ & _ & ->).
    apply exists_after_save; try assumption.
    unfold no_pending, saved in Hp. simpl in Hp.
    rewrite list_lookup_insert_eq in Hp by (eapply lookup_lt_Some; eauto).
    apply (Hp _ eq_refl).
  - intros Hi r h1 H.
    apply MockFile_delete_return_inv in H as (o' & b' & Hf' & Hb' & _ & _ & ->).
    assert (o' = o) as -> by congruence.
    assert (b' = b) as -> by congruence.
    rewrite (exists_after_delete_inherits h f o b Hf Hb Hq), Hi. reflexivity.
  - intros Hm. apply (MockFile_delete_absent h f o b Hf Hb Hm).
  - intros Hm Hqd. eexists. split.
    + apply (MockFile_delete_present h f o b Hf Hb Hm Hqd).
    + intros Hi.
      rewrite (exists_after_delete_inherits h f o b Hf Hb Hq), Hi. reflexivity.
Qed.

Lemma exists_tracks_membership_witness :
  MockFile_exists 1 demo_absent = (Return false, demo_absent) /\
  (exists h1,
      MockFile_save 1 (DString "contents") None demo_absent = (Return tt, h1) /\
      MockFile_exists 1 h1 = (Return true, h1)) /\
  (exists h1,
      MockFile_delete 0 demo_file = (Return (JObj Obj.empty), h1) /\
      MockFile_exists 0 h1 = (Return false, h1)).
Proof.
  pose proof (exists_tracks_membership demo_absent 1 _ _ eq_refl eq_refl eq_refl)
    as (Hex & _ & Hsave & _).
  pose proof (exists_tracks_membership demo_file 0 _ _ eq_refl eq_refl eq_refl)
    as (_ & _ & _ & _ & _ & _ & _ & _ & Hdel).
  split; [exact Hex|]. split.
  - apply (Hsave (DString "contents") None). reflexivity.
  - destruct (Hdel eq_refl eq_refl) as (h1 & H1 & H2).
    exists h1. split; [exact H1|]. apply H2. reflexivity.
Defined.
